(** * Retention and capacity monitoring of the reservation backend

    A shallow embedding of [utils/databaseManager.js] (class
    [DatabaseManager]) and of the class [NotificationManager], which
    [DatabaseManager] requires and which its file does not export,
    together with the parts of the JavaScript runtime, of Mongoose and of the
    network that the two classes touch; and of their surroundings: the
    phone validator of [models/reservation.js], [connectToDatabase] of
    [utils/db.js], the route that purges old reservations, the server that
    schedules the maintenance and answers the health check, and the
    connection of the MongoDB driver in [utils/dbConnect.js].

    - JavaScript numbers are exact rationals ([Q]).  The byte counters
      reported by the store are integers; dividing them by [1024 * 1024] and
      by [512] only shifts the binary exponent, and the remaining operations
      ([512 - x], [x * 100]) are exact in binary64 for every counter below
      [2 ^ 46], so the rational value is the value the program computes.
    - A [Date] is its time value, the number of milliseconds since the epoch.
    - The collection [reservations] is a finite map from [_id] to document,
      which is the uniqueness of [_id] the store guarantees.
    - Everything outside the process (clock, store faults, byte counters of
      the store after a write, mail relay, webhook endpoint, order in which
      two pending requests settle) is scripted in the [World], so every run
      of the program is the run on some [World]. *)

From stdpp Require Import gmap strings list fin_maps.
From Stdlib Require Import Ascii QArith Qround Qabs Lqa.

Open Scope Z_scope.

(** ** Values *)

(** A JavaScript [Error]; only its [message] is read by the program. *)
Record Error := { message : string }.

(** Outcome of evaluating a statement list or of settling a promise. *)
Inductive Completion (A : Type) : Type :=
| Normal (a : A)
| Throw (e : Error).
Arguments Normal {A} a.
Arguments Throw {A} e.

(** The character U+0022, which the templates of the program contain. *)
Definition quote : string := String "034"%char EmptyString.

(** ** [Number.prototype.toString], [toFixed] and [parseFloat] *)

Module Number.

Definition digit_char (d : N) : ascii := ascii_of_N (48 + d).

Definition is_digit (c : ascii) : bool :=
  ((48 <=? N_of_ascii c) && (N_of_ascii c <=? 57))%N.

Definition digit_val (c : ascii) : N := (N_of_ascii c - 48)%N.

(** Decimal digits of [n], most significant first; [fuel] bounds the
    number of digits. *)
Fixpoint digits_fuel (fuel : nat) (n : N) (acc : list ascii) : list ascii :=
  match fuel with
  | O => acc
  | S fuel' =>
      let acc' := digit_char (n mod 10) :: acc in
      if (n / 10 =? 0)%N then acc' else digits_fuel fuel' (n / 10) acc'
  end.

Definition digits (n : N) : list ascii :=
  digits_fuel (S (N.to_nat (N.log2 n))) n [].

(** [String(n)] for a non-negative integer, as template literals do. *)
Definition toString (n : nat) : string :=
  String.string_of_list_ascii (digits (N.of_nat n)).

(** Value of a run of decimal digits. *)
Definition value (l : list ascii) : N :=
  fold_left (fun acc c => (10 * acc + digit_val c)%N) l 0%N.

Definition scale (f : nat) : Z := 10 ^ Z.of_nat f.

(** The integer [n] for which [n / 10^f - x] is as close to zero as
    possible, the larger one on a tie ([x] non-negative). *)
Definition nearest (f : nat) (x : Q) : N :=
  Z.to_N (Qfloor (x * inject_Z (scale f) + (1 # 2))).

Definition is_negative (x : Q) : bool := negb (Qle_bool 0 x).

(** [x.toFixed(f)] for [|x| < 10^21]. *)
Definition toFixed_chars (f : nat) (x : Q) : list ascii :=
  let s := if is_negative x then ["-"%char] else [] in
  let n := nearest f (Qabs x) in
  let m := digits n in
  let m :=
    if Nat.eqb f 0 then m
    else
      let m := repeat "0"%char (S f - length m) ++ m in
      let k := length m in
      take (k - f) m ++ "."%char :: drop (k - f) m
  in s ++ m.

Definition toFixed (f : nat) (x : Q) : string :=
  String.string_of_list_ascii (toFixed_chars f x).

Definition is_space (c : ascii) : bool :=
  (N_of_ascii c =? 32)%N || ((9 <=? N_of_ascii c) && (N_of_ascii c <=? 13))%N.

Fixpoint span_digits (l : list ascii) : list ascii * list ascii :=
  match l with
  | c :: l' =>
      if is_digit c then let (d, r) := span_digits l' in (c :: d, r)
      else ([], l)
  | [] => ([], [])
  end.

(** The white space of more than one byte that [parseInt] and [parseFloat]
    skip, in UTF-8: U+1680, U+2000 to U+200A, U+2028, U+2029, U+202F,
    U+205F, U+3000 and U+FEFF; U+00A0 takes two bytes. *)
Definition wide_space (b1 b2 b3 : N) : bool :=
  ((b1 =? 225) && (b2 =? 154) && (b3 =? 128))%N
  || ((b1 =? 226) && (b2 =? 128)
      && (((128 <=? b3) && (b3 <=? 138)) || (b3 =? 168) || (b3 =? 169) || (b3 =? 175)))%N
  || ((b1 =? 226) && (b2 =? 129) && (b3 =? 159))%N
  || ((b1 =? 227) && (b2 =? 128) && (b3 =? 128))%N
  || ((b1 =? 239) && (b2 =? 187) && (b3 =? 191))%N.

(** The string without its leading [StrWhiteSpaceChar]s; a string is the
    UTF-8 form of the JavaScript string. *)
Fixpoint trim_start (l : list ascii) : list ascii :=
  match l with
  | c1 :: l1 =>
      if is_space c1 then trim_start l1
      else
        match l1 with
        | c2 :: l2 =>
            if ((N_of_ascii c1 =? 194) && (N_of_ascii c2 =? 160))%N then trim_start l2
            else
              match l2 with
              | c3 :: l3 =>
                  if wide_space (N_of_ascii c1) (N_of_ascii c2) (N_of_ascii c3)
                  then trim_start l3 else l
              | [] => l
              end
        | [] => l
        end
  | [] => []
  end.

(** A run of digits with an optional fraction; [None] is [NaN]. *)
Definition parse_unsigned (l : list ascii) : option Q :=
  let '(ip, l) := span_digits l in
  let fp :=
    match l with
    | "."%char :: l' => fst (span_digits l')
    | _ => []
    end in
  match ip, fp with
  | [], [] => None
  | _, _ =>
      Some (Z.of_N (value (ip ++ fp)) # Pos.of_nat (Z.to_nat (scale (length fp))))
  end.

(** [parseFloat] on a decimal literal without exponent (the only strings
    the program passes are results of [toFixed]). *)
Definition parseFloat_chars (l : list ascii) : option Q :=
  match trim_start l with
  | "-"%char :: l' => Qopp <$> parse_unsigned l'
  | "+"%char :: l' => parse_unsigned l'
  | l' => parse_unsigned l'
  end.

Definition parseFloat (s : string) : option Q :=
  parseFloat_chars (String.list_ascii_of_string s).

(** [a > b] where [a] may be [NaN]: every comparison with [NaN] is false. *)
Definition gt (a : option Q) (b : Q) : bool :=
  match a with
  | Some x => negb (Qle_bool x b)
  | None => false
  end.

(** The value of [c] as a digit in base [radix], if it is one. *)
Definition digit_of (radix : N) (c : ascii) : option N :=
  let n := N_of_ascii c in
  let v :=
    if ((48 <=? n) && (n <=? 57))%N then Some (n - 48)%N
    else if ((97 <=? n) && (n <=? 122))%N then Some (n - 87)%N
    else if ((65 <=? n) && (n <=? 90))%N then Some (n - 55)%N
    else None in
  match v with
  | Some d => if (d <? radix)%N then Some d else None
  | None => None
  end.

(** The value of the longest run of digits in base [radix] at the start of
    [l], after the digits of value [acc] read so far; [None] while no digit
    has been read. *)
Fixpoint leading_value (radix : N) (l : list ascii) (acc : option N) : option N :=
  match l with
  | c :: l' =>
      match digit_of radix c with
      | Some d => leading_value radix l' (Some (radix * default 0%N acc + d)%N)
      | None => acc
      end
  | [] => acc
  end.

(** The steps of [parseInt]: an optional sign, then an optional [0x]. *)
Definition strip_sign (s : list ascii) : bool * list ascii :=
  match s with
  | "-"%char :: s' => (true, s')
  | "+"%char :: s' => (false, s')
  | _ => (false, s)
  end.

Definition strip_prefix (s : list ascii) : N * list ascii :=
  match s with
  | "0"%char :: "x"%char :: s' => (16%N, s')
  | "0"%char :: "X"%char :: s' => (16%N, s')
  | _ => (10%N, s)
  end.

(** [parseInt(s)] with no radix: white space and a sign are skipped, [0x]
    selects base 16 and what follows the digits is ignored.  The result is
    the integer the digits denote as long as binary64 holds it exactly;
    [None] stands for [NaN] and for every result beyond [2 ^ 53] in
    magnitude, which the digits determine only up to rounding. *)
Definition parseInt_chars (l : list ascii) : option Z :=
  let '(negative, s) := strip_sign (trim_start l) in
  let '(radix, s) := strip_prefix s in
  match leading_value radix s None with
  | Some n =>
      if (n <=? 2 ^ 53)%N
      then Some (if negative : bool then - Z.of_N n else Z.of_N n)
      else None
  | None => None
  end.

Definition parseInt (s : string) : option Z :=
  parseInt_chars (String.list_ascii_of_string s).

End Number.

(** ** [Date]: the time-value algorithms of ECMAScript *)

Module Date.

Definition msPerDay : Z := 86400000.

Definition Day (t : Z) : Z := t / msPerDay.
Definition TimeWithinDay (t : Z) : Z := t mod msPerDay.

Definition DaysInYear (y : Z) : Z :=
  if (y mod 4 =? 0) && (negb (y mod 100 =? 0) || (y mod 400 =? 0))
  then 366 else 365.

Definition DayFromYear (y : Z) : Z :=
  365 * (y - 1970) + (y - 1969) / 4 - (y - 1901) / 100 + (y - 1601) / 400.

(** The year containing day number [d]: the largest [y] with
    [DayFromYear y <= d].  Day [-134774] is 1 January 1601, the first day
    of a 400-year cycle of 146097 days, made of centuries of 36524 days
    (the last one a day longer) and groups of four years of 1461 days
    (the last year of a group a day longer). *)
Definition YearFromDay (d : Z) : Z :=
  let z := d + 134774 in
  let era := z / 146097 in
  let doe := z mod 146097 in
  let c := Z.min (doe / 36524) 3 in
  let doc := doe - c * 36524 in
  let q := doc / 1461 in
  let doq := doc mod 1461 in
  let y := Z.min (doq / 365) 3 in
  1601 + 400 * era + 100 * c + 4 * q + y.

Definition YearFromTime (t : Z) : Z := YearFromDay (Day t).

Definition InLeapYear (t : Z) : Z :=
  if DaysInYear (YearFromTime t) =? 366 then 1 else 0.

Definition DayWithinYear (t : Z) : Z := Day t - DayFromYear (YearFromTime t).

(** Day number within the year on which month [m] (0 to 11) starts. *)
Definition monthStart (m leap : Z) : Z :=
  match m with
  | 0 => 0
  | 1 => 31
  | 2 => 59 + leap
  | 3 => 90 + leap
  | 4 => 120 + leap
  | 5 => 151 + leap
  | 6 => 181 + leap
  | 7 => 212 + leap
  | 8 => 243 + leap
  | 9 => 273 + leap
  | 10 => 304 + leap
  | _ => 334 + leap
  end.

Definition MonthFromTime (t : Z) : Z :=
  let d := DayWithinYear t in
  let leap := InLeapYear t in
  if d <? 31 then 0
  else if d <? 59 + leap then 1
  else if d <? 90 + leap then 2
  else if d <? 120 + leap then 3
  else if d <? 151 + leap then 4
  else if d <? 181 + leap then 5
  else if d <? 212 + leap then 6
  else if d <? 243 + leap then 7
  else if d <? 273 + leap then 8
  else if d <? 304 + leap then 9
  else if d <? 334 + leap then 10
  else 11.

Definition DateFromTime (t : Z) : Z :=
  DayWithinYear t - monthStart (MonthFromTime t) (InLeapYear t) + 1.

Definition MakeDay (year month date : Z) : Z :=
  let ym := year + month / 12 in
  let mn := month mod 12 in
  let leap := if DaysInYear ym =? 366 then 1 else 0 in
  DayFromYear ym + monthStart mn leap + date - 1.

Definition MakeDate (day time : Z) : Z := day * msPerDay + time.

Definition msPerHour : Z := 3600000.
Definition msPerMinute : Z := 60000.

Definition HourFromTime (t : Z) : Z := (t / msPerHour) mod 24.
Definition MinFromTime (t : Z) : Z := (t / msPerMinute) mod 60.

(** 0 is Sunday; day 0 of the epoch was a Thursday. *)
Definition WeekDay (t : Z) : Z := (Day t + 4) mod 7.

Section Zone.
(** [LocalTZA t isUTC]: the offset of the host's time zone in
    milliseconds, at UTC time [t] when [isUTC] and at local time [t]
    otherwise. *)
Variable LocalTZA : Z -> bool -> Z.

Definition LocalTime (t : Z) : Z := t + LocalTZA t true.
Definition UTC (t : Z) : Z := t - LocalTZA t false.

(** [d.getDate()] *)
Definition getDate (d : Z) : Z := DateFromTime (LocalTime d).

(** [d.getHours()], [d.getMinutes()] and [d.getDay()] *)
Definition getHours (d : Z) : Z := HourFromTime (LocalTime d).
Definition getMinutes (d : Z) : Z := MinFromTime (LocalTime d).
Definition getDay (d : Z) : Z := WeekDay (LocalTime d).

(** [d.setDate(date)]: the new time value of [d] (time values stay far
    inside the range of [TimeClip]). *)
Definition setDate (d : Z) (date : Z) : Z :=
  let t := LocalTime d in
  let newDate :=
    MakeDate (MakeDay (YearFromTime t) (MonthFromTime t) date)
             (TimeWithinDay t) in
  UTC newDate.
End Zone.

End Date.

(** ** Documents, requests and observable events *)

(** A MongoDB [ObjectId], a 12-byte value. *)
Definition ObjectId : Type := N.

(** A document of the collection [reservations] ([models/reservation.js]),
    without its [_id], which is the key under which the store holds it.
    Updates do not run the schema validators, so [status] is any string. *)
Record Reservation := {
  name : string;
  phone : string;
  branch : string;
  time : string;
  status : string;
  otp : option string;
  cancellationReason : option string;
  createdAt : Z
}.

(** A document of the archive collection: the fields of [res.toObject()]
    followed by the three fields [archiveReservations] adds. *)
Record ArchiveDoc := {
  _id : ObjectId;
  original : Reservation;
  archivedAt : Z;
  archiveReason : string;
  originalCollection : string
}.

(** The counters of [db.stats()] the program reads, in bytes. *)
Record DbStats := {
  dataSize : Z;
  storageSize : Z;
  indexSize : Z
}.

(** The variables of [process.env] the program reads; [None] is
    [undefined]. *)
Record Env := {
  EMAIL_USER : option string;
  EMAIL_PASSWORD : option string;
  ADMIN_EMAIL : option string;
  DISCORD_WEBHOOK_URL : option string
}.

(** The argument of [nodemailer.createTransport]. *)
Record Transport := {
  service : string;
  auth_user : option string;
  auth_pass : option string
}.

(** The argument of [transporter.sendMail]. *)
Record MailOptions := {
  mail_from : option string;
  mail_to : option string;
  subject : string;
  html : string
}.

(** The embed posted to the webhook, the value given to [JSON.stringify];
    [timestamp] is the time value whose ISO rendering is sent. *)
Record Embed := {
  title : string;
  description : string;
  color : Z;
  timestamp : Z
}.

(** The two calls that leave the process and are awaited. *)
Inductive Request : Type :=
| SendMail (t : Transport) (m : MailOptions)
| Fetch (url : string) (embed : Embed).

Inductive Response : Type :=
| MailInfo
| HttpResponse (ok : bool) (statusText : string).

(** What the webhook endpoint does with one request. *)
Inductive FetchOutcome : Type :=
| NetworkError (msg : string)
| Responded (ok : bool) (statusText : string).

Inductive Event : Type :=
| Issued (r : Request)
| Settled (r : Request) (c : Completion Response)
| ConsoleLog (text : string)
| ConsoleError (text : string) (e : Error).

(** ** The world the program runs in *)

Record World := {
  (** the store *)
  reservations : gmap ObjectId Reservation;
  archives : list ArchiveDoc;
  models : list string;             (* names registered with [mongoose.model] *)
  dbStats : DbStats;                (* what [db.stats()] reports *)
  usage : list DbStats;             (* what it reports after each write to come *)
  faults : list (option string);    (* per store call: [Some msg] makes it reject *)
  (** the host *)
  env : Env;
  LocalTZA : Z -> bool -> Z;
  clock : Z;                        (* the next reading of the clock *)
  ticks : list N;                   (* how far the clock advances after each reading *)
  (** the network *)
  smtp : list (option string);      (* per mail: [Some msg] makes the relay refuse it *)
  http : list FetchOutcome;         (* per webhook request *)
  sched : list bool;                (* of two pending requests: [true], the first settles first *)
  inflight : nat;                   (* requests issued and not yet settled *)
  (** what an observer has seen so far, newest event first *)
  trace : list Event
}.

Definition set_reservations (v : gmap ObjectId Reservation) (w : World) : World :=
  {| reservations := v; archives := archives w; models := models w;
     dbStats := dbStats w; usage := usage w; faults := faults w; env := env w;
     LocalTZA := LocalTZA w; clock := clock w; ticks := ticks w;
     smtp := smtp w; http := http w; sched := sched w;
     inflight := inflight w; trace := trace w |}.

Definition set_archives (v : list ArchiveDoc) (w : World) : World :=
  {| reservations := reservations w; archives := v; models := models w;
     dbStats := dbStats w; usage := usage w; faults := faults w; env := env w;
     LocalTZA := LocalTZA w; clock := clock w; ticks := ticks w;
     smtp := smtp w; http := http w; sched := sched w;
     inflight := inflight w; trace := trace w |}.

Definition set_faults (v : list (option string)) (w : World) : World :=
  {| reservations := reservations w; archives := archives w; models := models w;
     dbStats := dbStats w; usage := usage w; faults := v; env := env w;
     LocalTZA := LocalTZA w; clock := clock w; ticks := ticks w;
     smtp := smtp w; http := http w; sched := sched w;
     inflight := inflight w; trace := trace w |}.

Definition set_clock (c : Z) (t : list N) (w : World) : World :=
  {| reservations := reservations w; archives := archives w; models := models w;
     dbStats := dbStats w; usage := usage w; faults := faults w; env := env w;
     LocalTZA := LocalTZA w; clock := c; ticks := t;
     smtp := smtp w; http := http w; sched := sched w;
     inflight := inflight w; trace := trace w |}.

Definition set_smtp (v : list (option string)) (w : World) : World :=
  {| reservations := reservations w; archives := archives w; models := models w;
     dbStats := dbStats w; usage := usage w; faults := faults w; env := env w;
     LocalTZA := LocalTZA w; clock := clock w; ticks := ticks w;
     smtp := v; http := http w; sched := sched w;
     inflight := inflight w; trace := trace w |}.

Definition set_http (v : list FetchOutcome) (w : World) : World :=
  {| reservations := reservations w; archives := archives w; models := models w;
     dbStats := dbStats w; usage := usage w; faults := faults w; env := env w;
     LocalTZA := LocalTZA w; clock := clock w; ticks := ticks w;
     smtp := smtp w; http := v; sched := sched w;
     inflight := inflight w; trace := trace w |}.

Definition set_sched (v : list bool) (w : World) : World :=
  {| reservations := reservations w; archives := archives w; models := models w;
     dbStats := dbStats w; usage := usage w; faults := faults w; env := env w;
     LocalTZA := LocalTZA w; clock := clock w; ticks := ticks w;
     smtp := smtp w; http := http w; sched := v;
     inflight := inflight w; trace := trace w |}.

Definition set_inflight (v : nat) (w : World) : World :=
  {| reservations := reservations w; archives := archives w; models := models w;
     dbStats := dbStats w; usage := usage w; faults := faults w; env := env w;
     LocalTZA := LocalTZA w; clock := clock w; ticks := ticks w;
     smtp := smtp w; http := http w; sched := sched w;
     inflight := v; trace := trace w |}.

Definition set_trace (v : list Event) (w : World) : World :=
  {| reservations := reservations w; archives := archives w; models := models w;
     dbStats := dbStats w; usage := usage w; faults := faults w; env := env w;
     LocalTZA := LocalTZA w; clock := clock w; ticks := ticks w;
     smtp := smtp w; http := http w; sched := sched w;
     inflight := inflight w; trace := v |}.

(** The store has written: its counters follow. *)
Definition remeasure (w : World) : World :=
  match usage w with
  | st :: rest =>
      {| reservations := reservations w; archives := archives w; models := models w;
         dbStats := st; usage := rest; faults := faults w; env := env w;
         LocalTZA := LocalTZA w; clock := clock w; ticks := ticks w;
         smtp := smtp w; http := http w; sched := sched w;
         inflight := inflight w; trace := trace w |}
  | [] => w
  end.

(** ** Code that is run to completion *)

(** A statement list, or an [async] function whose caller awaits it at
    once: it ends normally or throws, and changes the world on the way. *)
Definition M (A : Type) : Type := World -> Completion A * World.

Definition ret {A} (a : A) : M A := fun w => (Normal a, w).

Definition throw {A} (e : Error) : M A := fun w => (Throw e, w).

Definition bind {A B} (m : M A) (f : A -> M B) : M B :=
  fun w =>
    match m w with
    | (Normal a, w') => f a w'
    | (Throw e, w') => (Throw e, w')
    end.

(** [try { body } catch (error) { handler }] *)
Definition try_catch {A} (body : M A) (handler : Error -> M A) : M A :=
  fun w =>
    match body w with
    | (Normal a, w') => (Normal a, w')
    | (Throw e, w') => handler e w'
    end.

Notation "x <- m ;; k" := (bind m (fun x => k))
  (at level 100, m at next level, right associativity).
Notation "m ;;; k" := (bind m (fun _ => k))
  (at level 100, right associativity).

Definition emit (ev : Event) : M unit :=
  fun w => (Normal tt, set_trace (ev :: trace w) w).

Definition console_log (text : string) : M unit := emit (ConsoleLog text).

Definition console_error (text : string) (e : Error) : M unit :=
  emit (ConsoleError text e).

(** [new Date()] and [Date.now()]: the reading of the clock, which then
    moves on. *)
Definition new_Date : M Z :=
  fun w =>
    match ticks w with
    | d :: rest => (Normal (clock w), set_clock (clock w + Z.of_N d) rest w)
    | [] => (Normal (clock w), w)
    end.

Definition process_env (var : Env -> option string) : M (option string) :=
  fun w => (Normal (var (env w)), w).

(** JavaScript truthiness of a value that is a string or [undefined]. *)
Definition truthy (v : option string) : bool :=
  match v with
  | Some s => negb (String.eqb s EmptyString)
  | None => false
  end.

(** ** [async] functions that run side by side *)

(** The state of a call of an [async] function when control comes back to
    the caller: it has settled, or it has issued request [r] and will go on
    with [k] once the request settles. *)
Inductive Step (A : Type) : Type :=
| Done (c : Completion A)
| Wait (r : Request) (k : Completion Response -> World -> Step A * World).
Arguments Done {A} c.
Arguments Wait {A} r k.

Definition Async (A : Type) : Type := World -> Step A * World.

Module Async.

Definition ret {A} (a : A) : Async A := fun w => (Done (Normal a), w).

Definition throw {A} (e : Error) : Async A := fun w => (Done (Throw e), w).

(** A piece of synchronous code inside the function. *)
Definition lift {A} (m : M A) : Async A :=
  fun w => let (c, w') := m w in (Done c, w').

Fixpoint step_bind {A B} (s : Step A) (f : A -> Async B) : Async B :=
  fun w =>
    match s with
    | Done (Normal a) => f a w
    | Done (Throw e) => (Done (Throw e), w)
    | Wait r k =>
        (Wait r (fun c w' => let (s', w'') := k c w' in step_bind s' f w''), w)
    end.

Definition bind {A B} (m : Async A) (f : A -> Async B) : Async B :=
  fun w => let (s, w') := m w in step_bind s f w'.

Fixpoint step_catch {A} (s : Step A) (handler : Error -> Async A) : Async A :=
  fun w =>
    match s with
    | Done (Normal a) => (Done (Normal a), w)
    | Done (Throw e) => handler e w
    | Wait r k =>
        (Wait r (fun c w' => let (s', w'') := k c w' in step_catch s' handler w''), w)
    end.

(** [try { body } catch (error) { handler }] around awaits. *)
Definition try_catch {A} (body : Async A) (handler : Error -> Async A) : Async A :=
  fun w => let (s, w') := body w in step_catch s handler w'.

(** [await request]: the request goes out now, and the function gives
    control back; a rejection is thrown where the [await] stands. *)
Definition await (r : Request) : Async Response :=
  fun w =>
    (Wait r (fun c w' => (Done c, w')),
     set_inflight (S (inflight w)) (set_trace (Issued r :: trace w) w)).

End Async.

Notation "x <~ m ;; k" := (Async.bind m (fun x => k))
  (at level 100, m at next level, right associativity).
Notation "m ~;; k" := (Async.bind m (fun _ => k))
  (at level 100, right associativity).

(** The outside world answers request [r]. *)
Definition respond (r : Request) (w : World) : Completion Response * World :=
  match r with
  | SendMail _ _ =>
      match smtp w with
      | Some msg :: rest => (Throw {| message := msg |}, set_smtp rest w)
      | None :: rest => (Normal MailInfo, set_smtp rest w)
      | [] => (Normal MailInfo, w)
      end
  | Fetch _ _ =>
      match http w with
      | NetworkError msg :: rest => (Throw {| message := msg |}, set_http rest w)
      | Responded ok st :: rest => (Normal (HttpResponse ok st), set_http rest w)
      | [] => (Normal (HttpResponse true "OK"), w)
      end
  end.

Definition settle (r : Request) (w : World) : Completion Response * World :=
  let (c, w1) := respond r w in
  (c, set_inflight (pred (inflight w1)) (set_trace (Settled r c :: trace w1) w1)).

(** Which of two pending requests settles first. *)
Definition first_settles_first (w : World) : bool * World :=
  match sched w with
  | b :: rest => (b, set_sched rest w)
  | [] => (true, w)
  end.

(** Calling an [async] function: it runs up to its first [await]. *)
Definition call {A} (f : Async A) : M (Step A) :=
  fun w => let (p, w') := f w in (Normal p, w').

(** [await p] for a single promise. *)
Fixpoint await {A} (p : Step A) : M A :=
  fun w =>
    match p with
    | Done c => (c, w)
    | Wait r k =>
        let (c, w1) := settle r w in
        let (p', w2) := k c w1 in
        await p' w2
    end.

(** [await Promise.all([p1, p2])]: rejects as soon as one of the two has
    rejected, whatever the other is doing, and fulfils when both have
    fulfilled.  While both wait, the world decides which request settles
    first; the function that was waiting for it then runs on to its next
    [await] or to its end. *)
Fixpoint Promise_all {A B} (p1 : Step A) : Step B -> M (A * B) :=
  fix all_right (p2 : Step B) : M (A * B) :=
    fun w =>
      match p1, p2 with
      | Done (Throw e), _ => (Throw e, w)
      | Done (Normal _), Done (Throw e) => (Throw e, w)
      | Wait _ _, Done (Throw e) => (Throw e, w)
      | Done (Normal a), Done (Normal b) => (Normal (a, b), w)
      | Done (Normal _), Wait r2 k2 =>
          let (c, w1) := settle r2 w in
          let (p2', w2) := k2 c w1 in
          all_right p2' w2
      | Wait r1 k1, Done (Normal _) =>
          let (c, w1) := settle r1 w in
          let (p1', w2) := k1 c w1 in
          Promise_all p1' p2 w2
      | Wait r1 k1, Wait r2 k2 =>
          let (first, w0) := first_settles_first w in
          if first then
            let (c, w1) := settle r1 w0 in
            let (p1', w2) := k1 c w1 in
            Promise_all p1' p2 w2
          else
            let (c, w1) := settle r2 w0 in
            let (p2', w2) := k2 c w1 in
            all_right p2' w2
      end.

Fixpoint mapM {A B} (f : A -> M B) (l : list A) : M (list B) :=
  match l with
  | [] => ret []
  | x :: l' => y <- f x ;; ys <- mapM f l' ;; ret (y :: ys)
  end.

(** The line feed of the template literals. *)
Definition nl : string := String "010"%char EmptyString.

(** ** [utils/notificationManager.js]

    The class; the file ends without assigning it to [module.exports]. *)

Module NotificationManager.

(** The template literal given as [html]. *)
Definition alert_html (subject message : string) : string :=
  nl +:+
  "          <div style=" +:+ quote +:+
  "font-family: Arial, sans-serif; padding: 20px;" +:+ quote +:+ ">" +:+ nl +:+
  "            <h2 style=" +:+ quote +:+ "color: #e11d48;" +:+ quote +:+
  ">XNDoughs Database Alert</h2>" +:+ nl +:+
  "            <div style=" +:+ quote +:+
  "background-color: #f3f4f6; padding: 15px; border-radius: 5px;" +:+ quote +:+
  ">" +:+ nl +:+
  "              <p><strong>" +:+ subject +:+ "</strong></p>" +:+ nl +:+
  "              <p>" +:+ message +:+ "</p>" +:+ nl +:+
  "            </div>" +:+ nl +:+
  "            <p style=" +:+ quote +:+
  "color: #6b7280; font-size: 0.875rem; margin-top: 20px;" +:+ quote +:+
  ">" +:+ nl +:+
  "              This is an automated message from your XNDoughs Database Management System" +:+ nl +:+
  "            </p>" +:+ nl +:+
  "          </div>" +:+ nl +:+
  "        ".

(** [static async sendEmail(subject, message)] *)
Definition sendEmail (subject message : string) : Async unit :=
  Async.try_catch
    (user <~ Async.lift (process_env EMAIL_USER) ;;
     pass <~ Async.lift (process_env EMAIL_PASSWORD) ;;
     let transporter :=
       {| service := "gmail"; auth_user := user; auth_pass := pass |} in
     from <~ Async.lift (process_env EMAIL_USER) ;;
     to <~ Async.lift (process_env ADMIN_EMAIL) ;;
     Async.await
       (SendMail transporter
          {| mail_from := from;
             mail_to := to;
             subject := "XNDoughs Alert: " +:+ subject;
             html := alert_html subject message |}) ~;;
     Async.lift (console_log "Alert email sent successfully"))
    (fun error =>
       Async.lift (console_error "Error sending alert email:" error)).

Definition response_ok (r : Response) : bool :=
  match r with
  | HttpResponse ok _ => ok
  | MailInfo => true
  end.

Definition response_statusText (r : Response) : string :=
  match r with
  | HttpResponse _ st => st
  | MailInfo => EmptyString
  end.

(** [static async sendDiscordWebhook(title, message, isError = false)];
    [!process.env.DISCORD_WEBHOOK_URL] holds of [undefined] and of the
    empty string. *)
Definition sendDiscordWebhook (title message : string) (isError : bool)
  : Async unit :=
  Async.try_catch
    (url <~ Async.lift (process_env DISCORD_WEBHOOK_URL) ;;
     match url with
     | None => Async.ret tt
     | Some url =>
         if String.eqb url EmptyString then Async.ret tt
         else
           now <~ Async.lift new_Date ;;
           response <~ Async.await
             (Fetch url
                {| title := title;
                   description := message;
                   color := if isError then 15158332 else 3066993;
                   timestamp := now |}) ;;
           if negb (response_ok response) then
             Async.throw
               {| message :=
                    "Discord webhook failed: " +:+ response_statusText response |}
           else Async.ret tt
     end)
    (fun error =>
       Async.lift (console_error "Error sending Discord webhook:" error)).

(** [static async notify(subject, message, isError = false)] *)
Definition notify (subject message : string) (isError : bool) : M unit :=
  email <- call (sendEmail subject message) ;;
  discord <- call (sendDiscordWebhook subject message isError) ;;
  Promise_all email discord ;;;
  ret tt.

End NotificationManager.

(** ** Mongoose and the store *)

Module mongoose.

Definition MissingSchemaError (name : string) : Error :=
  {| message :=
       "Schema hasn't been registered for model " +:+ quote +:+ name +:+ quote
       +:+ "." +:+ nl +:+ "Use mongoose.model(name, schema)" |}.

(** [mongoose.model(name)]: the model registered under [name]; it throws
    when there is none. *)
Definition model (name : string) : M unit :=
  fun w =>
    if bool_decide (name ∈ models w) then (Normal tt, w)
    else (Throw (MissingSchemaError name), w).

(** A call that goes to the store: it rejects when the world says so, and
    then leaves the collections as they were. *)
Definition store_call {A} (op : World -> A * World) : M A :=
  fun w =>
    match faults w with
    | Some msg :: rest => (Throw {| message := msg |}, set_faults rest w)
    | None :: rest => let (a, w') := op (set_faults rest w) in (Normal a, w')
    | [] => let (a, w') := op w in (Normal a, w')
    end.

(** The conditions the program's filters are made of. *)
Inductive Condition : Type :=
| createdAt_lt (d : Z)            (* createdAt: { $lt: d } *)
| status_in (l : list string)     (* status: { $in: l } *)
| status_is (s : string)          (* status: s *)
| id_in (ids : list ObjectId).    (* _id: { $in: ids } *)

Definition holds (c : Condition) (id : ObjectId) (r : Reservation) : bool :=
  match c with
  | createdAt_lt d => createdAt r <? d
  | status_in l => bool_decide (status r ∈ l)
  | status_is s => String.eqb (status r) s
  | id_in ids => bool_decide (id ∈ ids)
  end.

(** A filter is the conjunction of its conditions. *)
Definition matches (filter : list Condition) (doc : ObjectId * Reservation) : bool :=
  forallb (fun c => holds c doc.1 doc.2) filter.

Definition selected (q : list Condition) (m : gmap ObjectId Reservation)
  : gmap ObjectId Reservation :=
  filter (fun doc => matches q doc = true) m.

Definition rejected (q : list Condition) (m : gmap ObjectId Reservation)
  : gmap ObjectId Reservation :=
  filter (fun doc => matches q doc = false) m.

(** [Reservation.deleteMany(filter)]; the result is [deletedCount]. *)
Definition deleteMany (q : list Condition) : M nat :=
  store_call (fun w =>
    (size (selected q (reservations w)),
     remeasure (set_reservations (rejected q (reservations w)) w))).

(** [Reservation.find(filter)] *)
Definition find (q : list Condition) : M (list (ObjectId * Reservation)) :=
  store_call (fun w => (map_to_list (selected q (reservations w)), w)).

(** The error the store raises for a document whose [_id] the collection
    holds already; its message goes on with the name space and the key. *)
Definition duplicate_key : Error :=
  {| message := "E11000 duplicate key error" |}.

(** Inserting in order: the documents before the first one whose [_id] is
    present already are inserted, that one and the rest are not; [false]
    when there was such a document. *)
Fixpoint insert_ordered (docs collection : list ArchiveDoc) : bool * list ArchiveDoc :=
  match docs with
  | [] => (true, collection)
  | d :: rest =>
      if bool_decide (_id d ∈ map _id collection) then (false, collection)
      else insert_ordered rest (collection ++ [d])
  end.

(** [Archive.insertMany(docs)] *)
Definition insertMany (docs : list ArchiveDoc) : M unit :=
  inserted <- store_call (fun w =>
    let (ok, collection) := insert_ordered docs (archives w) in
    (ok, remeasure (set_archives collection w))) ;;
  if inserted : bool then ret tt else throw duplicate_key.

(** [mongoose.connection.db.stats()] *)
Definition stats : M DbStats :=
  store_call (fun w => (dbStats w, w)).

End mongoose.

(** ** The server process *)

(** What [mongoose.connect] resolves to. *)
Inductive Connection : Type := mongoose_connection.

(** The variables of [process.env] that only the server and the scheduler
    read. *)
Record Settings := {
  CLEANUP_HOUR : option string;
  ARCHIVE_HOUR : option string;
  ENABLE_DB_MONITORING : option string
}.

(** What [setInterval(callback, delay)] registers. *)
Record Timer := {
  callback : M unit;
  delay : Z
}.

(** A server process: the world; the variable [cachedConnection] of the
    module that connects; what the next calls of [mongoose.connect] do; the
    timers registered so far; and the [async] calls that were started and
    not awaited, which run on once the caller has given up control. *)
Record Process := {
  world : World;
  cachedConnection : option Connection;   (* [None] is [null] *)
  uplink : list (option string);          (* per call: [Some msg] makes it reject *)
  settings : Settings;
  timers : list Timer;
  background : list (M unit)
}.

Definition set_world (w : World) (p : Process) : Process :=
  {| world := w; cachedConnection := cachedConnection p; uplink := uplink p;
     settings := settings p; timers := timers p; background := background p |}.

Definition set_cachedConnection (c : option Connection) (p : Process) : Process :=
  {| world := world p; cachedConnection := c; uplink := uplink p;
     settings := settings p; timers := timers p; background := background p |}.

Definition set_uplink (l : list (option string)) (p : Process) : Process :=
  {| world := world p; cachedConnection := cachedConnection p; uplink := l;
     settings := settings p; timers := timers p; background := background p |}.

Definition set_timers (l : list Timer) (p : Process) : Process :=
  {| world := world p; cachedConnection := cachedConnection p; uplink := uplink p;
     settings := settings p; timers := l; background := background p |}.

Definition set_background (l : list (M unit)) (p : Process) : Process :=
  {| world := world p; cachedConnection := cachedConnection p; uplink := uplink p;
     settings := settings p; timers := timers p; background := l |}.

(** Code of the server, run to completion. *)
Definition P (A : Type) : Type := Process -> Completion A * Process.

#[global] Instance P_ret : MRet P := fun A a p => (Normal a, p).

#[global] Instance P_bind : MBind P := fun A B f m p =>
  match m p with
  | (Normal a, p') => f a p'
  | (Throw e, p') => (Throw e, p')
  end.

Module Server.

Definition throw {A} (e : Error) : P A := fun p => (Throw e, p).

Definition try_catch {A} (body : P A) (handler : Error -> P A) : P A :=
  fun p =>
    match body p with
    | (Normal a, p') => (Normal a, p')
    | (Throw e, p') => handler e p'
    end.

(** Code that only touches the world. *)
Definition lift {A} (m : M A) : P A :=
  fun p => let (c, w') := m (world p) in (c, set_world w' p).

Definition setting (var : Settings -> option string) : P (option string) :=
  fun p => (Normal (var (settings p)), p).

(** [v === s] for a [v] that is a string or [undefined]. *)
Definition equals (v : option string) (s : string) : bool :=
  match v with
  | Some x => String.eqb x s
  | None => false
  end.

(** [await mongoose.connect(process.env.MONGODB_URI, options)] *)
Definition mongoose_connect : P Connection :=
  fun p =>
    match uplink p with
    | Some msg :: rest => (Throw {| message := msg |}, set_uplink rest p)
    | None :: rest => (Normal mongoose_connection, set_uplink rest p)
    | [] => (Normal mongoose_connection, p)
    end.

Definition assign_cachedConnection (c : Connection) : P unit :=
  fun p => (Normal tt, set_cachedConnection (Some c) p).

(** [setInterval(callback, delay)] *)
Definition setInterval (callback : M unit) (delay : Z) : P unit :=
  fun p =>
    (Normal tt,
     set_timers (timers p ++ [{| callback := callback; delay := delay |}]) p).

(** A call [f()] of an [async] function whose promise is dropped and whose
    body does nothing observable before its first [await]. *)
Definition start (f : M unit) : P unit :=
  fun p => (Normal tt, set_background (background p ++ [f]) p).

(** Reading a property of [undefined]. *)
Definition TypeError_undefined (property : string) : Error :=
  {| message :=
       "Cannot read properties of undefined (reading '" +:+ property +:+ "')" |}.

End Server.

(** ** [utils/databaseManager.js] *)

Module DatabaseManager.

(** What [getStats] returns; every field is a string made by [toFixed]. *)
Record Stats := {
  sizeInMB : string;
  storageInMB : string;
  indexSizeInMB : string;
  freeStorageMB : string;
  usagePercentage : string
}.

Record Alerts := {
  warning : bool;
  critical : bool;
  emergency : bool
}.

(** What [monitorHealth] returns: [{ ...stats, alerts }]. *)
Record Health := {
  snapshot : Stats;
  alerts : Alerts
}.

(** [const NotificationManager = require('./notificationManager')].  That
    module declares the class and assigns nothing to [module.exports], so
    the binding is the empty object: [NotificationManager.notify] is
    [undefined], and a call of it throws once its arguments have been
    evaluated. *)
Module NotificationManager.

Definition not_a_function : Error :=
  {| message := "NotificationManager.notify is not a function" |}.

Definition notify (subject message : string) (isError : bool) : M unit :=
  throw not_a_function.

End NotificationManager.

Definition local_zone : M (Z -> bool -> Z) :=
  fun w => (Normal (LocalTZA w), w).

(** [static async getStats()] *)
Definition getStats : M (option Stats) :=
  try_catch
    (stats <- mongoose.stats ;;
     ret (Some
       {| sizeInMB :=
            Number.toFixed 2 (inject_Z (dataSize stats) / (1024 * 1024))%Q;
          storageInMB :=
            Number.toFixed 2 (inject_Z (storageSize stats) / (1024 * 1024))%Q;
          indexSizeInMB :=
            Number.toFixed 2 (inject_Z (indexSize stats) / (1024 * 1024))%Q;
          freeStorageMB :=
            Number.toFixed 2 (512 - inject_Z (storageSize stats) / (1024 * 1024))%Q;
          usagePercentage :=
            Number.toFixed 1
              ((inject_Z (storageSize stats) / (1024 * 1024) / 512) * 100)%Q |}))
    (fun error =>
       console_error "Error getting database stats:" error ;;;
       ret None).

(** The [try] block of [cleanupOldReservations]. *)
Definition cleanup_body : M nat :=
  thirtyDaysAgo <- new_Date ;;
  zone <- local_zone ;;
  let thirtyDaysAgo :=
    Date.setDate zone thirtyDaysAgo (Date.getDate zone thirtyDaysAgo - 30) in
  mongoose.model "Reservation" ;;;
  result <- mongoose.deleteMany
    [mongoose.createdAt_lt thirtyDaysAgo;
     mongoose.status_in ["confirmed"; "cancelled"]] ;;
  now <- new_Date ;;
  let oneDayAgo := now - 24 * 60 * 60 * 1000 in
  mongoose.model "Reservation" ;;;
  abandonedResult <- mongoose.deleteMany
    [mongoose.createdAt_lt oneDayAgo;
     mongoose.status_is "pending"] ;;
  let totalDeleted := (result + abandonedResult)%nat in
  (if (0 <? totalDeleted)%nat then
     NotificationManager.notify
       "Cleanup Completed"
       ("Cleaned up " +:+ Number.toString result +:+
        " old reservations and " +:+ Number.toString abandonedResult +:+
        " abandoned pending reservations.")
       false
   else ret tt) ;;;
  ret totalDeleted.

(** [static async cleanupOldReservations()] *)
Definition cleanupOldReservations : M nat :=
  try_catch cleanup_body
    (fun error =>
       console_error "Error during cleanup:" error ;;;
       NotificationManager.notify
         "Cleanup Failed"
         ("Error during cleanup: " +:+ message error)
         true ;;;
       ret 0%nat).

(** [{ ...res.toObject(), archivedAt: new Date(), archiveReason: 'age',
       originalCollection: 'reservations' }] *)
Definition archive_copy (res : ObjectId * Reservation) : M ArchiveDoc :=
  now <- new_Date ;;
  ret {| _id := res.1;
         original := res.2;
         archivedAt := now;
         archiveReason := "age";
         originalCollection := "reservations" |}.

(** The [try] block of [archiveReservations].  [mongoose.model('Archive')]
    throws when no model has that name, and a model is an object, hence
    truthy: the right operand of [||] is never evaluated. *)
Definition archive_body : M nat :=
  sixtyDaysAgo <- new_Date ;;
  zone <- local_zone ;;
  let sixtyDaysAgo :=
    Date.setDate zone sixtyDaysAgo (Date.getDate zone sixtyDaysAgo - 60) in
  mongoose.model "Reservation" ;;;
  reservationsToArchive <- mongoose.find [mongoose.createdAt_lt sixtyDaysAgo] ;;
  if (0 <? length reservationsToArchive)%nat then
    mongoose.model "Archive" ;;;
    archiveData <- mapM archive_copy reservationsToArchive ;;
    mongoose.insertMany archiveData ;;;
    mongoose.model "Reservation" ;;;
    mongoose.deleteMany [mongoose.id_in (map fst reservationsToArchive)] ;;;
    NotificationManager.notify
      "Archiving Completed"
      ("Archived " +:+ Number.toString (length reservationsToArchive) +:+
       " old reservations successfully.")
      false ;;;
    ret (length reservationsToArchive)
  else ret 0%nat.

(** [static async archiveReservations()] *)
Definition archiveReservations : M nat :=
  try_catch archive_body
    (fun error =>
       console_error "Error during archiving:" error ;;;
       NotificationManager.notify
         "Archiving Failed"
         ("Error during archiving: " +:+ message error)
         true ;;;
       ret 0%nat).

Definition WARNING_THRESHOLD : Q := 350.
Definition CRITICAL_THRESHOLD : Q := 400.
Definition EMERGENCY_THRESHOLD : Q := 450.

(** The template literal [message] of [monitorHealth]. *)
Definition alert_message (stats : Stats) : string :=
  nl +:+
  "Database Storage Alert" +:+ nl +:+
  nl +:+
  "Current Usage: " +:+ storageInMB stats +:+ "MB of 512MB" +:+ nl +:+
  "Usage Percentage: " +:+ usagePercentage stats +:+ "%" +:+ nl +:+
  "Free Space: " +:+ freeStorageMB stats +:+ "MB" +:+ nl +:+
  "Index Size: " +:+ indexSizeInMB stats +:+ "MB" +:+ nl +:+
  nl +:+
  "Automatic Cleanup:" +:+ nl +:+
  "- Daily cleanup of orders older than 30 days" +:+ nl +:+
  "- Weekly archiving of data older than 60 days" +:+ nl +:+
  "- Immediate cleanup of abandoned pending orders (24h+)" +:+ nl.

(** The [try] block of [monitorHealth]; [None] is [undefined]. *)
Definition monitor_body : M (option Health) :=
  stats <- getStats ;;
  match stats with
  | None => ret None
  | Some stats =>
      let storageUsed := Number.parseFloat (storageInMB stats) in
      let message := alert_message stats in
      (if Number.gt storageUsed EMERGENCY_THRESHOLD then
         NotificationManager.notify
           "EMERGENCY: Database Near Capacity"
           (message +:+ nl +:+ nl +:+
            "URGENT: Database is nearing free tier limit. Emergency cleanup initiated.")
           true ;;;
         cleanupOldReservations ;;;
         archiveReservations ;;;
         ret tt
       else if Number.gt storageUsed CRITICAL_THRESHOLD then
         NotificationManager.notify
           "CRITICAL: High Database Usage"
           (message +:+ nl +:+ nl +:+
            "Action Required: Please review and clean up unnecessary data.")
           true
       else if Number.gt storageUsed WARNING_THRESHOLD then
         NotificationManager.notify
           "WARNING: Database Usage Alert"
           (message +:+ nl +:+ nl +:+
            "Consider cleaning up old data to prevent reaching limits.")
           false
       else ret tt) ;;;
      ret (Some
        {| snapshot := stats;
           alerts :=
             {| warning := Number.gt storageUsed WARNING_THRESHOLD;
                critical := Number.gt storageUsed CRITICAL_THRESHOLD;
                emergency := Number.gt storageUsed EMERGENCY_THRESHOLD |} |})
  end.

(** [static async monitorHealth()] *)
Definition monitorHealth : M (option Health) :=
  try_catch monitor_body
    (fun error =>
       console_error "Error monitoring database health:" error ;;;
       NotificationManager.notify
         "Monitoring Error"
         ("Error during health monitoring: " +:+ message error)
         true ;;;
       ret None).

(** [process.env.X || fallback] *)
Definition or_default (v : option string) (fallback : string) : string :=
  match v with
  | Some s => if String.eqb s EmptyString then fallback else s
  | None => fallback
  end.

(** [a === b] for an integer [a] below [2 ^ 53] in magnitude and a [b]
    that [parseInt] has made. *)
Definition strict_equal (a : Z) (b : option Z) : bool :=
  match b with
  | Some b => a =? b
  | None => false
  end.

(** [const cleanupHour = parseInt(process.env.CLEANUP_HOUR || '3')] and
    [const archiveHour = parseInt(process.env.ARCHIVE_HOUR || '4')] of
    [scheduleMaintenanceTasks], as functions of the two variables. *)
Definition cleanupHour (CLEANUP_HOUR : option string) : option Z :=
  Number.parseInt (or_default CLEANUP_HOUR "3").

Definition archiveHour (ARCHIVE_HOUR : option string) : option Z :=
  Number.parseInt (or_default ARCHIVE_HOUR "4").

(** The three callbacks [scheduleMaintenanceTasks] hands to [setInterval]:
    the first every four hours, the other two every minute. *)
Definition health_timer : M unit :=
  monitorHealth ;;; ret tt.

Definition cleanup_due (zone : Z -> bool -> Z) (cleanupHour : option Z) (now : Z) : bool :=
  strict_equal (Date.getHours zone now) cleanupHour
  && (Date.getMinutes zone now =? 0).

Definition cleanup_timer (cleanupHour : option Z) : M unit :=
  now <- new_Date ;;
  zone <- local_zone ;;
  if cleanup_due zone cleanupHour now then
    cleanupOldReservations ;;; ret tt
  else ret tt.

Definition archive_due (zone : Z -> bool -> Z) (archiveHour : option Z) (now : Z) : bool :=
  (Date.getDay zone now =? 0)
  && strict_equal (Date.getHours zone now) archiveHour
  && (Date.getMinutes zone now =? 0).

Definition archive_timer (archiveHour : option Z) : M unit :=
  now <- new_Date ;;
  zone <- local_zone ;;
  if archive_due zone archiveHour now then
    archiveReservations ;;; ret tt
  else ret tt.

(** [static scheduleMaintenanceTasks()]: not an [async] function; it
    returns [undefined]. *)
Definition scheduleMaintenanceTasks : P unit :=
  Server.setInterval health_timer (4 * 60 * 60 * 1000) ≫= fun _ =>
  hour ← Server.setting CLEANUP_HOUR;
  Server.setInterval (cleanup_timer (cleanupHour hour)) (60 * 1000) ≫= fun _ =>
  hour ← Server.setting ARCHIVE_HOUR;
  Server.setInterval (archive_timer (archiveHour hour)) (60 * 1000) ≫= fun _ =>
  Server.start health_timer ≫= fun _ =>
  Server.lift (console_log "Database maintenance tasks scheduled").

End DatabaseManager.

(** ** [models/reservation.js] *)

(** The regular expressions the schema uses: a character, [\d], a
    sequence, and [r{min,max}]. *)
Module RegExp.

Inductive Pattern : Type :=
| Char (c : ascii)
| Digit
| Seq (r1 r2 : Pattern)
| Repeat (r : Pattern) (min max : nat).

(** What can be left of [s] once [r] has matched at its start. *)
Fixpoint residues (r : Pattern) (s : list ascii) : list (list ascii) :=
  match r with
  | Char c =>
      match s with
      | c' :: s' => if Ascii.eqb c c' then [s'] else []
      | [] => []
      end
  | Digit =>
      match s with
      | c' :: s' => if Number.is_digit c' then [s'] else []
      | [] => []
      end
  | Seq r1 r2 => flat_map (residues r2) (residues r1 s)
  | Repeat r' min max =>
      (fix rep (min max : nat) (s : list ascii) {struct max} : list (list ascii) :=
         (match min with O => [s] | S _ => [] end) ++
         match max with
         | O => []
         | S max' => flat_map (rep (pred min) max') (residues r' s)
         end) min max s
  end.

(** [/^r$/.test(s)]: [r] matches all of [s]. *)
Definition test_anchored (r : Pattern) (s : string) : bool :=
  existsb (fun rest => match rest with [] => true | _ => false end)
          (residues r (String.list_ascii_of_string s)).

End RegExp.

Module reservationSchema.

(** [/^961\d{7,8}$/] *)
Definition phone_pattern : RegExp.Pattern :=
  RegExp.Seq (RegExp.Char "9")
    (RegExp.Seq (RegExp.Char "6")
       (RegExp.Seq (RegExp.Char "1") (RegExp.Repeat RegExp.Digit 7 8))).

(** The [validator] of the field [phone]. *)
Definition phone_validator (v : string) : bool :=
  RegExp.test_anchored phone_pattern v.

Definition branch_enum : list string :=
  ["Clemenceau"; "Jal El Dib"; "Kfarehbeb"; "Bliss"].

Definition status_enum : list string := ["pending"; "confirmed"; "cancelled"].

End reservationSchema.

(** ** [utils/db.js] and the route that purges old reservations *)

Module db.

(** [async function connectToDatabase()] *)
Definition connectToDatabase : P Connection :=
  fun p =>
    match cachedConnection p with
    | Some connection => (Normal connection, p)
    | None =>
        Server.try_catch
          (Server.lift (console_log "Connecting to MongoDB...") ≫= fun _ =>
           connection ← Server.mongoose_connect;
           Server.lift (console_log "Connected to MongoDB") ≫= fun _ =>
           Server.assign_cachedConnection connection ≫= fun _ =>
           mret connection)
          (fun error =>
             Server.lift (console_error "MongoDB connection error:" error) ≫= fun _ =>
             Server.throw error)
          p
    end.

End db.

Module api.

(** The bodies the route sends: [{ message, count }] and [{ message }]. *)
Inductive Payload : Type :=
| Counted (text : string) (count : nat)
| Message (text : string).

(** What [res.status(code).json(payload)] sends; [res.json] sends 200. *)
Record Reply := {
  code : Z;
  payload : Payload
}.

(** The handler of [app.delete('/api/reservations/old', ...)]. *)
Definition delete_old_reservations : P Reply :=
  Server.try_catch
    (db.connectToDatabase ≫= fun _ =>
     thirtyDaysAgo ← Server.lift new_Date;
     zone ← Server.lift DatabaseManager.local_zone;
     let thirtyDaysAgo :=
       Date.setDate zone thirtyDaysAgo (Date.getDate zone thirtyDaysAgo - 30) in
     result ← Server.lift
       (mongoose.deleteMany
          [mongoose.createdAt_lt thirtyDaysAgo;
           mongoose.status_in ["confirmed"; "cancelled"]]);
     mret {| code := 200;
             payload := Counted "Old reservations deleted successfully" result |})
    (fun error =>
       mret {| code := 500; payload := Message (message error) |}).

End api.

(** ** The server that schedules the maintenance *)

Module server.

(** [const connectToDatabase = async () => ...] of the server that loads
    [./utils/databaseManager].  [scheduleMaintenanceTasks()] is
    [undefined], so [.catch] throws a [TypeError], inside the [try]. *)
Definition connectToDatabase : P Connection :=
  fun p =>
    match cachedConnection p with
    | Some connection => (Normal connection, p)
    | None =>
        Server.try_catch
          (Server.lift (console_log "Connecting to MongoDB...") ≫= fun _ =>
           connection ← Server.mongoose_connect;
           Server.lift (console_log "Connected to MongoDB") ≫= fun _ =>
           Server.assign_cachedConnection connection ≫= fun _ =>
           flag ← Server.setting ENABLE_DB_MONITORING;
           (if Server.equals flag "true" then
              Server.lift (console_log "Initializing database monitoring...") ≫= fun _ =>
              DatabaseManager.scheduleMaintenanceTasks ≫= fun _ =>
              Server.throw (Server.TypeError_undefined "catch")
            else mret tt) ≫= fun _ =>
           mret connection)
          (fun error =>
             Server.lift (console_error "MongoDB connection error:" error) ≫= fun _ =>
             Server.throw error)
          p
    end.

(** The body of the health check: [{ status, message, mongodb, error,
    timestamp }]. *)
Record Health := {
  status : string;
  text : string;
  mongodb : string;
  error : option string;
  timestamp : Z
}.

Record Reply := {
  code : Z;
  payload : Health
}.


End server.

(** ** [utils/dbConnect.js]: the connection of the MongoDB driver *)

Module dbConnect.

(** The module and its driver: the variable [clientInstance]; whether the
    client holds an open connection; what the next calls of the driver
    ([connect], the ping, [close]) do; the console; and the exit code once
    [process.exit] has been called. *)
Record State := {
  clientInstance : bool;              (* [false] is [null]; there is one [client] *)
  opened : bool;
  driver : list (option string);      (* per call: [Some msg] makes it reject *)
  console : list Event;               (* newest first *)
  exited : option Z
}.

Definition D (A : Type) : Type := State -> Completion A * State.

#[global] Instance D_ret : MRet D := fun A a s => (Normal a, s).

#[global] Instance D_bind : MBind D := fun A B f m s =>
  match m s with
  | (Normal a, s') => f a s'
  | (Throw e, s') => (Throw e, s')
  end.

Definition throw {A} (e : Error) : D A := fun s => (Throw e, s).

Definition try_catch {A} (body : D A) (handler : Error -> D A) : D A :=
  fun s =>
    match body s with
    | (Normal a, s') => (Normal a, s')
    | (Throw e, s') => handler e s'
    end.

Definition log (ev : Event) : D unit :=
  fun s =>
    (Normal tt,
     {| clientInstance := clientInstance s; opened := opened s; driver := driver s;
        console := ev :: console s; exited := exited s |}).

(** A call of the driver; when it succeeds the connection is [after]. *)
Definition driver_call (after : bool -> bool) : D unit :=
  fun s =>
    match driver s with
    | Some msg :: rest =>
        (Throw {| message := msg |},
         {| clientInstance := clientInstance s; opened := opened s; driver := rest;
            console := console s; exited := exited s |})
    | None :: rest =>
        (Normal tt,
         {| clientInstance := clientInstance s; opened := after (opened s);
            driver := rest; console := console s; exited := exited s |})
    | [] =>
        (Normal tt,
         {| clientInstance := clientInstance s; opened := after (opened s);
            driver := []; console := console s; exited := exited s |})
    end.

(** [await client.connect()], [await client.db("admin").command({ ping: 1 })]
    and [await clientInstance.close()] *)
Definition client_connect : D unit := driver_call (fun _ => true).
Definition ping : D unit := driver_call (fun o => o).
Definition client_close : D unit := driver_call (fun _ => false).

Definition assign_clientInstance (v : bool) : D unit :=
  fun s =>
    (Normal tt,
     {| clientInstance := v; opened := opened s; driver := driver s;
        console := console s; exited := exited s |}).

Definition read_clientInstance : D bool :=
  fun s => (Normal (clientInstance s), s).

(** [async function connectToDatabase()]; the result is the client. *)
Definition connectToDatabase : D unit :=
  try_catch
    (cached ← read_clientInstance;
     if cached : bool then mret tt
     else
       client_connect ≫= fun _ =>
       ping ≫= fun _ =>
       log (ConsoleLog "Successfully connected to MongoDB!") ≫= fun _ =>
       assign_clientInstance true)
    (fun error =>
       log (ConsoleError "Error connecting to MongoDB:" error) ≫= fun _ =>
       throw error).

(** [async function closeConnection()] *)
Definition closeConnection : D unit :=
  try_catch
    (cached ← read_clientInstance;
     if cached : bool then
       client_close ≫= fun _ =>
       assign_clientInstance false ≫= fun _ =>
       log (ConsoleLog "MongoDB connection closed.")
     else mret tt)
    (fun error =>
       log (ConsoleError "Error closing MongoDB connection:" error) ≫= fun _ =>
       throw error).

(** [process.exit(code)] *)
Definition process_exit (code : Z) : D unit :=
  fun s =>
    (Normal tt,
     {| clientInstance := clientInstance s; opened := opened s; driver := driver s;
        console := console s; exited := Some code |}).

(** The listener of [SIGINT] and of [SIGTERM]. *)
Definition on_signal : D unit :=
  closeConnection ≫= fun _ => process_exit 0.

End dbConnect.

(** * Vocabulary of the statements *)

(** ** Numbers *)

Definition value_from (acc : N) (l : list ascii) : N :=
  fold_left (fun acc c => (10 * acc + Number.digit_val c)%N) l acc.

(** The number a [toFixed] string denotes. *)
Definition decimal (f : nat) (x : Q) : Q :=
  let v := Z.of_N (Number.nearest f (Qabs x)) # Pos.of_nat (Z.to_nat (Number.scale f)) in
  if Number.is_negative x then Qopp v else v.

(** The digits [toFixed] puts around the point. *)
Definition fixed_digits (f : nat) (n : N) : list ascii :=
  let m := Number.digits n in
  if Nat.eqb f 0 then m
  else
    let m := repeat "0"%char (S f - length m) ++ m in
    let k := length m in
    take (k - f) m ++ "."%char :: drop (k - f) m.

(** ** Time *)

(** A time zone without transitions: the same offset at every instant. *)
Definition fixed_offset (zone : Z -> bool -> Z) : Prop :=
  forall t t' b b', zone t b = zone t' b'.

(** A time zone whose offset never moves by a whole day. *)
Definition steady (zone : Z -> bool -> Z) : Prop :=
  forall t t' b b', Z.abs (zone t b - zone t' b') < Date.msPerDay.

(** The instant [days] calendar days before [now] at the same local time of
    day. *)
Definition days_before (zone : Z -> bool -> Z) (days now : Z) : Z :=
  Date.UTC zone (Date.LocalTime zone now - days * Date.msPerDay).

(** ** Notifications *)


Definition mail_request (subject message : string) (w : World) : Request :=
  SendMail
    {| service := "gmail";
       auth_user := EMAIL_USER (env w);
       auth_pass := EMAIL_PASSWORD (env w) |}
    {| mail_from := EMAIL_USER (env w);
       mail_to := ADMIN_EMAIL (env w);
       subject := "XNDoughs Alert: " +:+ subject;
       html := NotificationManager.alert_html subject message |}.

Definition webhook_url (w : World) : option string :=
  match DISCORD_WEBHOOK_URL (env w) with
  | Some url => if String.eqb url EmptyString then None else Some url
  | None => None
  end.

Definition webhook_request (title message : string) (isError : bool)
    (url : string) (t : Z) : Request :=
  Fetch url
    {| title := title;
       description := message;
       color := if isError then 15158332 else 3066993;
       timestamp := t |}.

Definition mail_outcome (w : World) : Completion Response :=
  match smtp w with
  | Some msg :: _ => Throw {| message := msg |}
  | _ => Normal MailInfo
  end.

Definition webhook_outcome (w : World) : Completion Response :=
  match http w with
  | NetworkError msg :: _ => Throw {| message := msg |}
  | Responded ok st :: _ => Normal (HttpResponse ok st)
  | [] => Normal (HttpResponse true "OK")
  end.

Definition mail_first (w : World) : bool :=
  match sched w with
  | b :: _ => b
  | [] => true
  end.

Definition email_settles (r : Request) (c : Completion Response) : list Event :=
  [Settled r c;
   match c with
   | Normal _ => ConsoleLog "Alert email sent successfully"
   | Throw e => ConsoleError "Error sending alert email:" e
   end].

Definition webhook_settles (r : Request) (c : Completion Response) : list Event :=
  Settled r c ::
  match c with
  | Normal (HttpResponse false st) =>
      [ConsoleError "Error sending Discord webhook:"
         {| message := "Discord webhook failed: " +:+ st |}]
  | Normal _ => []
  | Throw e => [ConsoleError "Error sending Discord webhook:" e]
  end.

Definition happened (w w' : World) (evs : list Event) : Prop :=
  trace w' = rev evs ++ trace w.

Definition notify_events (subject message : string) (isError : bool)
    (w : World) : list Event :=
  let mail := mail_request subject message w in
  match webhook_url w with
  | None => Issued mail :: email_settles mail (mail_outcome w)
  | Some url =>
      let hook := webhook_request subject message isError url (clock w) in
      Issued mail :: Issued hook ::
      (if mail_first w
       then email_settles mail (mail_outcome w) ++ webhook_settles hook (webhook_outcome w)
       else webhook_settles hook (webhook_outcome w) ++ email_settles mail (mail_outcome w))
  end.

Definition same_store (w w' : World) : Prop :=
  reservations w' = reservations w /\ archives w' = archives w /\
  models w' = models w /\ dbStats w' = dbStats w /\ faults w' = faults w.

Definition same_host (w w' : World) : Prop :=
  env w' = env w /\ LocalTZA w' = LocalTZA w /\ clock w <= clock w'.

(** ** Store calls and the clock *)


(** No store call among the next [k] is made to fail. *)
Definition quiet (k : nat) (w : World) : Prop :=
  Forall (fun f => f = None) (take k (faults w)).

(** The world once the clock has been read. *)
Definition tick (w : World) : World :=
  set_clock
    (match ticks w with d :: _ => clock w + Z.of_N d | [] => clock w end)
    (tail (ticks w)) w.

(** The world once a store call has been answered. *)
Definition answered (w : World) : World := set_faults (tail (faults w)) w.

(** ** The filters of the cleanup *)

Definition old_filter (t : Z) : list mongoose.Condition :=
  [mongoose.createdAt_lt t; mongoose.status_in ["confirmed"; "cancelled"]].

Definition pending_filter (t : Z) : list mongoose.Condition :=
  [mongoose.createdAt_lt t; mongoose.status_is "pending"].

(** ** The retention rules *)

(** The first deletion rule, as the specification words it. *)
Definition expired (now : Z) (r : Reservation) : bool :=
  (bool_decide (status r = "confirmed") || bool_decide (status r = "cancelled"))
  && (createdAt r <? now - 30 * Date.msPerDay).

(** The second deletion rule, as the specification words it. *)
Definition abandoned (now : Z) (r : Reservation) : bool :=
  bool_decide (status r = "pending")
  && (createdAt r <? now - 24 * 60 * 60 * 1000).

(** How many documents of a collection satisfy [p]. *)
Definition count (p : Reservation -> bool) (m : gmap ObjectId Reservation) : nat :=
  size (filter (fun doc => p doc.2 = true) m).

(** ** Sample deployments *)

(** A document shaped like the one of [tests/testReservationFlow.js]. *)
Definition sample (st : string) (created : Z) : Reservation :=
  {| name := "Test User";
     phone := "96170123456";
     branch := "Clemenceau";
     time := "8:00 PM";
     status := st;
     otp := None;
     cancellationReason := None;
     createdAt := created |}.

Definition hour : Z := 60 * 60 * 1000.

(** 1 November 2026, 12:00 UTC. *)
Definition noon : Z := 1793534400000.

(** A healthy deployment in the zone UTC holding [docs]: the model of
    [models/reservation.js] registered, no scripted fault, a clock that
    stands at [noon]. *)
Definition deployment (docs : list (ObjectId * Reservation)) : World :=
  {| reservations := list_to_map docs;
     archives := [];
     models := ["Reservation"];
     dbStats := {| dataSize := 0; storageSize := 0; indexSize := 0 |};
     usage := [];
     faults := [];
     env := {| EMAIL_USER := None; EMAIL_PASSWORD := None;
               ADMIN_EMAIL := None; DISCORD_WEBHOOK_URL := None |};
     LocalTZA := fun _ _ => 0;
     clock := noon;
     ticks := [];
     smtp := [];
     http := [];
     sched := [];
     inflight := 0;
     trace := [] |}.

(** The scenario of the specification's testable properties. *)
Definition scenario : World :=
  deployment
    [(1%N, sample "confirmed" (noon - 31 * Date.msPerDay));
     (2%N, sample "pending" (noon - 10 * hour));
     (3%N, sample "confirmed" (noon - 10 * hour))].

(** Two documents exactly at the age boundaries. *)
Definition boundary : World :=
  deployment
    [(1%N, sample "confirmed" (noon - 30 * Date.msPerDay));
     (2%N, sample "pending" (noon - 24 * hour))].

(** ** The archive *)



(** ** Failures *)

(** The two retention operations. *)
Inductive Maintenance : Type := Cleanup | Archival.

Definition body (op : Maintenance) : M nat :=
  match op with
  | Cleanup => DatabaseManager.cleanup_body
  | Archival => DatabaseManager.archive_body
  end.

Definition run (op : Maintenance) : M nat :=
  match op with
  | Cleanup => DatabaseManager.cleanupOldReservations
  | Archival => DatabaseManager.archiveReservations
  end.

Definition failure_log (op : Maintenance) (e : Error) : Event :=
  match op with
  | Cleanup => ConsoleError "Error during cleanup:" e
  | Archival => ConsoleError "Error during archiving:" e
  end.

(** A deployment whose store refuses the next call. *)
Definition unreachable_store : World :=
  set_faults [Some "connection reset"] scenario.

(** ** What an operation emits *)

(** A line of the console. *)
Definition is_log (ev : Event) : Prop :=
  match ev with
  | ConsoleLog _ | ConsoleError _ _ => True
  | Issued _ | Settled _ _ => False
  end.

(** Whatever the world does, [m] writes to the console at most: it issues
    no request, so that no mail and no webhook call leaves the process. *)
Definition only_logs {A} (m : M A) : Prop :=
  forall w, exists evs,
    happened w (m w).2 evs /\ Forall is_log evs /\ inflight (m w).2 = inflight w.

(** [m] never returns a value: every run of it throws. *)
Definition fails {A} (m : M A) : Prop :=
  forall w, exists e w', m w = (Throw e, w').

(** The error of every call [NotificationManager.notify(...)] that
    [DatabaseManager] makes. *)
Definition not_a_function : Error :=
  DatabaseManager.NotificationManager.not_a_function.

(** ** Storage figures *)

Definition megabytes (bytes : Z) : Q := inject_Z bytes / (1024 * 1024).

(** The string [s] is a decimal numeral with [places] decimals that denotes
    the multiple of [10 ^ -places] nearest to [x]. *)
Definition rounds (places : nat) (x : Q) (s : string) : Prop :=
  exists (v : Q) (n : Z),
    Number.parseFloat s = Some v /\
    (v == inject_Z n / inject_Z (10 ^ Z.of_nat places))%Q /\
    (Qabs (inject_Z n - x * inject_Z (10 ^ Z.of_nat places)) <= 1 # 2)%Q.

(** The world [w] whose store reports the counters [st]. *)
Definition metered (st : DbStats) (w : World) : World :=
  {| reservations := reservations w; archives := archives w; models := models w;
     dbStats := st; usage := usage w; faults := faults w; env := env w;
     LocalTZA := LocalTZA w; clock := clock w; ticks := ticks w;
     smtp := smtp w; http := http w; sched := sched w;
     inflight := inflight w; trace := trace w |}.


(** ** What maintenance leaves alone *)

(** Every run of [m] takes a world to one that [R] relates it to. *)
Definition keeps (R : World -> World -> Prop) {A} (m : M A) : Prop :=
  forall w, R w (m w).2.

(** What maintenance may do to the collections: remove reservations and
    append copies to the archive. *)
Definition shrinks (w w' : World) : Prop :=
  reservations w' ⊆ reservations w /\ archives w `prefix_of` archives w'.

(** The archive is left as it was. *)
Definition same_archive (w w' : World) : Prop := archives w' = archives w.

(** Both collections are left as they were. *)
Definition same_collections (w w' : World) : Prop :=
  reservations w' = reservations w /\ archives w' = archives w.

(** The alert flags when no limit is crossed. *)
Definition no_alert : DatabaseManager.Alerts :=
  {| DatabaseManager.warning := false;
     DatabaseManager.critical := false;
     DatabaseManager.emergency := false |}.


(** ** Limits in bytes *)

(** A store of [bytes] bytes is past the limit of [limit] megabytes once
    its size, rounded to hundredths of a megabyte, is. *)
Definition past (limit bytes : Z) : Prop :=
  (200 * limit + 1) * (1024 * 1024) <= 200 * bytes.


(** ** Partial failures *)

(** The collection [m] without the documents that satisfy [p]. *)
Definition without (p : Reservation -> bool) (m : gmap ObjectId Reservation)
  : gmap ObjectId Reservation :=
  filter (fun doc => p doc.2 = false) m.

(** The documents of [m] created before [t]. *)
Definition older_than (t : Z) (m : gmap ObjectId Reservation)
  : gmap ObjectId Reservation :=
  filter (fun doc => createdAt doc.2 < t) m.

(** A deployment whose store answers the first call and refuses the second. *)
Definition flaky_store : World :=
  set_faults [None; Some "connection reset"] scenario.

(** A deployment with one document older than 60 days and one younger,
    whose store follows the script [fl]. *)
Definition aged (fl : list (option string)) : World :=
  set_faults fl
    (deployment [(7%N, sample "cancelled" (noon - 61 * Date.msPerDay));
                 (9%N, sample "confirmed" (noon - 59 * Date.msPerDay))]).



(** ** The log of a notification *)

(** The error [sendDiscordWebhook] logs for the outcome [c] of its request,
    if any. *)
Definition webhook_error (c : Completion Response) : option Error :=
  match c with
  | Throw e => Some e
  | Normal (HttpResponse false st) =>
      Some {| message := "Discord webhook failed: " +:+ st |}
  | Normal _ => None
  end.


(** ** The timers *)

(** The local time of day at [now], in milliseconds since midnight. *)
Definition time_of_day (zone : Z -> bool -> Z) (now : Z) : Z :=
  Date.TimeWithinDay (Date.LocalTime zone now).

(** [now] falls in the first minute of the hour [h] of the local day. *)
Definition in_first_minute (zone : Z -> bool -> Z) (h : Z) (now : Z) : Prop :=
  0 <= h < 24 /\
  h * Date.msPerHour <= time_of_day zone now < h * Date.msPerHour + Date.msPerMinute.


(** ** The schema *)

(** [s] is made of decimal digits only. *)
Definition all_digits (s : string) : Prop :=
  Forall (fun c => Number.is_digit c = true) (String.list_ascii_of_string s).


(** ** The server process *)

(** The next call of [connectToDatabase] will not fail: a connection is
    cached, or [mongoose.connect] is not scripted to reject. *)
Definition reachable (p : Process) : Prop :=
  cachedConnection p <> None \/ forall msg rest, uplink p <> Some msg :: rest.

(** A server that has just started in the deployment [w], with the
    environment [env]. *)
Definition booted (env : Settings) (w : World) : Process :=
  {| world := w; cachedConnection := None; uplink := []; settings := env;
     timers := []; background := [] |}.

Definition no_settings : Settings :=
  {| CLEANUP_HOUR := None; ARCHIVE_HOUR := None; ENABLE_DB_MONITORING := None |}.

(** A server that has connected before. *)
Definition warm (w : World) : Process :=
  set_cachedConnection (Some mongoose_connection) (booted no_settings w).


(** ** Scheduling *)

(** The timers [scheduleMaintenanceTasks] registers under the settings [env]. *)
Definition maintenance_timers (env : Settings) : list Timer :=
  [{| callback := DatabaseManager.health_timer; delay := 4 * 60 * 60 * 1000 |};
   {| callback := DatabaseManager.cleanup_timer
                    (DatabaseManager.cleanupHour (CLEANUP_HOUR env));
      delay := 60 * 1000 |};
   {| callback := DatabaseManager.archive_timer
                    (DatabaseManager.archiveHour (ARCHIVE_HOUR env));
      delay := 60 * 1000 |}].

Definition monitored : Settings :=
  {| CLEANUP_HOUR := None; ARCHIVE_HOUR := None; ENABLE_DB_MONITORING := Some "true" |}.


(** ** A zone with summer time *)

(** Central European time around the end of summer time on 25 October
    2026, 01:00 UTC, which is 03:00 on the local clock; a local time that
    occurs twice is taken before the change. *)
Definition cet (t : Z) (isUTC : bool) : Z :=
  let change := 1792890000000 in
  if t <? (if isUTC then change else change + 2 * hour) then 2 * hour else hour.

(** A deployment in that zone, a week after the change, with a reservation
    confirmed 30 days and 30 minutes ago. *)
Definition autumn : World :=
  {| reservations :=
       list_to_map [(5%N, sample "confirmed" (noon - 30 * Date.msPerDay - 1800000))];
     archives := []; models := ["Reservation"];
     dbStats := dbStats scenario; usage := []; faults := []; env := env scenario;
     LocalTZA := cet; clock := noon; ticks := [];
     smtp := []; http := []; sched := []; inflight := 0; trace := [] |}.

(** ** The driver's connection *)

(** A process that has not connected yet, whose driver follows [script]. *)
Definition fresh_client (script : list (option string)) : dbConnect.State :=
  {| dbConnect.clientInstance := false; dbConnect.opened := false;
     dbConnect.driver := script; dbConnect.console := [];
     dbConnect.exited := None |}.

(** * Decimal rendering and parsing *)

Section Decimal.
Import Number.






Lemma value_app l1 l2 : value (l1 ++ l2) = value_from (value l1) l2.
Proof. unfold value, value_from. apply fold_left_app. Qed.

Lemma value_snoc l c : value (l ++ [c]) = (10 * value l + digit_val c)%N.
Proof. rewrite value_app. reflexivity. Qed.

Lemma digit_char_val d : (d < 10)%N -> digit_val (digit_char d) = d.
Proof.
  intros Hd. unfold digit_val, digit_char.
  rewrite N_ascii_embedding by lia. lia.
Qed.

Lemma digit_char_is_digit d : (d < 10)%N -> is_digit (digit_char d) = true.
Proof.
  intros Hd. unfold is_digit, digit_char.
  rewrite N_ascii_embedding by lia.
  apply andb_true_intro; split; apply N.leb_le; lia.
Qed.

Lemma digits_fuel_spec fuel : forall n acc,
  (n < 2 ^ N.of_nat fuel)%N ->
  exists ds, digits_fuel fuel n acc = ds ++ acc /\ value ds = n /\
             Forall (fun c => is_digit c = true) ds.
Proof.
  induction fuel as [|fuel IH]; intros n acc Hn.
  - exists []. simpl in *. split; [done|]. split; [|constructor].
    unfold value. simpl. lia.
  - simpl. assert (Hm : (n mod 10 < 10)%N) by (apply N.mod_lt; lia).
    destruct (N.eqb_spec (n / 10) 0) as [H0|H0].
    + exists [digit_char (n mod 10)]. split; [done|]. split.
      * unfold value. simpl. rewrite digit_char_val by done.
        pose proof (N.div_mod n 10). lia.
      * constructor; [|constructor]. by apply digit_char_is_digit.
    + destruct (IH (n / 10)%N (digit_char (n mod 10) :: acc)) as (ds & Hds & Hv & Hall).
      { rewrite Nat2N.inj_succ, N.pow_succ_r' in Hn.
        apply N.Div0.div_lt_upper_bound. lia. }
      exists (ds ++ [digit_char (n mod 10)]). split.
      * rewrite Hds. by rewrite <- app_assoc.
      * split.
        -- rewrite value_snoc, Hv, digit_char_val by done.
           pose proof (N.div_mod n 10). lia.
        -- apply Forall_app. split; [done|]. constructor; [|constructor].
           by apply digit_char_is_digit.
Qed.

Lemma digits_fuel_suffix fuel : forall n acc,
  exists ds, digits_fuel fuel n acc = ds ++ acc.
Proof.
  induction fuel as [|fuel IH]; intros n acc; simpl.
  - by exists [].
  - destruct (n / 10 =? 0)%N.
    + by exists [digit_char (n mod 10)].
    + destruct (IH (n / 10)%N (digit_char (n mod 10) :: acc)) as [ds Hds].
      exists (ds ++ [digit_char (n mod 10)]). rewrite Hds. by rewrite <- app_assoc.
Qed.

Lemma digits_spec n :
  value (digits n) = n /\ Forall (fun c => is_digit c = true) (digits n) /\
  digits n <> [].
Proof.
  unfold digits.
  destruct (digits_fuel_spec (S (N.to_nat (N.log2 n))) n []) as (ds & Hds & Hv & Hall).
  { rewrite Nat2N.inj_succ, N2Nat.id.
    destruct (N.eq_dec n 0%N) as [->|Hn]; [done|].
    apply N.log2_spec. lia. }
  rewrite Hds, app_nil_r. split; [done|]. split; [done|].
  intros ->. simpl in Hds.
  destruct (n / 10 =? 0)%N; [done|].
  destruct (digits_fuel_suffix (N.to_nat (N.log2 n)) (n / 10)%N [digit_char (n mod 10)])
    as [ds' Hds'].
  rewrite Hds' in Hds. by destruct ds'.
Qed.

Lemma span_digits_all l :
  Forall (fun c => is_digit c = true) l -> span_digits l = (l, []).
Proof.
  induction 1 as [|c l Hc _ IH]; simpl; [done|]. by rewrite Hc, IH.
Qed.

Lemma span_digits_stop l c r :
  Forall (fun c => is_digit c = true) l -> is_digit c = false ->
  span_digits (l ++ c :: r) = (l, c :: r).
Proof.
  induction 1 as [|d l Hd _ IH]; intros Hc; simpl.
  - by rewrite Hc.
  - by rewrite Hd, IH.
Qed.

Lemma value_leading_zeros j l : value (repeat "0"%char j ++ l) = value l.
Proof.
  induction j as [|j IH]; [done|].
  unfold value in *. simpl. exact IH.
Qed.

Lemma Forall_digit_repeat j :
  Forall (fun c => is_digit c = true) (repeat "0"%char j).
Proof. induction j; simpl; by constructor. Qed.

Lemma digit_not_space c : is_digit c = true -> is_space c = false.
Proof.
  intros Hc. unfold is_digit, is_space in *.
  apply andb_prop in Hc as [H1 H2].
  apply N.leb_le in H1. apply N.leb_le in H2.
  apply orb_false_intro.
  - apply N.eqb_neq. lia.
  - apply andb_false_intro2. apply N.leb_gt. lia.
Qed.

Lemma trim_start_digit c l : is_digit c = true -> trim_start (c :: l) = c :: l.
Proof.
  intros Hc. cbn [trim_start]. rewrite (digit_not_space c Hc).
  unfold is_digit in Hc. apply andb_prop in Hc as [_ H2]. apply N.leb_le in H2.
  destruct l as [|c2 [|c3 l]]; [done| |].
  - replace (N_of_ascii c =? 194)%N with false; [done|].
    symmetry. apply N.eqb_neq. lia.
  - replace (N_of_ascii c =? 194)%N with false by (symmetry; apply N.eqb_neq; lia).
    unfold wide_space.
    replace (N_of_ascii c =? 225)%N with false by (symmetry; apply N.eqb_neq; lia).
    replace (N_of_ascii c =? 226)%N with false by (symmetry; apply N.eqb_neq; lia).
    replace (N_of_ascii c =? 227)%N with false by (symmetry; apply N.eqb_neq; lia).
    replace (N_of_ascii c =? 239)%N with false by (symmetry; apply N.eqb_neq; lia).
    reflexivity.
Qed.

Lemma trim_start_minus l : trim_start ("-"%char :: l) = "-"%char :: l.
Proof. by destruct l as [|c2 [|c3 l]]. Qed.

Lemma fixed_digits_head f n :
  exists c l, fixed_digits f n = c :: l /\ is_digit c = true.
Proof.
  destruct (digits_spec n) as (_ & Hall & Hne).
  unfold fixed_digits. destruct (Nat.eqb_spec f 0) as [->|Hf].
  - destruct (digits n) as [|c l]; [done|]. exists c, l. split; [done|].
    by inversion Hall.
  - set (m := repeat "0"%char (S f - length (digits n)) ++ digits n).
    assert (Hm : Forall (fun c => is_digit c = true) m).
    { apply Forall_app. split; [apply Forall_digit_repeat | done]. }
    assert (Hlen : (S f <= length m)%nat).
    { unfold m. rewrite length_app, repeat_length. lia. }
    destruct m as [|c l] eqn:E; [simpl in Hlen; lia|].
    simpl length in *.
    replace (S (length l) - f)%nat with (S (length l - f)) by lia.
    simpl. exists c, (take (length l - f) l ++ "."%char :: drop (length l - f) l).
    split; [done|]. by inversion Hm.
Qed.

Lemma parse_fixed_digits f n :
  exists ip fp,
    span_digits (fixed_digits f n) =
      (ip, match fp with [] => [] | _ => "."%char :: fp end) /\
    ip <> [] /\ span_digits fp = (fp, []) /\
    value (ip ++ fp) = n /\ length fp = f.
Proof.
  destruct (digits_spec n) as (Hv & Hall & Hne).
  unfold fixed_digits. destruct (Nat.eqb_spec f 0) as [->|Hf].
  - exists (digits n), []. rewrite app_nil_r.
    split; [by apply span_digits_all|]. done.
  - set (m := repeat "0"%char (S f - length (digits n)) ++ digits n).
    assert (Hm : Forall (fun c => is_digit c = true) m).
    { apply Forall_app. split; [apply Forall_digit_repeat | done]. }
    assert (Hlen : (S f <= length m)%nat).
    { unfold m. rewrite length_app, repeat_length. lia. }
    assert (Hval : value m = n).
    { unfold m. by rewrite value_leading_zeros. }
    clearbody m.
    exists (take (length m - f) m), (drop (length m - f) m).
    assert (Hfp : length (drop (length m - f) m) = f).
    { rewrite length_drop. lia. }
    split.
    { rewrite span_digits_stop; [|by apply Forall_take|done].
      destruct (drop (length m - f) m); [simpl in Hfp; lia|done]. }
    split.
    { intros E. apply (f_equal length) in E. rewrite length_take in E. simpl in E. lia. }
    split; [apply span_digits_all; by apply Forall_drop|].
    by rewrite take_drop.
Qed.

Lemma parse_unsigned_fixed f n :
  parse_unsigned (fixed_digits f n) =
    Some (Z.of_N n # Pos.of_nat (Z.to_nat (scale f))).
Proof.
  destruct (parse_fixed_digits f n) as (ip & fp & Hspan & Hip & Hfp & Hval & Hlen).
  unfold parse_unsigned. rewrite Hspan.
  destruct fp as [|d fp'].
  - simpl in *. subst f. rewrite app_nil_r in *. destruct ip; [done|]. by rewrite Hval.
  - rewrite Hfp. simpl fst. rewrite Hval, Hlen. by destruct ip.
Qed.

Lemma parseFloat_toFixed f x :
  parseFloat (toFixed f x) = Some (decimal f x).
Proof.
  unfold parseFloat, toFixed. rewrite String.list_ascii_of_string_of_list_ascii.
  change (toFixed_chars f x) with
    ((if is_negative x then ["-"%char] else []) ++ fixed_digits f (nearest f (Qabs x))).
  unfold decimal, parseFloat_chars.
  set (n := nearest f (Qabs x)).
  destruct (fixed_digits_head f n) as (c & l & Hcl & Hc).
  destruct (is_negative x); simpl app.
  - rewrite trim_start_minus. by rewrite parse_unsigned_fixed.
  - rewrite Hcl, trim_start_digit by done.
    trans (parse_unsigned (c :: l)).
    + destruct c as [[] [] [] [] [] [] [] []]; done.
    + rewrite <- Hcl. apply parse_unsigned_fixed.
Qed.

Lemma scale_pos f : 0 < scale f.
Proof. unfold scale. apply Z.pow_pos_nonneg; lia. Qed.

Lemma scale_positive f : Z.pos (Pos.of_nat (Z.to_nat (scale f))) = scale f.
Proof. pose proof (scale_pos f). lia. Qed.

Lemma nearest_bounds f y :
  (0 <= y)%Q ->
  let n := inject_Z (Z.of_N (nearest f y)) in
  let s := inject_Z (scale f) in
  (n <= y * s + (1 # 2) /\ y * s + (1 # 2) < n + 1)%Q.
Proof.
  intros Hy. unfold nearest. cbv zeta.
  set (z := (y * inject_Z (scale f) + (1 # 2))%Q).
  assert (Hs : (0 < inject_Z (scale f))%Q).
  { change 0%Q with (inject_Z 0). rewrite <- Zlt_Qlt. apply scale_pos. }
  assert (Hz : (0 <= z)%Q).
  { unfold z. assert (0 <= y * inject_Z (scale f))%Q by (apply Qmult_le_0_compat; lra). lra. }
  assert (Hf : 0 <= Qfloor z).
  { change 0 with (Qfloor 0). by apply Qfloor_resp_le. }
  rewrite Z2N.id by done. split.
  - apply Qfloor_le.
  - pose proof (Qlt_floor z) as H. rewrite inject_Z_plus in H. exact H.
Qed.

(** [toFixed] rounds: the string denotes [n / 10^f] for an integer [n] at
    distance at most one half from [x * 10^f]. *)
Lemma decimal_rounds f x :
  exists n : Z,
    (decimal f x == inject_Z n / inject_Z (scale f))%Q /\
    (Qabs (inject_Z n - x * inject_Z (scale f)) <= 1 # 2)%Q.
Proof.
  pose proof (nearest_bounds f (Qabs x) (Qabs_nonneg x)) as [H1 H2].
  cbv zeta in H1, H2. unfold decimal.
  set (n := Z.of_N (nearest f (Qabs x))) in *.
  assert (Hs : (0 < inject_Z (scale f))%Q).
  { change 0%Q with (inject_Z 0). rewrite <- Zlt_Qlt. apply scale_pos. }
  assert (Hv : (n # Pos.of_nat (Z.to_nat (scale f)) == inject_Z n / inject_Z (scale f))%Q).
  { rewrite Qmake_Qdiv, scale_positive. reflexivity. }
  unfold is_negative. destruct (Qle_bool 0 x) eqn:E; simpl negb; cbv iota.
  - apply Qle_bool_iff in E. exists n. split; [exact Hv|].
    rewrite (Qabs_pos x) in H1, H2 by done.
    apply Qabs_Qle_condition. split; lra.
  - assert (Hx : (x < 0)%Q).
    { apply Qnot_le_lt. intros H. apply Qle_bool_iff in H. congruence. }
    exists (- n). split.
    + rewrite Hv, inject_Z_opp. field. lra.
    + rewrite (Qabs_neg x) in H1, H2 by lra.
      rewrite inject_Z_opp. apply Qabs_Qle_condition. split; lra.
Qed.

End Decimal.

(** * Calendar arithmetic *)

Section Calendar.
Import Date.




Lemma MonthFromTime_range t : 0 <= MonthFromTime t <= 11.
Proof.
  unfold MonthFromTime.
  repeat match goal with
         | |- context [if ?b then _ else _] => destruct b
         end; lia.
Qed.

Lemma MakeDay_DateFromTime t k :
  MakeDay (YearFromTime t) (MonthFromTime t) (DateFromTime t - k) = Day t - k.
Proof.
  pose proof (MonthFromTime_range t) as Hm.
  unfold MakeDay.
  rewrite Z.div_small, Z.mod_small by lia.
  rewrite Z.add_0_r.
  unfold DateFromTime, DayWithinYear, InLeapYear. lia.
Qed.

Lemma setDate_getDate zone d k :
  setDate zone d (getDate zone d - k) =
  UTC zone (LocalTime zone d - k * msPerDay).
Proof.
  unfold setDate, getDate. rewrite MakeDay_DateFromTime.
  f_equal. unfold MakeDate, Day, TimeWithinDay.
  pose proof (Z.div_mod (LocalTime zone d) msPerDay). unfold msPerDay in *. lia.
Qed.

Lemma setDate_getDate_fixed zone d k :
  fixed_offset zone -> setDate zone d (getDate zone d - k) = d - k * msPerDay.
Proof.
  intros Hz. rewrite setDate_getDate. unfold UTC, LocalTime.
  rewrite (Hz (d + zone d true - k * msPerDay) d false true). lia.
Qed.

Lemma YearFromDay_spec d :
  DayFromYear (YearFromDay d) <= d < DayFromYear (YearFromDay d + 1).
Proof.
  unfold YearFromDay, DayFromYear.
  set (z := d + 134774).
  pose proof (Z.div_mod z 146097 ltac:(lia)) as Hz.
  pose proof (Z.mod_pos_bound z 146097 ltac:(lia)) as Hdoe.
  set (era := z / 146097) in *. set (doe := z mod 146097) in *.
  assert (Hd : d = 146097 * era + doe - 134774) by lia.
  clearbody era doe. clear Hz. subst d. clear z.
  set (c := Z.min (doe / 36524) 3).
  assert (Hc : 0 <= c <= 3 /\ 36524 * c <= doe /\ (c < 3 -> doe < 36524 * (c + 1))).
  { unfold c. Z.div_mod_to_equations. lia. }
  clearbody c.
  set (doc := doe - c * 36524).
  assert (Hdoc : 0 <= doc <= 36524 /\ (c < 3 -> doc < 36524)) by lia.
  pose proof (Z.div_mod doc 1461 ltac:(lia)) as Hq.
  pose proof (Z.mod_pos_bound doc 1461 ltac:(lia)) as Hdoq.
  set (q := doc / 1461) in *. set (doq := doc mod 1461) in *.
  assert (Hq' : 0 <= q <= 24).
  { unfold q. Z.div_mod_to_equations. lia. }
  clearbody q doq.
  set (y := Z.min (doq / 365) 3).
  assert (Hy : 0 <= y <= 3 /\ 365 * y <= doq /\ (y < 3 -> doq < 365 * (y + 1))).
  { unfold y. Z.div_mod_to_equations. lia. }
  clearbody y.
  Z.div_mod_to_equations. lia.
Qed.

End Calendar.

(** * Notifications *)

Ltac by_running := vm_compute; reflexivity.

Ltac clock_step ck :=
  first [ apply Z.le_refl
        | match goal with
          | d : N |- _ =>
              apply (Z.le_trans _ (ck + Z.of_N d));
              [ apply (Z.le_trans _ (ck + 0));
                [ rewrite Z.add_0_r; apply Z.le_refl
                | apply Z.add_le_mono_l, N2Z.is_nonneg ]
              | apply Z.eq_le_incl; by_running ]
          end ].

Ltac run_notify ck :=
  eexists; split; [by_running|];
  split; [by_running|];
  split; [by_running|];
  split;
  [ split; [by_running|]; split; [by_running|]; split; [by_running|];
    split; by_running
  | split; [by_running|]; split; [by_running|]; clock_step ck ].

Lemma notify_spec subject message isError w :
  exists w',
    NotificationManager.notify subject message isError w = (Normal tt, w') /\
    happened w w' (notify_events subject message isError w) /\
    inflight w' = inflight w /\ same_store w w' /\ same_host w w'.
Proof.
  unfold happened, same_store, same_host.
  destruct w as [res arc mods st us fl [eu ep ae url] tz ck tk sm ht sc inf tr].
  destruct url as [[|c url]|].
  - destruct sm as [|[msg|] sm]; run_notify ck.
  - destruct sm as [|[msg|] sm]; destruct ht as [|[msg'|[] st'] ht];
      destruct sc as [|[] sc]; destruct tk as [|d tk]; run_notify ck.
  - destruct sm as [|[msg|] sm]; run_notify ck.
Qed.

(** * Steps of the maintenance code *)


Lemma bind_normal {A B} (m : M A) (f : A -> M B) w a w' :
  m w = (Normal a, w') -> bind m f w = f a w'.
Proof. unfold bind. by intros ->. Qed.

Lemma bind_throw {A B} (m : M A) (f : A -> M B) w e w' :
  m w = (Throw e, w') -> bind m f w = (Throw e, w').
Proof. unfold bind. by intros ->. Qed.

Lemma try_normal {A} (m : M A) h w a w' :
  m w = (Normal a, w') -> try_catch m h w = (Normal a, w').
Proof. unfold try_catch. by intros ->. Qed.

Lemma try_throw {A} (m : M A) h w e w' :
  m w = (Throw e, w') -> try_catch m h w = h e w'.
Proof. unfold try_catch. by intros ->. Qed.

Lemma new_Date_eq w : new_Date w = (Normal (clock w), tick w).
Proof.
  unfold new_Date, tick.
  destruct w as [res arc mods st us fl en tz ck tk sm ht sc inf tr]; simpl.
  by destruct tk.
Qed.


Ltac world_simpl :=
  cbn [reservations archives models dbStats usage faults env LocalTZA clock ticks
       smtp http sched inflight trace
       set_reservations set_archives set_faults set_clock set_smtp set_http
       set_sched set_inflight set_trace tick answered fst snd] in *.

(** The counters apart, a write leaves the world as it is. *)
Lemma remeasure_same w :
  reservations (remeasure w) = reservations w /\
  archives (remeasure w) = archives w /\
  models (remeasure w) = models w /\
  faults (remeasure w) = faults w /\
  env (remeasure w) = env w /\
  LocalTZA (remeasure w) = LocalTZA w /\
  clock (remeasure w) = clock w /\
  ticks (remeasure w) = ticks w /\
  inflight (remeasure w) = inflight w /\
  trace (remeasure w) = trace w.
Proof. unfold remeasure. by destruct (usage w). Qed.

Lemma reservations_remeasure w : reservations (remeasure w) = reservations w.
Proof. apply remeasure_same. Qed.

Lemma archives_remeasure w : archives (remeasure w) = archives w.
Proof. apply remeasure_same. Qed.

Lemma models_remeasure w : models (remeasure w) = models w.
Proof. apply remeasure_same. Qed.

Lemma faults_remeasure w : faults (remeasure w) = faults w.
Proof. apply remeasure_same. Qed.

Lemma LocalTZA_remeasure w : LocalTZA (remeasure w) = LocalTZA w.
Proof. apply remeasure_same. Qed.

Lemma clock_remeasure w : clock (remeasure w) = clock w.
Proof. apply remeasure_same. Qed.

Lemma ticks_remeasure w : ticks (remeasure w) = ticks w.
Proof. apply remeasure_same. Qed.

Lemma inflight_remeasure w : inflight (remeasure w) = inflight w.
Proof. apply remeasure_same. Qed.

Lemma trace_remeasure w : trace (remeasure w) = trace w.
Proof. apply remeasure_same. Qed.

Create Rewrite HintDb world.
#[global] Hint Rewrite reservations_remeasure archives_remeasure models_remeasure
  faults_remeasure LocalTZA_remeasure clock_remeasure ticks_remeasure
  inflight_remeasure trace_remeasure : world.

Ltac world_norm :=
  world_simpl; repeat (progress (autorewrite with world in *; world_simpl)).

Lemma model_registered name w :
  name ∈ models w -> mongoose.model name w = (Normal tt, w).
Proof. intros H. unfold mongoose.model. by rewrite bool_decide_eq_true_2. Qed.

Lemma model_missing name w :
  name ∉ models w ->
  mongoose.model name w = (Throw (mongoose.MissingSchemaError name), w).
Proof. intros H. unfold mongoose.model. by rewrite bool_decide_eq_false_2. Qed.

Lemma quiet_S k w : quiet (S k) w -> quiet 1 w /\ quiet k (answered w).
Proof.
  unfold quiet, answered.
  destruct w as [res arc mods st us fl en tz ck tk sm ht sc inf tr].
  simpl. destruct fl as [|f fl]; simpl.
  - intros _. split; [constructor|]. by rewrite take_nil.
  - intros H. inversion H; subst. split; [|done].
    rewrite take_0. by repeat constructor.
Qed.

Lemma quiet_same_faults k w w' : faults w' = faults w -> quiet k w -> quiet k w'.
Proof. unfold quiet. by intros ->. Qed.

Lemma store_call_quiet {A} (op : World -> A * World) w :
  quiet 1 w ->
  mongoose.store_call op w = (Normal (op (answered w)).1, (op (answered w)).2).
Proof.
  unfold quiet, mongoose.store_call, answered.
  destruct w as [res arc mods st us fl en tz ck tk sm ht sc inf tr]; simpl.
  destruct fl as [|[msg|] fl]; simpl.
  - intros _. unfold set_faults; simpl. by destruct op.
  - intros H. by inversion H.
  - intros _. unfold set_faults; simpl. by destruct op.
Qed.

Lemma store_call_fault {A} (op : World -> A * World) w msg rest :
  faults w = Some msg :: rest ->
  mongoose.store_call op w = (Throw {| message := msg |}, answered w).
Proof.
  unfold mongoose.store_call, answered. by intros ->.
Qed.

Lemma deleteMany_quiet q w :
  quiet 1 w ->
  mongoose.deleteMany q w =
    (Normal (size (mongoose.selected q (reservations w))),
     remeasure (set_reservations (mongoose.rejected q (reservations w)) (answered w))).
Proof.
  intros Hq. unfold mongoose.deleteMany. by rewrite store_call_quiet.
Qed.

Lemma find_quiet q w :
  quiet 1 w ->
  mongoose.find q w =
    (Normal (map_to_list (mongoose.selected q (reservations w))), answered w).
Proof.
  intros Hq. unfold mongoose.find. by rewrite store_call_quiet.
Qed.

Lemma happened_app w1 w2 w3 e1 e2 :
  happened w1 w2 e1 -> happened w2 w3 e2 -> happened w1 w3 (e1 ++ e2).
Proof.
  unfold happened. intros H1 H2. rewrite H2, H1, rev_app_distr. by rewrite app_assoc.
Qed.

(** ** The call of the unbound [notify] *)

Lemma notify_throws subject message isError w :
  DatabaseManager.NotificationManager.notify subject message isError w =
    (Throw not_a_function, w).
Proof. reflexivity. Qed.

(** The handlers of [cleanupOldReservations] and [archiveReservations]:
    the error is logged, and the call of [notify] throws in its turn. *)
Lemma run_after_throw op w e w1 :
  body op w = (Throw e, w1) ->
  run op w = (Throw not_a_function, set_trace (failure_log op e :: trace w1) w1).
Proof.
  intros Hbody.
  destruct op; simpl in *;
    [unfold DatabaseManager.cleanupOldReservations
    |unfold DatabaseManager.archiveReservations];
    by rewrite (try_throw _ _ _ _ _ Hbody).
Qed.

Lemma run_after_normal op w n w1 :
  body op w = (Normal n, w1) -> run op w = (Normal n, w1).
Proof.
  intros Hbody. destruct op; simpl in *; by apply try_normal.
Qed.

(** ** The two deletions of the cleanup *)

Lemma cleanup_body_run w :
  "Reservation" ∈ models w -> quiet 2 w ->
  let zone := LocalTZA w in
  let t30 := Date.setDate zone (clock w) (Date.getDate zone (clock w) - 30) in
  let t24 := clock (tick w) - 24 * 60 * 60 * 1000 in
  let m1 := mongoose.rejected (old_filter t30) (reservations w) in
  let d1 := size (mongoose.selected (old_filter t30) (reservations w)) in
  let d2 := size (mongoose.selected (pending_filter t24) m1) in
  exists w',
    DatabaseManager.cleanup_body w =
      (if (0 <? d1 + d2)%nat then Throw not_a_function else Normal 0%nat, w') /\
    reservations w' = mongoose.rejected (pending_filter t24) m1 /\
    archives w' = archives w /\
    trace w' = trace w /\
    inflight w' = inflight w /\
    models w' = models w /\
    LocalTZA w' = LocalTZA w /\
    faults w' = tail (tail (faults w)) /\
    clock w' = clock (tick (tick w)).
Proof.
  intros Hm Hq. cbv zeta.
  apply quiet_S in Hq as [Hq1 Hq2].
  unfold DatabaseManager.cleanup_body.
  erewrite bind_normal by apply new_Date_eq.
  erewrite bind_normal by reflexivity.
  erewrite bind_normal by (by apply model_registered).
  erewrite bind_normal by (by apply deleteMany_quiet).
  erewrite bind_normal by apply new_Date_eq.
  erewrite bind_normal by (apply model_registered; by world_norm).
  erewrite bind_normal.
  2:{ apply deleteMany_quiet. eapply quiet_same_faults; [|exact Hq2]. by world_norm. }
  world_norm.
  fold (old_filter (Date.setDate (LocalTZA w) (clock w) (Date.getDate (LocalTZA w) (clock w) - 30))).
  set (t24 := _ - 24 * 60 * 60 * 1000).
  fold (pending_filter t24).
  set (d1 := size (mongoose.selected (old_filter _) _)).
  set (d2 := size (mongoose.selected (pending_filter _) _)).
  match goal with |- context [bind _ _ ?w0] => set (wpre := w0) end.
  exists wpre.
  split.
  { destruct (0 <? d1 + d2)%nat eqn:Hpos.
    - by erewrite bind_throw by apply notify_throws.
    - erewrite bind_normal by reflexivity. apply Nat.ltb_ge in Hpos.
      unfold ret. do 2 f_equal. lia. }
  unfold wpre. world_norm. by repeat split.
Qed.

(** * What the maintenance code emits *)

Lemma only_logs_quiet {A} (m : M A) :
  (forall w, trace (m w).2 = trace w /\ inflight (m w).2 = inflight w) ->
  only_logs m.
Proof.
  intros H w. destruct (H w) as [Ht Hi]. exists [].
  split; [exact Ht|]. split; [constructor|exact Hi].
Qed.

Lemma only_logs_ret {A} (a : A) : only_logs (ret a).
Proof. by apply only_logs_quiet. Qed.

Lemma only_logs_throw {A} e : only_logs (@throw A e).
Proof. by apply only_logs_quiet. Qed.

Lemma only_logs_bind {A B} (m : M A) (f : A -> M B) :
  only_logs m -> (forall a, only_logs (f a)) -> only_logs (bind m f).
Proof.
  intros Hm Hf w. destruct (Hm w) as (e1 & H1 & O1 & I1).
  unfold bind. destruct (m w) as [[a|e] w1]; simpl in *.
  - destruct (Hf a w1) as (e2 & H2 & O2 & I2).
    exists (e1 ++ e2). split; [by eapply happened_app|].
    split; [by apply Forall_app|congruence].
  - by exists e1.
Qed.

Lemma only_logs_try_catch {A} (m : M A) h :
  only_logs m -> (forall e, only_logs (h e)) -> only_logs (try_catch m h).
Proof.
  intros Hm Hh w. destruct (Hm w) as (e1 & H1 & O1 & I1).
  unfold try_catch. destruct (m w) as [[a|e] w1]; simpl in *.
  - by exists e1.
  - destruct (Hh e w1) as (e2 & H2 & O2 & I2).
    exists (e1 ++ e2). split; [by eapply happened_app|].
    split; [by apply Forall_app|congruence].
Qed.

Lemma only_logs_console_error text e : only_logs (console_error text e).
Proof.
  intros w. exists [ConsoleError text e]. split; [reflexivity|].
  split; [|reflexivity]. by repeat constructor.
Qed.

Lemma only_logs_notify subject message isError :
  only_logs (DatabaseManager.NotificationManager.notify subject message isError).
Proof. apply only_logs_throw. Qed.

Lemma only_logs_new_Date : only_logs new_Date.
Proof. apply only_logs_quiet. intros w. rewrite new_Date_eq. by split. Qed.

Lemma only_logs_model name : only_logs (mongoose.model name).
Proof.
  apply only_logs_quiet. intros w. unfold mongoose.model. by destruct (bool_decide _).
Qed.

Lemma only_logs_store_call {A} (op : World -> A * World) :
  (forall w, trace (op w).2 = trace w /\ inflight (op w).2 = inflight w) ->
  only_logs (mongoose.store_call op).
Proof.
  intros Hop. apply only_logs_quiet. intros w. unfold mongoose.store_call.
  destruct (faults w) as [|[msg|] rest]; simpl.
  - specialize (Hop w). by destruct (op w).
  - by split.
  - specialize (Hop (set_faults rest w)). by destruct (op (set_faults rest w)).
Qed.

Lemma only_logs_deleteMany q : only_logs (mongoose.deleteMany q).
Proof.
  apply only_logs_store_call. intros w. simpl. by autorewrite with world.
Qed.

Lemma only_logs_find q : only_logs (mongoose.find q).
Proof. apply only_logs_store_call. by split. Qed.

Lemma only_logs_insertMany docs : only_logs (mongoose.insertMany docs).
Proof.
  unfold mongoose.insertMany. apply only_logs_bind.
  - apply only_logs_store_call. intros w.
    destruct (mongoose.insert_ordered docs (archives w)). simpl.
    by autorewrite with world.
  - intros []; [apply only_logs_ret|apply only_logs_throw].
Qed.

Lemma only_logs_stats : only_logs mongoose.stats.
Proof. apply only_logs_store_call. by split. Qed.

Lemma only_logs_mapM {A B} (f : A -> M B) l :
  (forall a, only_logs (f a)) -> only_logs (mapM f l).
Proof.
  intros Hf. induction l as [|a l IH]; simpl.
  - apply only_logs_ret.
  - apply only_logs_bind; [apply Hf|]. intros b.
    apply only_logs_bind; [apply IH|]. intros bs. apply only_logs_ret.
Qed.

Ltac logs_step :=
  first
    [ apply only_logs_notify
    | apply only_logs_ret
    | apply only_logs_throw
    | apply only_logs_console_error
    | apply only_logs_new_Date | apply only_logs_model | apply only_logs_deleteMany
    | apply only_logs_find | apply only_logs_insertMany | apply only_logs_stats
    | apply only_logs_try_catch; [|intros ?]
    | apply only_logs_bind; [|intros ?]
    | apply only_logs_mapM; intros ?
    | (apply only_logs_quiet; by intros ?) ].

Ltac logs := repeat logs_step.

Lemma cleanup_only_logs : only_logs DatabaseManager.cleanupOldReservations.
Proof.
  unfold DatabaseManager.cleanupOldReservations, DatabaseManager.cleanup_body,
    DatabaseManager.local_zone.
  logs. destruct (0 <? _)%nat; logs.
Qed.

Lemma archive_only_logs : only_logs DatabaseManager.archiveReservations.
Proof.
  unfold DatabaseManager.archiveReservations, DatabaseManager.archive_body,
    DatabaseManager.local_zone, DatabaseManager.archive_copy.
  logs. destruct (0 <? _)%nat; logs.
Qed.

Lemma getStats_only_logs : only_logs DatabaseManager.getStats.
Proof. unfold DatabaseManager.getStats. logs. Qed.

Lemma monitor_only_logs : only_logs DatabaseManager.monitorHealth.
Proof.
  unfold DatabaseManager.monitorHealth, DatabaseManager.monitor_body.
  apply only_logs_try_catch; [|intros ?; logs].
  apply only_logs_bind; [apply getStats_only_logs|].
  intros [s|]; [|logs].
  cbv zeta. apply only_logs_bind; [|intros ?; logs].
  repeat (destruct (Number.gt _ _));
    repeat first [apply cleanup_only_logs | apply archive_only_logs | logs_step].
Qed.

(** * Cleanup *)

Lemma old_filter_true t id r :
  mongoose.matches (old_filter t) (id, r) = true <->
  (status r = "confirmed" \/ status r = "cancelled") /\ createdAt r < t.
Proof.
  unfold mongoose.matches, old_filter. simpl.
  rewrite andb_true_r, andb_true_iff, Z.ltb_lt, bool_decide_eq_true.
  rewrite !elem_of_cons, elem_of_nil. tauto.
Qed.

Lemma pending_filter_true t id r :
  mongoose.matches (pending_filter t) (id, r) = true <->
  status r = "pending" /\ createdAt r < t.
Proof.
  unfold mongoose.matches, pending_filter. simpl.
  rewrite andb_true_r, andb_true_iff, Z.ltb_lt, String.eqb_eq. tauto.
Qed.

Lemma matches_old_filter t id r :
  mongoose.matches (old_filter (t - 30 * Date.msPerDay)) (id, r) = expired t r.
Proof.
  unfold mongoose.matches, old_filter, expired. simpl.
  rewrite andb_true_r, andb_comm. f_equal.
  destruct (decide (status r = "confirmed")) as [->|H1].
  { reflexivity. }
  rewrite (bool_decide_eq_false_2 (status r = "confirmed")) by done. simpl.
  apply bool_decide_ext. rewrite !elem_of_cons, elem_of_nil. tauto.
Qed.

Lemma rejected_old_filter t m :
  mongoose.rejected (old_filter (t - 30 * Date.msPerDay)) m = without (expired t) m.
Proof.
  unfold mongoose.rejected, without. apply map_filter_ext. intros id r _.
  by rewrite matches_old_filter.
Qed.

Lemma lookup_rejected q m id :
  mongoose.rejected q m !! id =
    match m !! id with
    | Some r => if mongoose.matches q (id, r) then None else Some r
    | None => None
    end.
Proof.
  unfold mongoose.rejected. rewrite map_lookup_filter.
  destruct (m !! id) as [r|]; simpl; [|done].
  destruct (mongoose.matches q (id, r)) eqn:E.
  - by rewrite option_guard_False.
  - by rewrite option_guard_True.
Qed.

Lemma selected_rejected_disjoint q1 q2 m :
  (forall doc, mongoose.matches q1 doc = true -> mongoose.matches q2 doc = false) ->
  mongoose.selected q2 (mongoose.rejected q1 m) = mongoose.selected q2 m.
Proof.
  intros H. unfold mongoose.selected, mongoose.rejected.
  rewrite map_filter_filter. apply map_filter_ext. intros id r _. simpl.
  split; [tauto|]. intros H2. split; [done|].
  destruct (mongoose.matches q1 (id, r)) eqn:E; [|done].
  apply H in E. congruence.
Qed.

Lemma size_selected q p m :
  (forall id r, mongoose.matches q (id, r) = p r) ->
  size (mongoose.selected q m) = count p m.
Proof.
  intros H. unfold count, mongoose.selected. f_equal.
  apply map_filter_ext. intros id r _. simpl. by rewrite H.
Qed.

(** A deletion removes as many documents as it reports. *)
Lemma size_selected_rejected q m :
  size m = (size (mongoose.selected q m) + size (mongoose.rejected q m))%nat.
Proof.
  unfold mongoose.selected, mongoose.rejected.
  assert (E : filter (fun doc => mongoose.matches q doc = false) m =
              filter (fun doc => ~ mongoose.matches q doc = true) m).
  { apply map_filter_ext. intros id r _. simpl.
    destruct (mongoose.matches q (id, r)); split; congruence. }
  rewrite E, <- map_size_disj_union by apply map_disjoint_filter_complement.
  by rewrite map_filter_union_complement.
Qed.

Lemma rejected_subseteq q m : mongoose.rejected q m ⊆ m.
Proof. apply map_filter_subseteq. Qed.

Lemma old_not_pending t t' doc :
  mongoose.matches (old_filter t) doc = true ->
  mongoose.matches (pending_filter t') doc = false.
Proof.
  destruct doc as [id r]. rewrite old_filter_true. intros [Hst _].
  apply not_true_is_false. rewrite pending_filter_true. intros [E _].
  rewrite E in Hst. by destruct Hst.
Qed.

(** The limit of the first deletion is 30 calendar days back. *)
Lemma thirty_days_ago zone now :
  Date.setDate zone now (Date.getDate zone now - 30) = days_before zone 30 now.
Proof. apply setDate_getDate. Qed.

Lemma days_before_fixed zone days now :
  fixed_offset zone -> days_before zone days now = now - days * Date.msPerDay.
Proof.
  intros Hz. unfold days_before, Date.UTC, Date.LocalTime.
  rewrite (Hz (now + zone now true - days * Date.msPerDay) now false true). lia.
Qed.

Lemma days_before_steady zone days now :
  steady zone ->
  now - (days + 1) * Date.msPerDay < days_before zone days now
    < now - (days - 1) * Date.msPerDay.
Proof.
  intros Hz. unfold days_before, Date.UTC, Date.LocalTime.
  specialize (Hz now (now + zone now true - days * Date.msPerDay) true false).
  unfold Date.msPerDay in *. lia.
Qed.

Lemma fixed_offset_steady zone : fixed_offset zone -> steady zone.
Proof.
  intros Hz t t' b b'. rewrite (Hz t t' b b'). unfold Date.msPerDay. lia.
Qed.

(** A run of the cleanup whose two deletions the store carries out. *)
Lemma cleanup_run w :
  "Reservation" ∈ models w -> quiet 2 w ->
  let limit := days_before (LocalTZA w) 30 (clock w) in
  let t24 := clock (tick w) - 24 * 60 * 60 * 1000 in
  let d1 := size (mongoose.selected (old_filter limit) (reservations w)) in
  let d2 := size (mongoose.selected (pending_filter t24) (reservations w)) in
  exists w',
    DatabaseManager.cleanupOldReservations w =
      (if (0 <? d1 + d2)%nat then Throw not_a_function else Normal 0%nat, w') /\
    reservations w' =
      mongoose.rejected (pending_filter t24)
        (mongoose.rejected (old_filter limit) (reservations w)) /\
    archives w' = archives w /\
    trace w' =
      (if (0 <? d1 + d2)%nat
       then [ConsoleError "Error during cleanup:" not_a_function] else []) ++ trace w /\
    inflight w' = inflight w /\
    size (reservations w) = (d1 + d2 + size (reservations w'))%nat /\
    models w' = models w /\
    LocalTZA w' = LocalTZA w /\
    faults w' = tail (tail (faults w)) /\
    clock w' = clock (tick (tick w)).
Proof.
  intros Hm Hq. cbv zeta.
  destruct (cleanup_body_run w Hm Hq) as (w1 & Hrun & Hres & Harc & Htr & Hinf & Hmod & Htz & Hfl & Hck).
  rewrite thirty_days_ago in *.
  rewrite selected_rejected_disjoint in Hrun by (intros doc; apply old_not_pending).
  set (limit := days_before (LocalTZA w) 30 (clock w)) in *.
  set (t24 := clock (tick w) - 24 * 60 * 60 * 1000) in *.
  set (d1 := size (mongoose.selected (old_filter limit) (reservations w))) in *.
  set (d2 := size (mongoose.selected (pending_filter t24) (reservations w))) in *.
  assert (Hsize : size (reservations w) = (d1 + d2 + size (reservations w1))%nat).
  { rewrite Hres. rewrite (size_selected_rejected (old_filter limit) (reservations w)).
    rewrite (size_selected_rejected (pending_filter t24)
               (mongoose.rejected (old_filter limit) (reservations w))).
    rewrite selected_rejected_disjoint by (intros doc; apply old_not_pending).
    fold d1 d2. lia. }
  destruct (0 <? d1 + d2)%nat eqn:Hpos.
  - eexists. split.
    { apply (run_after_throw Cleanup). exact Hrun. }
    world_simpl. by rewrite Htr.
  - exists w1. split.
    { apply (run_after_normal Cleanup). exact Hrun. }
    by rewrite Htr.
Qed.

Lemma cleanup_lookup w :
  "Reservation" ∈ models w -> quiet 2 w ->
  let limit := days_before (LocalTZA w) 30 (clock w) in
  let t24 := clock (tick w) - 24 * 60 * 60 * 1000 in
  forall id,
    reservations (DatabaseManager.cleanupOldReservations w).2 !! id =
      match reservations w !! id with
      | Some r =>
          if mongoose.matches (old_filter limit) (id, r)
             || mongoose.matches (pending_filter t24) (id, r)
          then None else Some r
      | None => None
      end.
Proof.
  intros Hm Hq limit t24 id.
  destruct (cleanup_run w Hm Hq) as (w' & Hrun & Hres & _).
  rewrite Hrun. cbn [snd]. rewrite Hres, !lookup_rejected.
  destruct (reservations w !! id) as [r|]; [|done].
  fold limit t24. by destruct (mongoose.matches (old_filter limit) (id, r)).
Qed.

Lemma deployment_healthy docs :
  "Reservation" ∈ models (deployment docs) /\
  (forall k, quiet k (deployment docs)) /\
  fixed_offset (LocalTZA (deployment docs)).
Proof.
  split; [apply list_elem_of_here|].
  split; [|by intros ? ? ? ?].
  intros k. unfold quiet. simpl. rewrite take_nil. constructor.
Qed.

(** C1, amended.  With the model registered and no store error, cleanup
    deletes a reservation that was in the store exactly when it is confirmed
    or cancelled and was created before the limit of the first deletion, or
    is pending and was created before 24 hours before the clock reading
    taken for the second deletion.  The limit is what
    [setDate(getDate() - 30)] makes of the first clock reading: the instant
    30 calendar days earlier at the same local time of day, which is 30
    times 24 hours earlier where the offset of the host's zone does not
    change.  Both comparisons are strict, so a reservation created exactly
    at a limit stays; a reservation that stays is unchanged, and none is
    added. *)
Theorem cleanup_deletes_by_status_and_age w :
  "Reservation" ∈ models w -> quiet 2 w ->
  let zone := LocalTZA w in
  let now1 := clock w in
  let now2 := clock (tick w) in
  let limit := Date.setDate zone now1 (Date.getDate zone now1 - 30) in
  let w' := (DatabaseManager.cleanupOldReservations w).2 in
  limit = days_before zone 30 now1 /\
  (fixed_offset zone -> limit = now1 - 30 * Date.msPerDay) /\
  (forall id r,
     reservations w !! id = Some r ->
     (reservations w' !! id = None <->
        ((status r = "confirmed" \/ status r = "cancelled") /\
         createdAt r < limit) \/
        (status r = "pending" /\
         createdAt r < now2 - 24 * 60 * 60 * 1000)) /\
     (reservations w' !! id = None \/ reservations w' !! id = Some r) /\
     (createdAt r = limit -> status r <> "pending" ->
      reservations w' !! id = Some r) /\
     (createdAt r = now2 - 24 * 60 * 60 * 1000 -> status r = "pending" ->
      reservations w' !! id = Some r)) /\
  (forall id, reservations w !! id = None -> reservations w' !! id = None).
Proof.
  intros Hm Hq zone now1 now2 limit w'.
  assert (Hlimit : limit = days_before zone 30 now1) by apply thirty_days_ago.
  split; [exact Hlimit|].
  split; [intros Hz; rewrite Hlimit; by apply days_before_fixed|].
  pose proof (cleanup_lookup w Hm Hq) as Hres. cbv zeta in Hres.
  fold zone now1 now2 in Hres. rewrite <- Hlimit in Hres. fold w' in Hres.
  split.
  - intros id r Hr. specialize (Hres id). rewrite Hr in Hres. rewrite Hres.
    pose proof (old_filter_true limit id r) as Ho.
    pose proof (pending_filter_true (now2 - 24 * 60 * 60 * 1000) id r) as Hp.
    destruct (mongoose.matches (old_filter limit) (id, r)) eqn:E1.
    { destruct (proj1 Ho eq_refl) as [Hst Hlt]. simpl.
      split; [split; [intros _; by left|done]|].
      split; [by left|].
      split; [intros Hc _; lia|].
      intros _ Hs. rewrite Hs in Hst. destruct Hst; discriminate. }
    destruct (mongoose.matches (pending_filter _) (id, r)) eqn:E2.
    { destruct (proj1 Hp eq_refl) as [Hst Hlt]. simpl.
      split; [split; [intros _; by right|done]|].
      split; [by left|].
      split; [intros _ Hs; done|].
      intros Hc _. lia. }
    simpl. split.
    { split; [discriminate|].
      intros [H|H]; [apply Ho in H|apply Hp in H]; discriminate. }
    split; [by right|]. by split.
  - intros id Hr. specialize (Hres id). by rewrite Hr in Hres.
Qed.

Lemma cleanup_deletes_by_status_and_age_witness :
  let w := scenario in
  let zone := LocalTZA w in
  let limit := Date.setDate zone (clock w) (Date.getDate zone (clock w) - 30) in
  let w' := (DatabaseManager.cleanupOldReservations w).2 in
  limit = days_before zone 30 (clock w) /\
  (fixed_offset zone -> limit = clock w - 30 * Date.msPerDay) /\
  (forall id r,
     reservations w !! id = Some r ->
     (reservations w' !! id = None <->
        ((status r = "confirmed" \/ status r = "cancelled") /\
         createdAt r < limit) \/
        (status r = "pending" /\
         createdAt r < clock (tick w) - 24 * 60 * 60 * 1000)) /\
     (reservations w' !! id = None \/ reservations w' !! id = Some r) /\
     (createdAt r = limit -> status r <> "pending" ->
      reservations w' !! id = Some r) /\
     (createdAt r = clock (tick w) - 24 * 60 * 60 * 1000 -> status r = "pending" ->
      reservations w' !! id = Some r)) /\
  (forall id, reservations w !! id = None -> reservations w' !! id = None).
Proof.
  apply (cleanup_deletes_by_status_and_age scenario); apply deployment_healthy.
Defined.

(** C1, as stated, fails where the host's zone changes its offset: a week
    after the end of summer time, a confirmed reservation created 30 days
    and 30 minutes before the invocation, hence before now minus 30 days,
    is still in the store after cleanup, with no store error. *)
Lemma cleanup_keeps_30_days_30_minutes_after_summer_time :
  let r := sample "confirmed" (noon - 30 * Date.msPerDay - 1800000) in
  reservations autumn !! 5%N = Some r /\
  status r = "confirmed" /\
  createdAt r < clock autumn - 30 * Date.msPerDay /\
  faults autumn = [] /\
  fst (DatabaseManager.cleanupOldReservations autumn) = Normal 0%nat /\
  reservations (snd (DatabaseManager.cleanupOldReservations autumn)) !! 5%N = Some r.
Proof. vm_compute. repeat split. Qed.

(** C4, amended.  With the model registered and no store error, for every
    reservation that is confirmed or cancelled: if its age at the
    invocation is more than 30 days, cleanup removes it, and if its age is
    at most 30 days, cleanup leaves it; and a pending reservation whose age
    is more than 24 hours at the clock reading taken for the second deletion
    is removed, whatever the 30-day rule says.  The 30 days are the 30
    calendar days that end at the invocation, on the host's local clock;
    they last 30 times 24 hours where the offset of the host's zone does
    not change. *)
Theorem cleanup_by_age w :
  "Reservation" ∈ models w -> quiet 2 w ->
  let zone := LocalTZA w in
  let w' := (DatabaseManager.cleanupOldReservations w).2 in
  let thirty_days := clock w - days_before zone 30 (clock w) in
  (fixed_offset zone -> thirty_days = 30 * Date.msPerDay) /\
  forall id r,
    reservations w !! id = Some r ->
    (status r = "confirmed" \/ status r = "cancelled" ->
     (thirty_days < clock w - createdAt r -> reservations w' !! id = None) /\
     (clock w - createdAt r <= thirty_days -> reservations w' !! id = Some r)) /\
    (status r = "pending" ->
     24 * 60 * 60 * 1000 < clock (tick w) - createdAt r ->
     reservations w' !! id = None).
Proof.
  intros Hm Hq zone w' thirty_days.
  split.
  { intros Hz. unfold thirty_days. rewrite days_before_fixed by done. lia. }
  pose proof (cleanup_lookup w Hm Hq) as Hres. cbv zeta in Hres.
  fold zone w' in Hres.
  intros id r Hr. specialize (Hres id). rewrite Hr in Hres. rewrite Hres.
  pose proof (old_filter_true (days_before zone 30 (clock w)) id r) as Ho.
  pose proof (pending_filter_true (clock (tick w) - 24 * 60 * 60 * 1000) id r) as Hp.
  split.
  - intros Hs. split; intros Hage.
    + replace (mongoose.matches (old_filter _) (id, r)) with true; [done|].
      symmetry. apply Ho. split; [done|]. unfold thirty_days in Hage. lia.
    + replace (mongoose.matches (old_filter _) (id, r)) with false.
      2:{ symmetry. apply not_true_is_false. rewrite Ho.
          unfold thirty_days in Hage. lia. }
      replace (mongoose.matches (pending_filter _) (id, r)) with false; [done|].
      symmetry. apply not_true_is_false. rewrite Hp.
      intros [E _]. rewrite E in Hs. destruct Hs; discriminate.
  - intros Hs Hage.
    replace (mongoose.matches (pending_filter _) (id, r)) with true.
    { by rewrite orb_true_r. }
    symmetry. apply Hp. split; [done|lia].
Qed.

Lemma cleanup_by_age_witness :
  let w := boundary in
  let zone := LocalTZA w in
  let w' := (DatabaseManager.cleanupOldReservations w).2 in
  let thirty_days := clock w - days_before zone 30 (clock w) in
  (fixed_offset zone -> thirty_days = 30 * Date.msPerDay) /\
  forall id r,
    reservations w !! id = Some r ->
    (status r = "confirmed" \/ status r = "cancelled" ->
     (thirty_days < clock w - createdAt r -> reservations w' !! id = None) /\
     (clock w - createdAt r <= thirty_days -> reservations w' !! id = Some r)) /\
    (status r = "pending" ->
     24 * 60 * 60 * 1000 < clock (tick w) - createdAt r ->
     reservations w' !! id = None).
Proof.
  apply (cleanup_by_age boundary); apply deployment_healthy.
Defined.

(** C4, as stated, fails at the boundary: a confirmed reservation whose
    age is exactly 30 days, hence at least 30 days, is still in the store
    after cleanup, which returns 0. *)
Lemma cleanup_keeps_age_of_exactly_30_days :
  let r := sample "confirmed" (noon - 30 * Date.msPerDay) in
  reservations boundary !! 1%N = Some r /\
  status r = "confirmed" /\
  clock boundary - createdAt r = 30 * Date.msPerDay /\
  fst (DatabaseManager.cleanupOldReservations boundary) = Normal 0%nat /\
  reservations (snd (DatabaseManager.cleanupOldReservations boundary)) !! 1%N = Some r.
Proof. vm_compute. repeat split. Qed.

(** C5, amended.  In one cleanup invocation with the model registered and
    no store error, on a host whose zone offset never moves by a whole day,
    and with the clock reading for the second deletion at most 14 hours
    after the invocation: the confirmed reservation created 31 days before
    the invocation is deleted, the pending reservation created 10 hours
    before it is retained, and the confirmed reservation created 10 hours
    before it is retained. *)
Theorem cleanup_scenario w id1 id2 id3 r1 r2 r3 :
  "Reservation" ∈ models w -> quiet 2 w -> steady (LocalTZA w) ->
  clock (tick w) - clock w <= 14 * hour ->
  reservations w !! id1 = Some r1 ->
  status r1 = "confirmed" -> createdAt r1 = clock w - 31 * Date.msPerDay ->
  reservations w !! id2 = Some r2 ->
  status r2 = "pending" -> createdAt r2 = clock w - 10 * hour ->
  reservations w !! id3 = Some r3 ->
  status r3 = "confirmed" -> createdAt r3 = clock w - 10 * hour ->
  let w' := (DatabaseManager.cleanupOldReservations w).2 in
  reservations w' !! id1 = None /\
  reservations w' !! id2 = Some r2 /\
  reservations w' !! id3 = Some r3.
Proof.
  intros Hm Hq Hz Hrun H1 S1 C1 H2 S2 C2 H3 S3 C3 w'.
  pose proof (cleanup_lookup w Hm Hq) as Hres. cbv zeta in Hres. fold w' in Hres.
  pose proof (days_before_steady (LocalTZA w) 30 (clock w) Hz) as Hlim.
  set (limit := days_before (LocalTZA w) 30 (clock w)) in *.
  set (t24 := clock (tick w) - 24 * 60 * 60 * 1000) in *.
  unfold hour, Date.msPerDay in *.
  rewrite !Hres, H1, H2, H3.
  assert (E1 : mongoose.matches (old_filter limit) (id1, r1) = true).
  { apply old_filter_true. split; [by left|lia]. }
  assert (E2 : mongoose.matches (old_filter limit) (id2, r2) = false).
  { apply not_true_is_false. rewrite old_filter_true, S2.
    intros [[?|?] _]; discriminate. }
  assert (A2 : mongoose.matches (pending_filter t24) (id2, r2) = false).
  { apply not_true_is_false. rewrite pending_filter_true. unfold t24. lia. }
  assert (E3 : mongoose.matches (old_filter limit) (id3, r3) = false).
  { apply not_true_is_false. rewrite old_filter_true. lia. }
  assert (A3 : mongoose.matches (pending_filter t24) (id3, r3) = false).
  { apply not_true_is_false. rewrite pending_filter_true, S3. intros [? _]; discriminate. }
  by rewrite E1, E2, A2, E3, A3.
Qed.

Lemma cleanup_scenario_witness :
  let w' := (DatabaseManager.cleanupOldReservations scenario).2 in
  reservations w' !! 1%N = None /\
  reservations w' !! 2%N = Some (sample "pending" (noon - 10 * hour)) /\
  reservations w' !! 3%N = Some (sample "confirmed" (noon - 10 * hour)).
Proof.
  apply (cleanup_scenario scenario 1%N 2%N 3%N
           (sample "confirmed" (noon - 31 * Date.msPerDay))
           (sample "pending" (noon - 10 * hour))
           (sample "confirmed" (noon - 10 * hour)));
    first [ apply deployment_healthy
          | apply fixed_offset_steady, deployment_healthy
          | reflexivity | vm_compute; discriminate ].
Defined.

(** C5, as stated, fails for the pending reservation: in the scenario the
    pending reservation created 10 hours before the invocation is still in
    the store after cleanup, which has deleted the confirmed reservation
    created 31 days before. *)
Lemma cleanup_keeps_pending_created_10_hours_ago :
  let r := sample "pending" (noon - 10 * hour) in
  let w' := snd (DatabaseManager.cleanupOldReservations scenario) in
  reservations scenario !! 2%N = Some r /\
  status r = "pending" /\
  clock scenario - createdAt r = 10 * hour /\
  reservations w' !! 2%N = Some r /\
  reservations w' !! 1%N = None.
Proof. vm_compute. repeat split. Qed.

(** C10.  What the code does instead: cleanup never emits a notification.
    In every world it writes to the console at most and issues no request.
    With the model registered and no store error, it removes reservations
    only; when it removes none it returns 0 and leaves the trace as it was;
    when it removes at least one, the call of notify that should announce
    it throws the TypeError 'NotificationManager.notify is not a function',
    the handler logs that error and calls notify again, and the call
    rejects with the TypeError instead of returning the count. *)
Theorem cleanup_never_announces_its_deletions w :
  let w' := (DatabaseManager.cleanupOldReservations w).2 in
  (exists evs, happened w w' evs /\ Forall is_log evs /\ inflight w' = inflight w) /\
  ("Reservation" ∈ models w -> quiet 2 w ->
   let removed := (size (reservations w) - size (reservations w'))%nat in
   reservations w' ⊆ reservations w /\
   (removed = 0%nat ->
    DatabaseManager.cleanupOldReservations w = (Normal 0%nat, w') /\
    trace w' = trace w) /\
   ((0 < removed)%nat ->
    DatabaseManager.cleanupOldReservations w = (Throw not_a_function, w') /\
    trace w' = ConsoleError "Error during cleanup:" not_a_function :: trace w)).
Proof.
  intros w'. split; [apply cleanup_only_logs|].
  intros Hm Hq removed.
  destruct (cleanup_run w Hm Hq) as (w1 & Hrun & Hres & _ & Htr & _ & Hsize & _).
  cbv zeta in *.
  assert (Hw : w' = w1) by (unfold w'; by rewrite Hrun). rewrite Hw in *.
  unfold removed. rewrite Hw. clear removed.
  split.
  { rewrite Hres. etrans; apply rejected_subseteq. }
  match type of Hrun with context [(0 <? ?x)%nat] => set (d := x) in * end.
  assert (Hd : (size (reservations w) - size (reservations w1))%nat = d) by lia.
  rewrite Hd. split; intros Hrem.
  - assert (E : (0 <? d)%nat = false) by (apply Nat.ltb_ge; lia).
    rewrite E in *. by split.
  - assert (E : (0 <? d)%nat = true) by (by apply Nat.ltb_lt).
    rewrite E in *. by split.
Qed.

Lemma cleanup_never_announces_its_deletions_witness :
  let w := scenario in
  let w' := (DatabaseManager.cleanupOldReservations w).2 in
  let removed := (size (reservations w) - size (reservations w'))%nat in
  reservations w' ⊆ reservations w /\
  (removed = 0%nat ->
   DatabaseManager.cleanupOldReservations w = (Normal 0%nat, w') /\
   trace w' = trace w) /\
  ((0 < removed)%nat ->
   DatabaseManager.cleanupOldReservations w = (Throw not_a_function, w') /\
   trace w' = ConsoleError "Error during cleanup:" not_a_function :: trace w).
Proof.
  apply (proj2 (cleanup_never_announces_its_deletions scenario));
    apply deployment_healthy.
Defined.

(** In the scenario, cleanup deletes the confirmed reservation created
    31 days before, logs the TypeError of the call that should announce
    it, and rejects with it; nothing else is emitted. *)
Lemma cleanup_rejects_in_the_scenario :
  let w' := snd (DatabaseManager.cleanupOldReservations scenario) in
  fst (DatabaseManager.cleanupOldReservations scenario) =
    Throw {| message := "NotificationManager.notify is not a function" |} /\
  reservations w' !! 1%N = None /\
  trace w' =
    [ConsoleError "Error during cleanup:"
       {| message := "NotificationManager.notify is not a function" |}].
Proof. vm_compute. repeat split. Qed.

(** * Archival *)



Lemma matches_createdAt_lt t id r :
  mongoose.matches [mongoose.createdAt_lt t] (id, r) = bool_decide (createdAt r < t).
Proof.
  unfold mongoose.matches. simpl. rewrite andb_true_r.
  destruct (Z.ltb_spec (createdAt r) t).
  - by rewrite bool_decide_eq_true_2.
  - rewrite bool_decide_eq_false_2; [done|lia].
Qed.

Lemma selected_createdAt_lt t m :
  mongoose.selected [mongoose.createdAt_lt t] m = older_than t m.
Proof.
  unfold mongoose.selected, older_than. apply map_filter_ext. intros id r _.
  rewrite matches_createdAt_lt. simpl. apply bool_decide_eq_true.
Qed.


Lemma found_length m :
  (0 <? length (map_to_list m))%nat = negb (bool_decide (m = (∅ : gmap ObjectId Reservation))).
Proof.
  rewrite length_map_to_list.
  destruct (decide (m = ∅)) as [->|Hne].
  - by rewrite map_size_empty, bool_decide_eq_true_2.
  - rewrite bool_decide_eq_false_2 by done. apply Nat.ltb_lt.
    assert (size m <> 0%nat) by (by rewrite map_size_empty_iff). lia.
Qed.

(** ** Code that cannot return *)

Lemma fails_notify subject message isError :
  fails (DatabaseManager.NotificationManager.notify subject message isError).
Proof. intros w. by eexists _, _. Qed.

Lemma fails_bind_l {A B} (m : M A) (f : A -> M B) : fails m -> fails (bind m f).
Proof.
  intros Hm w. destruct (Hm w) as (e & w' & Hrun).
  exists e, w'. by apply bind_throw.
Qed.

Lemma fails_bind_r {A B} (m : M A) (f : A -> M B) :
  (forall a, fails (f a)) -> fails (bind m f).
Proof.
  intros Hf w. unfold bind. destruct (m w) as [[a|e] w1].
  - apply Hf.
  - by eexists _, _.
Qed.

(** The first steps of archival: the limit is computed and the documents
    that are due are looked up. *)
Lemma archive_body_find w :
  "Reservation" ∈ models w -> quiet 1 w ->
  let limit := days_before (LocalTZA w) 60 (clock w) in
  let found := map_to_list (older_than limit (reservations w)) in
  DatabaseManager.archive_body w =
    (if (0 <? length found)%nat then
       mongoose.model "Archive" ;;;
       archiveData <- mapM DatabaseManager.archive_copy found ;;
       mongoose.insertMany archiveData ;;;
       mongoose.model "Reservation" ;;;
       mongoose.deleteMany [mongoose.id_in (map fst found)] ;;;
       DatabaseManager.NotificationManager.notify
         "Archiving Completed"
         ("Archived " +:+ Number.toString (length found) +:+
          " old reservations successfully.")
         false ;;;
       ret (length found)
     else ret 0%nat) (answered (tick w)).
Proof.
  intros Hm Hq. cbv zeta. unfold DatabaseManager.archive_body.
  erewrite bind_normal by apply new_Date_eq.
  erewrite bind_normal by reflexivity.
  erewrite bind_normal by (by apply model_registered).
  erewrite bind_normal by (by apply find_quiet).
  world_simpl. rewrite setDate_getDate, selected_createdAt_lt. reflexivity.
Qed.

Lemma archive_nothing w :
  "Reservation" ∈ models w -> quiet 1 w ->
  older_than (days_before (LocalTZA w) 60 (clock w)) (reservations w) = ∅ ->
  DatabaseManager.archiveReservations w = (Normal 0%nat, answered (tick w)).
Proof.
  intros Hm Hq Hnone. apply (run_after_normal Archival). simpl.
  rewrite archive_body_find by done. cbv zeta.
  by rewrite found_length, Hnone, bool_decide_eq_true_2.
Qed.

Lemma archive_body_throws w :
  "Reservation" ∈ models w -> quiet 1 w ->
  older_than (days_before (LocalTZA w) 60 (clock w)) (reservations w) <> ∅ ->
  exists e w', DatabaseManager.archive_body w = (Throw e, w').
Proof.
  intros Hm Hq Hsome.
  rewrite archive_body_find by done. cbv zeta.
  rewrite found_length, bool_decide_eq_false_2 by done. simpl.
  do 5 (apply fails_bind_r; intros ?).
  apply fails_bind_l, fails_notify.
Qed.

Lemma archive_body_unregistered w :
  "Reservation" ∈ models w -> "Archive" ∉ models w -> quiet 1 w ->
  older_than (days_before (LocalTZA w) 60 (clock w)) (reservations w) <> ∅ ->
  DatabaseManager.archive_body w =
    (Throw (mongoose.MissingSchemaError "Archive"), answered (tick w)).
Proof.
  intros Hm Ha Hq Hsome.
  rewrite archive_body_find by done. cbv zeta.
  rewrite found_length, bool_decide_eq_false_2 by done. simpl.
  erewrite bind_throw; [reflexivity|]. by apply model_missing.
Qed.

Lemma aged_healthy fl :
  "Reservation" ∈ models (aged fl) /\ ("Archive" ∉ models (aged fl)) /\
  LocalTZA (aged fl) = (fun _ _ => 0).
Proof.
  split; [apply list_elem_of_here|]. split; [|reflexivity].
  simpl. rewrite list_elem_of_singleton. discriminate.
Qed.

(** C2.  What the code does instead.  With the model Reservation
    registered and the store answering the lookup, archival looks up the
    reservations created before the instant 60 calendar days before the
    clock reading, whatever their status.  When there is none it returns 0
    and changes nothing.  When there is one, it never returns the count:
    the call rejects with the TypeError 'NotificationManager.notify is not
    a function', in every world.  No model is registered under the name
    Archive by the repository, and then [mongoose.model('Archive')] throws
    before anything is copied or deleted: both collections stay as they
    were and the missing-schema error is logged.  Archival issues no
    request in any world. *)
Theorem archival_never_returns_a_count w :
  let w' := (DatabaseManager.archiveReservations w).2 in
  (exists evs, happened w w' evs /\ Forall is_log evs /\ inflight w' = inflight w) /\
  ("Reservation" ∈ models w -> quiet 1 w ->
   let zone := LocalTZA w in
   let limit := Date.setDate zone (clock w) (Date.getDate zone (clock w) - 60) in
   let due := older_than limit (reservations w) in
   limit = days_before zone 60 (clock w) /\
   (fixed_offset zone -> limit = clock w - 60 * Date.msPerDay) /\
   (due = ∅ ->
    DatabaseManager.archiveReservations w = (Normal 0%nat, answered (tick w))) /\
   (due <> ∅ ->
    DatabaseManager.archiveReservations w = (Throw not_a_function, w')) /\
   (due <> ∅ -> "Archive" ∉ models w ->
    reservations w' = reservations w /\
    archives w' = archives w /\
    trace w' =
      ConsoleError "Error during archiving:" (mongoose.MissingSchemaError "Archive")
      :: trace w)).
Proof.
  intros w'. split; [apply archive_only_logs|].
  intros Hm Hq zone limit due.
  assert (Hlimit : limit = days_before zone 60 (clock w)) by apply setDate_getDate.
  split; [exact Hlimit|].
  split; [intros Hz; rewrite Hlimit; by apply days_before_fixed|].
  unfold due. rewrite Hlimit. clear due. split; [|split].
  - intros Hnone. by apply archive_nothing.
  - intros Hsome.
    destruct (archive_body_throws w Hm Hq Hsome) as (e & w1 & Hbody).
    pose proof (run_after_throw Archival w e w1 Hbody) as Hrun.
    change (run Archival w) with (DatabaseManager.archiveReservations w) in Hrun.
    unfold w'. by rewrite Hrun.
  - intros Hsome Ha.
    pose proof (archive_body_unregistered w Hm Ha Hq Hsome) as Hbody.
    pose proof (run_after_throw Archival w _ _ Hbody) as Hrun.
    change (run Archival w) with (DatabaseManager.archiveReservations w) in Hrun.
    unfold w'. by rewrite Hrun.
Qed.

Lemma archival_never_returns_a_count_witness :
  let w := aged [] in
  let w' := (DatabaseManager.archiveReservations w).2 in
  let zone := LocalTZA w in
  let limit := Date.setDate zone (clock w) (Date.getDate zone (clock w) - 60) in
  let due := older_than limit (reservations w) in
  limit = days_before zone 60 (clock w) /\
  (fixed_offset zone -> limit = clock w - 60 * Date.msPerDay) /\
  (due = ∅ ->
   DatabaseManager.archiveReservations w = (Normal 0%nat, answered (tick w))) /\
  (due <> ∅ ->
   DatabaseManager.archiveReservations w = (Throw not_a_function, w')) /\
  (due <> ∅ -> "Archive" ∉ models w ->
   reservations w' = reservations w /\
   archives w' = archives w /\
   trace w' =
     ConsoleError "Error during archiving:" (mongoose.MissingSchemaError "Archive")
     :: trace w).
Proof.
  apply (proj2 (archival_never_returns_a_count (aged []))).
  - apply aged_healthy.
  - unfold quiet. simpl. constructor.
Defined.

(** In a deployment with a reservation created 61 days before, nothing
    is archived and nothing is deleted, the missing-schema error is logged,
    and archival rejects with the TypeError. *)
Lemma archival_rejects_on_an_aged_reservation :
  let w' := snd (DatabaseManager.archiveReservations (aged [])) in
  fst (DatabaseManager.archiveReservations (aged [])) =
    Throw {| message := "NotificationManager.notify is not a function" |} /\
  reservations w' !! 7%N = Some (sample "cancelled" (noon - 61 * Date.msPerDay)) /\
  archives w' = [] /\
  trace w' =
    [ConsoleError "Error during archiving:" (mongoose.MissingSchemaError "Archive")].
Proof. vm_compute. repeat split. Qed.

(** * Store errors and the notification sink *)

Lemma first_call_refused op w msg rest :
  "Reservation" ∈ models w -> faults w = Some msg :: rest ->
  body op w = (Throw {| message := msg |}, answered (tick w)).
Proof.
  intros Hm Hf.
  assert (Hf' : faults (tick w) = Some msg :: rest) by (by world_simpl).
  destruct op; simpl.
  - unfold DatabaseManager.cleanup_body.
    erewrite bind_normal by apply new_Date_eq.
    erewrite bind_normal by reflexivity.
    erewrite bind_normal by (by apply model_registered).
    erewrite bind_throw; [reflexivity|].
    unfold mongoose.deleteMany. by eapply store_call_fault.
  - unfold DatabaseManager.archive_body.
    erewrite bind_normal by apply new_Date_eq.
    erewrite bind_normal by reflexivity.
    erewrite bind_normal by (by apply model_registered).
    erewrite bind_throw; [reflexivity|].
    unfold mongoose.find. by eapply store_call_fault.
Qed.

Lemma run_only_logs op : only_logs (run op).
Proof. destruct op; [apply cleanup_only_logs|apply archive_only_logs]. Qed.

(** C7.  What the code does instead.  Whenever an error is raised inside
    the try block of cleanup or of archival, the handler logs it and then
    calls notify, which throws the TypeError 'NotificationManager.notify
    is not a function': the operation does not return 0 but rejects with
    that TypeError, and no failure notification is emitted, since the
    operation issues no request in any world.  So it is when the store
    refuses the first call: both collections stay as they were, the
    store's error is logged, and the caller gets the TypeError. *)
Theorem maintenance_rejects_after_a_store_error op w :
  (exists evs,
     happened w (run op w).2 evs /\ Forall is_log evs /\
     inflight (run op w).2 = inflight w) /\
  (forall e w1,
     body op w = (Throw e, w1) ->
     run op w =
       (Throw not_a_function, set_trace (failure_log op e :: trace w1) w1)) /\
  (forall msg rest,
     "Reservation" ∈ models w -> faults w = Some msg :: rest ->
     exists w',
       run op w = (Throw not_a_function, w') /\
       trace w' = (failure_log op {| message := msg |} :: trace w) /\
       reservations w' = reservations w /\
       archives w' = archives w).
Proof.
  split; [apply run_only_logs|].
  split; [intros e w1; apply run_after_throw|].
  intros msg rest Hm Hf. eexists. split.
  - apply run_after_throw. by eapply first_call_refused.
  - by world_simpl.
Qed.

Lemma maintenance_rejects_after_a_store_error_witness :
  let w := unreachable_store in
  (exists w',
     run Cleanup w = (Throw not_a_function, w') /\
     trace w' = (failure_log Cleanup {| message := "connection reset" |} :: trace w) /\
     reservations w' = reservations w /\
     archives w' = archives w) /\
  (exists w',
     run Archival w = (Throw not_a_function, w') /\
     trace w' = (failure_log Archival {| message := "connection reset" |} :: trace w) /\
     reservations w' = reservations w /\
     archives w' = archives w).
Proof.
  split.
  - apply (proj2 (proj2 (maintenance_rejects_after_a_store_error Cleanup unreachable_store))
             "connection reset" []); [apply list_elem_of_here|reflexivity].
  - apply (proj2 (proj2 (maintenance_rejects_after_a_store_error Archival unreachable_store))
             "connection reset" []); [apply list_elem_of_here|reflexivity].
Defined.

(** With a store that refuses the next call, both operations log the
    store's error and reject with the TypeError; nothing is emitted
    besides. *)
Lemma maintenance_rejects_when_the_store_is_unreachable :
  fst (DatabaseManager.cleanupOldReservations unreachable_store) =
    Throw {| message := "NotificationManager.notify is not a function" |} /\
  trace (snd (DatabaseManager.cleanupOldReservations unreachable_store)) =
    [ConsoleError "Error during cleanup:" {| message := "connection reset" |}] /\
  fst (DatabaseManager.archiveReservations unreachable_store) =
    Throw {| message := "NotificationManager.notify is not a function" |} /\
  trace (snd (DatabaseManager.archiveReservations unreachable_store)) =
    [ConsoleError "Error during archiving:" {| message := "connection reset" |}].
Proof. vm_compute. repeat split. Qed.

(** C9.  For every title, message and isError, when DISCORD_WEBHOOK_URL
    is unset or empty, sendDiscordWebhook completes at once with no error
    and leaves the world as it was: no request is issued, nothing is
    logged; awaiting it gives the same. *)
Theorem sendDiscordWebhook_unconfigured title message isError w :
  truthy (DISCORD_WEBHOOK_URL (env w)) = false ->
  NotificationManager.sendDiscordWebhook title message isError w =
    (Done (Normal tt), w) /\
  (p <- call (NotificationManager.sendDiscordWebhook title message isError) ;;
   await p) w = (Normal tt, w).
Proof.
  intros Hurl.
  assert (H : NotificationManager.sendDiscordWebhook title message isError w =
              (Done (Normal tt), w)).
  { unfold NotificationManager.sendDiscordWebhook, Async.try_catch, Async.bind,
      Async.lift, process_env.
    destruct (DISCORD_WEBHOOK_URL (env w)) as [[|c url]|]; [reflexivity| |reflexivity].
    discriminate Hurl. }
  split; [exact H|].
  unfold bind, call. rewrite H. reflexivity.
Qed.

Lemma sendDiscordWebhook_unconfigured_witness :
  NotificationManager.sendDiscordWebhook "WARNING: Database Usage Alert" "usage" false scenario =
    (Done (Normal tt), scenario) /\
  (p <- call (NotificationManager.sendDiscordWebhook "WARNING: Database Usage Alert" "usage" false) ;;
   await p) scenario = (Normal tt, scenario).
Proof.
  apply (sendDiscordWebhook_unconfigured "WARNING: Database Usage Alert" "usage" false scenario).
  reflexivity.
Defined.

(** C8.  For every subject, message and isError and every behaviour of
    the relay, the webhook and the scheduler, notify returns normally; it
    issues the mail and, when a webhook URL is configured, the webhook
    request before either of them settles; both have settled when it
    returns, and no request is left in flight. *)
Theorem notify_awaits_both_channels subject message isError w :
  exists w',
    NotificationManager.notify subject message isError w = (Normal tt, w') /\
    inflight w' = inflight w /\
    let mail := mail_request subject message w in
    match webhook_url w with
    | Some url =>
        let hook := webhook_request subject message isError url (clock w) in
        exists rest,
          happened w w' (Issued mail :: Issued hook :: rest) /\
          Settled mail (mail_outcome w) ∈ rest /\
          Settled hook (webhook_outcome w) ∈ rest
    | None =>
        exists rest,
          happened w w' (Issued mail :: Settled mail (mail_outcome w) :: rest)
    end.
Proof.
  destruct (notify_spec subject message isError w) as (w' & Hrun & Hhap & Hinf & _).
  exists w'. split; [exact Hrun|]. split; [exact Hinf|].
  unfold notify_events in Hhap. cbv zeta.
  destruct (webhook_url w) as [url|].
  - eexists. split; [exact Hhap|].
    unfold email_settles, webhook_settles.
    destruct (mail_first w); split.
    + apply list_elem_of_here.
    + do 2 apply list_elem_of_further. apply list_elem_of_here.
    + apply elem_of_app. right. apply list_elem_of_here.
    + apply list_elem_of_here.
  - eexists. exact Hhap.
Qed.

Lemma toFixed_rounds f x : rounds f x (Number.toFixed f x).
Proof.
  destruct (decimal_rounds f x) as (n & Hv & Hn).
  exists (decimal f x), n. split; [apply parseFloat_toFixed|]. by split.
Qed.

Lemma getStats_quiet w :
  quiet 1 w ->
  let st := dbStats w in
  let mb := (inject_Z (storageSize st) / (1024 * 1024))%Q in
  DatabaseManager.getStats w =
    (Normal (Some
       {| DatabaseManager.sizeInMB :=
            Number.toFixed 2 (inject_Z (dataSize st) / (1024 * 1024))%Q;
          DatabaseManager.storageInMB := Number.toFixed 2 mb;
          DatabaseManager.indexSizeInMB :=
            Number.toFixed 2 (inject_Z (indexSize st) / (1024 * 1024))%Q;
          DatabaseManager.freeStorageMB := Number.toFixed 2 (512 - mb)%Q;
          DatabaseManager.usagePercentage := Number.toFixed 1 (mb / 512 * 100)%Q |}),
     answered w).
Proof.
  intros Hq. cbv zeta. unfold DatabaseManager.getStats.
  apply try_normal.
  erewrite bind_normal by (unfold mongoose.stats; by apply store_call_quiet).
  reflexivity.
Qed.

Lemma getStats_fault w msg rest :
  faults w = Some msg :: rest ->
  DatabaseManager.getStats w =
    (Normal None,
     set_trace (ConsoleError "Error getting database stats:" {| message := msg |}
                  :: trace w) (answered w)).
Proof.
  intros Hf. unfold DatabaseManager.getStats.
  erewrite try_throw.
  2:{ erewrite bind_throw; [reflexivity|].
      unfold mongoose.stats. by eapply store_call_fault. }
  reflexivity.
Qed.

(** C6.  On a read failure getStats returns null.  Otherwise each of
    sizeInMB, storageInMB and indexSizeInMB is the byte counter divided by
    1024 * 1024, rounded to two decimals; freeStorageMB is 512 minus the
    storage size in megabytes, rounded to two decimals; usagePercentage is
    the storage size in megabytes over 512 times 100, rounded to one
    decimal; and a storageSize of 200 * 1024 * 1024 bytes gives the
    usagePercentage '39.1'. *)
Theorem getStats_converts_to_megabytes w :
  (forall msg rest,
     faults w = Some msg :: rest ->
     exists w', DatabaseManager.getStats w = (Normal None, w')) /\
  (quiet 1 w ->
   let st := dbStats w in
   exists s,
     DatabaseManager.getStats w = (Normal (Some s), answered w) /\
     rounds 2 (megabytes (dataSize st)) (DatabaseManager.sizeInMB s) /\
     rounds 2 (megabytes (storageSize st)) (DatabaseManager.storageInMB s) /\
     rounds 2 (megabytes (indexSize st)) (DatabaseManager.indexSizeInMB s) /\
     rounds 2 (512 - megabytes (storageSize st)) (DatabaseManager.freeStorageMB s) /\
     rounds 1 (megabytes (storageSize st) / 512 * 100)
       (DatabaseManager.usagePercentage s) /\
     (storageSize st = 200 * 1024 * 1024 ->
      DatabaseManager.usagePercentage s = "39.1")).
Proof.
  split.
  - intros msg rest Hf. eexists. by eapply getStats_fault.
  - intros Hq st. eexists. split; [by apply getStats_quiet|].
    cbn [DatabaseManager.sizeInMB DatabaseManager.storageInMB
         DatabaseManager.indexSizeInMB DatabaseManager.freeStorageMB
         DatabaseManager.usagePercentage].
    repeat (split; [apply toFixed_rounds|]).
    fold st. intros ->. vm_compute. reflexivity.
Qed.

Lemma getStats_converts_to_megabytes_witness :
  let st := {| dataSize := 150 * 1024 * 1024;
               storageSize := 200 * 1024 * 1024;
               indexSize := 4 * 1024 * 1024 |} in
  let w := metered st scenario in
  exists s,
    DatabaseManager.getStats w = (Normal (Some s), answered w) /\
    rounds 2 (megabytes (dataSize st)) (DatabaseManager.sizeInMB s) /\
    rounds 2 (megabytes (storageSize st)) (DatabaseManager.storageInMB s) /\
    rounds 2 (megabytes (indexSize st)) (DatabaseManager.indexSizeInMB s) /\
    rounds 2 (512 - megabytes (storageSize st)) (DatabaseManager.freeStorageMB s) /\
    rounds 1 (megabytes (storageSize st) / 512 * 100)
      (DatabaseManager.usagePercentage s) /\
    (storageSize st = 200 * 1024 * 1024 ->
     DatabaseManager.usagePercentage s = "39.1").
Proof.
  intros st w.
  apply (proj2 (getStats_converts_to_megabytes w)).
  unfold quiet. simpl. constructor.
Defined.

(** * Capacity monitoring *)

Lemma gt_true v limit : Number.gt (Some v) limit = true <-> (limit < v)%Q.
Proof.
  unfold Number.gt. rewrite negb_true_iff. split.
  - intros H. apply Qnot_le_lt. intros Hle. apply Qle_bool_iff in Hle. congruence.
  - intros H. apply not_true_is_false. intros Hle. apply Qle_bool_iff in Hle. lra.
Qed.

Lemma gt_false v limit : Number.gt (Some v) limit = false <-> (v <= limit)%Q.
Proof.
  unfold Number.gt. rewrite negb_false_iff. apply Qle_bool_iff.
Qed.

(** [monitorHealth] ends with the value of its try block, or logs the
    error of the block and rejects with the error of the unbound notify. *)
Lemma monitor_run w :
  DatabaseManager.monitorHealth w =
    match DatabaseManager.monitor_body w with
    | (Normal h, w1) => (Normal h, w1)
    | (Throw e, w1) =>
        (Throw not_a_function,
         set_trace (ConsoleError "Error monitoring database health:" e :: trace w1) w1)
    end.
Proof.
  unfold DatabaseManager.monitorHealth, try_catch.
  by destruct (DatabaseManager.monitor_body w) as [[h|e] w1].
Qed.

(** The try block once the stats [s] are there, [v] being the number
    read from [s.storageInMB]. *)
Lemma monitor_body_stats w s v :
  DatabaseManager.getStats w = (Normal (Some s), answered w) ->
  Number.parseFloat (DatabaseManager.storageInMB s) = Some v ->
  DatabaseManager.monitor_body w =
    (if Qle_bool v 350 then Normal (Some {| DatabaseManager.snapshot := s;
                                           DatabaseManager.alerts := no_alert |})
     else Throw not_a_function,
     answered w).
Proof.
  intros Hstats Hv. unfold DatabaseManager.monitor_body.
  erewrite bind_normal by exact Hstats. cbv beta iota zeta. rewrite Hv.
  pose proof (gt_true v DatabaseManager.WARNING_THRESHOLD) as F1.
  pose proof (gt_false v DatabaseManager.WARNING_THRESHOLD) as G1.
  pose proof (gt_false v DatabaseManager.CRITICAL_THRESHOLD) as G2.
  pose proof (gt_false v DatabaseManager.EMERGENCY_THRESHOLD) as G3.
  unfold DatabaseManager.WARNING_THRESHOLD, DatabaseManager.CRITICAL_THRESHOLD,
    DatabaseManager.EMERGENCY_THRESHOLD in *.
  destruct (Qle_bool v 350) eqn:Hle.
  - apply Qle_bool_iff in Hle.
    rewrite (proj2 G1) by lra. rewrite (proj2 G2) by lra. rewrite (proj2 G3) by lra.
    reflexivity.
  - assert (H1 : (350 < v)%Q).
    { apply Qnot_le_lt. intros H. apply Qle_bool_iff in H. congruence. }
    apply F1 in H1. rewrite H1.
    destruct (Number.gt (Some v) 450); [|destruct (Number.gt (Some v) 400)];
      (erewrite bind_throw; [reflexivity|]);
      [erewrite bind_throw; [reflexivity|]| |]; apply notify_throws.
Qed.

Lemma monitor_fault w msg rest :
  faults w = Some msg :: rest ->
  DatabaseManager.monitorHealth w =
    (Normal None,
     set_trace (ConsoleError "Error getting database stats:" {| message := msg |}
                  :: trace w) (answered w)).
Proof.
  intros Hf. rewrite monitor_run. unfold DatabaseManager.monitor_body.
  erewrite bind_normal by (by eapply getStats_fault). reflexivity.
Qed.

Lemma monitor_quiet w :
  quiet 1 w ->
  exists s v,
    DatabaseManager.getStats w = (Normal (Some s), answered w) /\
    Number.parseFloat (DatabaseManager.storageInMB s) = Some v /\
    v = decimal 2 (megabytes (storageSize (dbStats w))) /\
    DatabaseManager.monitorHealth w =
      (if Qle_bool v 350
       then (Normal (Some {| DatabaseManager.snapshot := s;
                             DatabaseManager.alerts := no_alert |}), answered w)
       else (Throw not_a_function,
             set_trace (ConsoleError "Error monitoring database health:" not_a_function
                          :: trace w) (answered w))).
Proof.
  intros Hq.
  pose proof (getStats_quiet w Hq) as Hstats. cbv zeta in Hstats.
  match type of Hstats with _ = (Normal (Some ?r), _) => set (s := r) in * end.
  exists s, (decimal 2 (megabytes (storageSize (dbStats w)))).
  assert (Hv : Number.parseFloat (DatabaseManager.storageInMB s) =
               Some (decimal 2 (megabytes (storageSize (dbStats w))))).
  { apply parseFloat_toFixed. }
  split; [exact Hstats|]. split; [exact Hv|]. split; [reflexivity|].
  rewrite monitor_run, (monitor_body_stats w s _ Hstats Hv).
  by destruct (Qle_bool _ 350).
Qed.

Lemma quiet_or_fault w : quiet 1 w \/ exists msg rest, faults w = Some msg :: rest.
Proof.
  unfold quiet. destruct (faults w) as [|[msg|] rest]; simpl.
  - left. constructor.
  - right. by exists msg, rest.
  - left. rewrite take_0. by repeat constructor.
Qed.

Lemma monitor_same_collections w :
  same_collections w (DatabaseManager.monitorHealth w).2.
Proof.
  destruct (quiet_or_fault w) as [Hq|(msg & rest & Hf)].
  - destruct (monitor_quiet w Hq) as (s & v & _ & _ & _ & Hrun).
    rewrite Hrun. by destruct (Qle_bool v 350).
  - by rewrite (monitor_fault w msg rest Hf).
Qed.

(** C3.  What the code does instead.  monitorHealth returns undefined when
    the stats are unavailable.  Otherwise, when storageInMB is at most 350
    it returns the stats snapshot with the three flags false and emits
    nothing.  When storageInMB is above 350, whichever tiers are crossed,
    the call of notify that should send the alert throws the TypeError
    'NotificationManager.notify is not a function'; the handler logs it
    and calls notify again, so that monitorHealth rejects with the
    TypeError: no flag is ever returned true, no alert is sent, and above
    450 neither cleanup nor archival is invoked.  In every world
    monitorHealth issues no request and leaves both collections as they
    were. *)
Theorem monitorHealth_rejects_above_350 w :
  let w' := (DatabaseManager.monitorHealth w).2 in
  (exists evs, happened w w' evs /\ Forall is_log evs /\ inflight w' = inflight w) /\
  same_collections w w' /\
  (forall msg rest,
     faults w = Some msg :: rest ->
     DatabaseManager.monitorHealth w = (Normal None, w')) /\
  (quiet 1 w ->
   exists s v,
     DatabaseManager.getStats w = (Normal (Some s), answered w) /\
     Number.parseFloat (DatabaseManager.storageInMB s) = Some v /\
     ((v <= 350)%Q ->
      DatabaseManager.monitorHealth w =
        (Normal (Some {| DatabaseManager.snapshot := s;
                         DatabaseManager.alerts := no_alert |}), answered w)) /\
     ((350 < v)%Q ->
      DatabaseManager.monitorHealth w =
        (Throw not_a_function,
         set_trace (ConsoleError "Error monitoring database health:" not_a_function
                      :: trace w) (answered w)))).
Proof.
  intros w'. split; [apply monitor_only_logs|].
  split; [apply monitor_same_collections|]. split.
  - intros msg rest Hf. unfold w'. by rewrite (monitor_fault w msg rest Hf).
  - intros Hq. destruct (monitor_quiet w Hq) as (s & v & Hstats & Hv & _ & Hrun).
    exists s, v. split; [exact Hstats|]. split; [exact Hv|].
    rewrite Hrun. destruct (Qle_bool v 350) eqn:Hle.
    + apply Qle_bool_iff in Hle. split; [done|]. intros H. lra.
    + assert (H1 : (350 < v)%Q).
      { apply Qnot_le_lt. intros H. apply Qle_bool_iff in H. congruence. }
      split; [|done]. intros H. lra.
Qed.

Lemma monitorHealth_rejects_above_350_witness :
  let st := {| dataSize := 300 * 1024 * 1024;
               storageSize := 460 * 1024 * 1024;
               indexSize := 4 * 1024 * 1024 |} in
  let w := metered st scenario in
  exists s v,
    DatabaseManager.getStats w = (Normal (Some s), answered w) /\
    Number.parseFloat (DatabaseManager.storageInMB s) = Some v /\
    ((v <= 350)%Q ->
     DatabaseManager.monitorHealth w =
       (Normal (Some {| DatabaseManager.snapshot := s;
                        DatabaseManager.alerts := no_alert |}), answered w)) /\
    ((350 < v)%Q ->
     DatabaseManager.monitorHealth w =
       (Throw not_a_function,
        set_trace (ConsoleError "Error monitoring database health:" not_a_function
                     :: trace w) (answered w))).
Proof.
  intros st w.
  apply (proj2 (proj2 (proj2 (monitorHealth_rejects_above_350 w)))).
  unfold quiet. simpl. constructor.
Defined.

(** With a store of 460 MB, monitorHealth logs the TypeError and
    rejects with it; no reservation is deleted, nothing is archived and
    nothing else is emitted. *)
Lemma monitorHealth_rejects_at_460_megabytes :
  let w :=
    metered {| dataSize := 300 * 1024 * 1024;
               storageSize := 460 * 1024 * 1024;
               indexSize := 4 * 1024 * 1024 |} scenario in
  let w' := snd (DatabaseManager.monitorHealth w) in
  fst (DatabaseManager.monitorHealth w) =
    Throw {| message := "NotificationManager.notify is not a function" |} /\
  reservations w' = reservations w /\
  archives w' = archives w /\
  trace w' =
    [ConsoleError "Error monitoring database health:"
       {| message := "NotificationManager.notify is not a function" |}].
Proof. vm_compute. repeat split. Qed.

(** * What maintenance leaves alone *)

Section Keeps.
Context (R : World -> World -> Prop) `{!PreOrder R}.

Lemma keeps_ret {A} (a : A) : keeps R (ret a).
Proof. intros w. simpl. reflexivity. Qed.

Lemma keeps_throw {A} e : keeps R (@throw A e).
Proof. intros w. simpl. reflexivity. Qed.

Lemma keeps_bind {A B} (m : M A) (f : A -> M B) :
  keeps R m -> (forall a, keeps R (f a)) -> keeps R (bind m f).
Proof.
  intros Hm Hf w. specialize (Hm w). unfold bind.
  destruct (m w) as [[a|e] w1]; simpl in *; [|done].
  etrans; [exact Hm|apply Hf].
Qed.

Lemma keeps_try_catch {A} (m : M A) h :
  keeps R m -> (forall e, keeps R (h e)) -> keeps R (try_catch m h).
Proof.
  intros Hm Hh w. specialize (Hm w). unfold try_catch.
  destruct (m w) as [[a|e] w1]; simpl in *; [done|].
  etrans; [exact Hm|apply Hh].
Qed.

Lemma keeps_mapM {A B} (f : A -> M B) l :
  (forall a, keeps R (f a)) -> keeps R (mapM f l).
Proof.
  intros Hf. induction l as [|a l IH]; simpl.
  - apply keeps_ret.
  - apply keeps_bind; [apply Hf|]. intros b.
    apply keeps_bind; [apply IH|]. intros bs. apply keeps_ret.
Qed.

Lemma keeps_store_call {A} (op : World -> A * World) :
  (forall w, R w (answered w)) ->
  (forall w, R w (op w).2) ->
  keeps R (mongoose.store_call op).
Proof.
  intros Hans Hop w. unfold mongoose.store_call.
  specialize (Hans w). unfold answered in Hans.
  destruct (faults w) as [|[msg|] rest] eqn:Hf; simpl in *.
  - specialize (Hop w). by destruct (op w).
  - exact Hans.
  - specialize (Hop (set_faults rest w)).
    destruct (op (set_faults rest w)); simpl in *. by etrans.
Qed.
End Keeps.

#[global] Instance shrinks_preorder : PreOrder shrinks.
Proof.
  split.
  - intros w. by split.
  - intros w1 w2 w3 [A1 A2] [B1 B2]. split; by etrans.
Qed.

#[global] Instance same_archive_preorder : PreOrder same_archive.
Proof. split; unfold same_archive; [done|]. intros ???; congruence. Qed.

Lemma insert_ordered_prefix docs : forall collection,
  collection `prefix_of` (mongoose.insert_ordered docs collection).2.
Proof.
  induction docs as [|d docs IH]; intros collection; simpl; [done|].
  destruct (bool_decide _); simpl; [done|].
  etrans; [|apply IH]. by apply prefix_app_r.
Qed.

Lemma shrinks_answered w : shrinks w (answered w).
Proof. by split. Qed.

Lemma shrinks_emit ev : keeps shrinks (emit ev).
Proof. intros w. by split. Qed.

Lemma shrinks_new_Date : keeps shrinks new_Date.
Proof. intros w. rewrite new_Date_eq. by split. Qed.

Lemma shrinks_model name : keeps shrinks (mongoose.model name).
Proof. intros w. unfold mongoose.model. destruct (bool_decide _); reflexivity. Qed.

Lemma shrinks_deleteMany q : keeps shrinks (mongoose.deleteMany q).
Proof.
  apply keeps_store_call; [apply _|apply shrinks_answered|].
  intros w. split; simpl; autorewrite with world; simpl; [|done].
  apply map_filter_subseteq.
Qed.

Lemma shrinks_find q : keeps shrinks (mongoose.find q).
Proof.
  apply keeps_store_call; [apply _|apply shrinks_answered|]. intros w. reflexivity.
Qed.

Lemma shrinks_insertMany docs : keeps shrinks (mongoose.insertMany docs).
Proof.
  unfold mongoose.insertMany. apply keeps_bind; [apply _| |].
  - apply keeps_store_call; [apply _|apply shrinks_answered|].
    intros w. pose proof (insert_ordered_prefix docs (archives w)) as Hpre.
    destruct (mongoose.insert_ordered docs (archives w)) as [ok collection].
    split; simpl; autorewrite with world; simpl; done.
  - intros []; [apply keeps_ret|apply keeps_throw]; apply _.
Qed.

Ltac shrink_step :=
  first
    [ apply shrinks_new_Date | apply shrinks_model | apply shrinks_deleteMany
    | apply shrinks_find | apply shrinks_insertMany | apply shrinks_emit
    | apply keeps_throw; apply _
    | apply keeps_ret; apply _
    | apply keeps_mapM; [apply _|intros ?]
    | apply keeps_try_catch; [apply _| |intros ?]
    | apply keeps_bind; [apply _| |intros ?]
    | (intros ?; reflexivity) ].

Ltac shrink := repeat shrink_step.

Lemma shrinks_cleanup : keeps shrinks DatabaseManager.cleanupOldReservations.
Proof.
  unfold DatabaseManager.cleanupOldReservations, DatabaseManager.cleanup_body,
    DatabaseManager.local_zone, DatabaseManager.NotificationManager.notify,
    console_error.
  shrink. destruct (0 <? _)%nat; shrink.
Qed.

Lemma shrinks_archive : keeps shrinks DatabaseManager.archiveReservations.
Proof.
  unfold DatabaseManager.archiveReservations, DatabaseManager.archive_body,
    DatabaseManager.local_zone, DatabaseManager.archive_copy,
    DatabaseManager.NotificationManager.notify, console_error.
  shrink. destruct (0 <? _)%nat; shrink.
Qed.

Lemma same_archive_store_call {A} (op : World -> A * World) :
  (forall w, archives (op w).2 = archives w) ->
  keeps same_archive (mongoose.store_call op).
Proof.
  intros Hop. apply keeps_store_call; [apply _|done|exact Hop].
Qed.

Lemma same_archive_cleanup : keeps same_archive DatabaseManager.cleanupOldReservations.
Proof.
  unfold DatabaseManager.cleanupOldReservations, DatabaseManager.cleanup_body,
    DatabaseManager.local_zone, DatabaseManager.NotificationManager.notify,
    console_error, mongoose.deleteMany.
  repeat first
    [ apply keeps_throw; apply _
    | apply keeps_ret; apply _
    | apply keeps_try_catch; [apply _| |intros ?]
    | apply keeps_bind; [apply _| |intros ?]
    | apply same_archive_store_call; intros ?; unfold same_archive; simpl;
      by autorewrite with world
    | (intros w; rewrite new_Date_eq; reflexivity)
    | (intros w; unfold mongoose.model; destruct (bool_decide _); reflexivity)
    | (intros ?; reflexivity) ].
  destruct (0 <? _)%nat;
  repeat first
    [ apply keeps_throw; apply _
    | apply keeps_ret; apply _ ].
Qed.

(** X1.  Whatever the store, the clock and the registry of models do, and
    whether the call returns or rejects: cleanup only removes documents
    from the reservations (what stays is unchanged, nothing is added) and
    leaves the archive as it was; archival only removes documents from
    the reservations and only appends documents to the archive. *)
Theorem maintenance_only_removes :
  keeps shrinks DatabaseManager.cleanupOldReservations /\
  keeps same_archive DatabaseManager.cleanupOldReservations /\
  keeps shrinks DatabaseManager.archiveReservations.
Proof.
  split; [apply shrinks_cleanup|]. split; [apply same_archive_cleanup|].
  apply shrinks_archive.
Qed.

(** * The limit in bytes *)

Lemma floor_ge (z : Z) (q : Q) : z <= Qfloor q <-> (inject_Z z <= q)%Q.
Proof.
  split.
  - intros H. apply Qle_trans with (inject_Z (Qfloor q)); [|apply Qfloor_le].
    by rewrite <- Zle_Qle.
  - intros H. destruct (Z_lt_le_dec (Qfloor q) z) as [Hlt|]; [|done].
    exfalso. assert (Hq := Qlt_floor q).
    assert (inject_Z (Qfloor q + 1) <= inject_Z z)%Q by (rewrite <- Zle_Qle; lia).
    lra.
Qed.

Lemma megabytes_scaled bytes :
  (megabytes bytes * inject_Z (1024 * 1024) == inject_Z bytes)%Q.
Proof. unfold megabytes. change (inject_Z (1024 * 1024)) with (1024 * 1024)%Q. field. Qed.

Lemma decimal_gt limit bytes :
  0 <= limit ->
  Number.gt (Some (decimal 2 (megabytes bytes))) (inject_Z limit) = true <->
  past limit bytes.
Proof.
  intros Hlim. rewrite gt_true. unfold past.
  assert (Hmb := megabytes_scaled bytes).
  set (x := megabytes bytes) in *.
  unfold decimal. change (Pos.of_nat (Z.to_nat (Number.scale 2))) with 100%positive.
  destruct (Number.is_negative x) eqn:Hneg.
  - unfold Number.is_negative in Hneg. apply negb_true_iff in Hneg.
    assert (Hx : (x < 0)%Q).
    { apply Qnot_le_lt. intros H. apply Qle_bool_iff in H. congruence. }
    split.
    + intros H. exfalso.
      assert (0 <= Z.of_N (Number.nearest 2 (Qabs x)) # 100)%Q.
      { unfold Qle. simpl. lia. }
      assert (0 <= inject_Z limit)%Q by (by rewrite <- (Zle_Qle 0)).
      lra.
    + intros H. exfalso.
      assert (Hb : (inject_Z bytes < 0)%Q).
      { rewrite <- Hmb. change (inject_Z (1024 * 1024)) with 1048576%Q. lra. }
      change 0%Q with (inject_Z 0) in Hb. rewrite <- Zlt_Qlt in Hb. lia.
  - unfold Number.is_negative in Hneg. apply negb_false_iff, Qle_bool_iff in Hneg.
    unfold Number.nearest. change (inject_Z (Number.scale 2)) with 100%Q.
    assert (Hfl : Qfloor (Qabs x * 100 + (1 # 2)) = Qfloor (x * 100 + (1 # 2))).
    { apply Qfloor_comp. by rewrite (Qabs_pos x Hneg). }
    rewrite Hfl.
    set (q := (x * 100 + (1 # 2))%Q).
    assert (Hq0 : 0 <= Qfloor q).
    { apply floor_ge. unfold q. change (inject_Z 0) with 0%Q. lra. }
    rewrite Z2N.id by exact Hq0.
    transitivity (100 * limit + 1 <= Qfloor q).
    { unfold Qlt. simpl. lia. }
    rewrite floor_ge. unfold q.
    rewrite inject_Z_plus, inject_Z_mult.
    change (inject_Z 100) with 100%Q. change (inject_Z 1) with 1%Q.
    rewrite Zle_Qle.
    rewrite !inject_Z_mult, inject_Z_plus, !inject_Z_mult.
    change (inject_Z 200) with 200%Q. change (inject_Z 1) with 1%Q.
    change (inject_Z 1024) with 1024%Q.
    change (inject_Z (1024 * 1024)) with 1048576%Q in Hmb.
    split; intros H; lra.
Qed.

(** X3.  The limit in bytes.  [monitorHealth] compares the storage size
    rounded to hundredths of a megabyte with 350.  So, with the stats
    available, it returns a snapshot, no flag raised, as long as
    [storageSize] is below 350.005 MB, that is up to 367006842 bytes, and
    it rejects with the TypeError of the unbound notify from 367006843
    bytes on. *)
Theorem limit_in_bytes w :
  quiet 1 w ->
  let bytes := storageSize (dbStats w) in
  (past 350 bytes <-> 367006843 <= bytes) /\
  (past 350 bytes <->
   (DatabaseManager.monitorHealth w).1 = Throw not_a_function) /\
  (~ past 350 bytes <->
   exists s,
     (DatabaseManager.monitorHealth w).1 =
       Normal (Some {| DatabaseManager.snapshot := s;
                       DatabaseManager.alerts := no_alert |})).
Proof.
  intros Hq bytes. split; [unfold past; lia|].
  destruct (monitor_quiet w Hq) as (s & v & _ & _ & Hv & Hrun).
  assert (H0 : 0 <= 350) by lia.
  pose proof (decimal_gt 350 bytes H0) as Hgt. fold bytes in Hv.
  rewrite <- Hv, gt_true in Hgt. change (inject_Z 350) with 350%Q in Hgt.
  rewrite <- Hgt, Hrun.
  destruct (Qle_bool v 350) eqn:Hle; cbn [fst].
  - apply Qle_bool_iff in Hle. split.
    + split; [intros H; lra|discriminate].
    + split; [intros _; by exists s|intros _ H; lra].
  - assert (H1 : (350 < v)%Q).
    { apply Qnot_le_lt. intros H. apply Qle_bool_iff in H. congruence. }
    split; [done|]. split; [done|]. intros [? ?]. discriminate.
Qed.

Lemma limit_in_bytes_witness :
  let st := {| dataSize := 0; storageSize := 367006843; indexSize := 0 |} in
  let w := metered st scenario in
  (past 350 367006843 <-> 367006843 <= 367006843) /\
  (past 350 367006843 <->
   (DatabaseManager.monitorHealth w).1 = Throw not_a_function) /\
  (~ past 350 367006843 <->
   exists s,
     (DatabaseManager.monitorHealth w).1 =
       Normal (Some {| DatabaseManager.snapshot := s;
                       DatabaseManager.alerts := no_alert |})).
Proof.
  intros st w. apply (limit_in_bytes w). unfold quiet. simpl. constructor.
Defined.

(** * Partial failures *)

Lemma quiet_first rest w : faults w = None :: rest -> quiet 1 w.
Proof. intros H. unfold quiet. rewrite H. simpl. by repeat constructor. Qed.

(** X4.  When the store carries out the first [deleteMany] of cleanup and
    refuses the second, the confirmed and cancelled reservations created
    before the limit of the first deletion are gone all the same and
    nothing else is; the store's error is logged, the handler's call of
    notify throws, and cleanup rejects with the TypeError: the count of
    the first deletion reaches nobody. *)
Theorem cleanup_forgets_first_deletion w msg rest :
  "Reservation" ∈ models w -> faults w = None :: Some msg :: rest ->
  let limit := days_before (LocalTZA w) 30 (clock w) in
  exists w',
    DatabaseManager.cleanupOldReservations w = (Throw not_a_function, w') /\
    (forall id r,
       reservations w !! id = Some r ->
       (reservations w' !! id = None <->
          (status r = "confirmed" \/ status r = "cancelled") /\ createdAt r < limit) /\
       (reservations w' !! id = None \/ reservations w' !! id = Some r)) /\
    archives w' = archives w /\
    trace w' = ConsoleError "Error during cleanup:" {| message := msg |} :: trace w.
Proof.
  intros Hm Hf limit.
  assert (Hq1 : quiet 1 (tick w)).
  { apply (quiet_first (Some msg :: rest)). by world_simpl. }
  assert (Hbody : exists w1,
    DatabaseManager.cleanup_body w = (Throw {| message := msg |}, w1) /\
    reservations w1 = mongoose.rejected (old_filter limit) (reservations w) /\
    archives w1 = archives w /\ trace w1 = trace w).
  { unfold DatabaseManager.cleanup_body.
    erewrite bind_normal by apply new_Date_eq.
    erewrite bind_normal by reflexivity.
    erewrite bind_normal by (by apply model_registered).
    erewrite bind_normal by (by apply deleteMany_quiet).
    erewrite bind_normal by apply new_Date_eq.
    erewrite bind_normal by (apply model_registered; by world_norm).
    erewrite bind_throw.
    2:{ unfold mongoose.deleteMany. eapply store_call_fault.
        world_norm. rewrite Hf. reflexivity. }
    eexists. split; [reflexivity|]. world_norm.
    rewrite thirty_days_ago. by repeat split. }
  destruct Hbody as (w1 & Hbody & Hres & Harc & Htr).
  eexists. split; [apply (run_after_throw Cleanup); exact Hbody|].
  world_simpl. rewrite Htr. split; [|by split].
  intros id r Hr. rewrite Hres, lookup_rejected, Hr.
  pose proof (old_filter_true limit id r) as Ho.
  destruct (mongoose.matches (old_filter limit) (id, r)).
  - split; [|by left]. split; [intros _; by apply Ho|done].
  - split; [|by right]. split; [discriminate|]. intros H. apply Ho in H. discriminate.
Qed.

Lemma cleanup_forgets_first_deletion_witness :
  let w := flaky_store in
  let limit := days_before (LocalTZA w) 30 (clock w) in
  exists w',
    DatabaseManager.cleanupOldReservations w = (Throw not_a_function, w') /\
    (forall id r,
       reservations w !! id = Some r ->
       (reservations w' !! id = None <->
          (status r = "confirmed" \/ status r = "cancelled") /\ createdAt r < limit) /\
       (reservations w' !! id = None \/ reservations w' !! id = Some r)) /\
    archives w' = archives w /\
    trace w' =
      ConsoleError "Error during cleanup:" {| message := "connection reset" |} :: trace w.
Proof.
  apply (cleanup_forgets_first_deletion flaky_store "connection reset" []).
  - apply list_elem_of_here.
  - reflexivity.
Defined.








(** X7.  After a cleanup, archival finds nothing.  When every reservation
    has a status of the schema's [enum], no store call fails, the offset of
    the host's zone never moves by a whole day, the clock does not run
    backwards and the cleanup takes at most 28 days, an archival run that
    follows a cleanup on the world it leaves selects no document and
    returns 0: whatever is older than 60 days was deleted by one of the
    two rules of the cleanup, whether or not the cleanup then rejected. *)
Theorem archive_after_cleanup_finds_nothing w :
  "Reservation" ∈ models w -> faults w = [] -> steady (LocalTZA w) ->
  (forall id r, reservations w !! id = Some r -> status r ∈ reservationSchema.status_enum) ->
  let w1 := (DatabaseManager.cleanupOldReservations w).2 in
  clock w <= clock (tick w) ->
  clock w1 - clock w <= 28 * Date.msPerDay ->
  DatabaseManager.archiveReservations w1 = (Normal 0%nat, answered (tick w1)).
Proof.
  intros Hm Hf Hz Henum w1 Hmono Hclock.
  assert (Hq : quiet 2 w) by (unfold quiet; rewrite Hf; constructor).
  destruct (cleanup_run w Hm Hq)
    as (w' & Hrun & Hres & _ & _ & _ & _ & Hmod & Htz & Hfl & Hck).
  cbv zeta in Hrun. assert (Hw : w1 = w') by (unfold w1; by rewrite Hrun).
  rewrite Hw in *. clear Hw Hrun w1.
  rewrite Hf in Hfl. simpl in Hfl.
  apply archive_nothing.
  - by rewrite Hmod.
  - unfold quiet. rewrite Hfl. constructor.
  - rewrite Htz.
    pose proof (days_before_steady (LocalTZA w) 30 (clock w) Hz) as Hl1.
    pose proof (days_before_steady (LocalTZA w) 60 (clock w') Hz) as Hl2.
    set (limit1 := days_before (LocalTZA w) 30 (clock w)) in *.
    set (limit2 := days_before (LocalTZA w) 60 (clock w')) in *.
    apply map_empty_filter_2. intros id r Hr Hlt. simpl in Hlt.
    rewrite Hres, !lookup_rejected in Hr.
    destruct (reservations w !! id) as [r0|] eqn:Hr0; [|done].
    pose proof (old_filter_true limit1 id r0) as Ho.
    pose proof (pending_filter_true (clock (tick w) - 24 * 60 * 60 * 1000) id r0) as Hp.
    destruct (mongoose.matches (old_filter limit1) (id, r0)); [done|].
    destruct (mongoose.matches (pending_filter _) (id, r0)); [done|].
    injection Hr as <-.
    pose proof (Henum id r0 Hr0) as Hst.
    unfold reservationSchema.status_enum in Hst. unfold Date.msPerDay in *.
    repeat (apply elem_of_cons in Hst as [Hst|Hst]); [..|by apply elem_of_nil in Hst].
    + assert (status r0 = "pending" /\ createdAt r0 < clock (tick w) - 24 * 60 * 60 * 1000)
        as H by (split; [done|lia]).
      apply Hp in H. discriminate.
    + assert ((status r0 = "confirmed" \/ status r0 = "cancelled") /\ createdAt r0 < limit1)
        as H by (split; [by left|lia]).
      apply Ho in H. discriminate.
    + assert ((status r0 = "confirmed" \/ status r0 = "cancelled") /\ createdAt r0 < limit1)
        as H by (split; [by right|lia]).
      apply Ho in H. discriminate.
Qed.

Lemma archive_after_cleanup_finds_nothing_witness :
  let w1 := (DatabaseManager.cleanupOldReservations (aged [])).2 in
  DatabaseManager.archiveReservations w1 = (Normal 0%nat, answered (tick w1)).
Proof.
  apply (archive_after_cleanup_finds_nothing (aged [])).
  - apply list_elem_of_here.
  - reflexivity.
  - apply fixed_offset_steady. by intros ????.
  - intros id r Hr. apply elem_of_map_to_list in Hr. vm_compute in Hr.
    unfold reservationSchema.status_enum.
    repeat (apply elem_of_cons in Hr as [Hr|Hr]; [injection Hr as _ ->|]).
    + right. left.
    + do 2 right. left.
    + by apply elem_of_nil in Hr.
  - by vm_compute.
  - by vm_compute.
Defined.

Lemma elem_of_email_settles ev r c :
  ev ∈ email_settles r c <->
  ev = Settled r c \/
  (exists x, c = Normal x /\ ev = ConsoleLog "Alert email sent successfully") \/
  (exists e, c = Throw e /\ ev = ConsoleError "Error sending alert email:" e).
Proof.
  unfold email_settles. rewrite !elem_of_cons, elem_of_nil.
  destruct c as [x|e]; naive_solver.
Qed.

Lemma elem_of_webhook_settles ev r c :
  ev ∈ webhook_settles r c <->
  ev = Settled r c \/
  (exists e, webhook_error c = Some e /\
             ev = ConsoleError "Error sending Discord webhook:" e).
Proof.
  unfold webhook_settles, webhook_error. rewrite elem_of_cons.
  destruct c as [[|[] st]|e]; rewrite ?elem_of_cons, ?elem_of_nil; naive_solver.
Qed.

(** X8.  What [notify] logs.  'Alert email sent successfully' is logged
    exactly when the relay accepts the mail; 'Error sending alert email:'
    exactly with the error the relay refuses it with; and 'Error sending
    Discord webhook:' exactly when a webhook URL is configured and the
    request fails or is answered with a status that is not ok, with that
    error.  Neither failure keeps the other channel from being served. *)
Theorem notify_logs_each_channel subject message isError w :
  exists w' evs,
    NotificationManager.notify subject message isError w = (Normal tt, w') /\
    happened w w' evs /\
    (ConsoleLog "Alert email sent successfully" ∈ evs <->
     exists x, mail_outcome w = Normal x) /\
    (forall e, ConsoleError "Error sending alert email:" e ∈ evs <->
               mail_outcome w = Throw e) /\
    (forall e, ConsoleError "Error sending Discord webhook:" e ∈ evs <->
               exists url, webhook_url w = Some url /\
                           webhook_error (webhook_outcome w) = Some e).
Proof.
  destruct (notify_spec subject message isError w) as (w' & Hrun & Hhap & _).
  exists w', (notify_events subject message isError w).
  split; [exact Hrun|]. split; [exact Hhap|].
  unfold notify_events.
  destruct (webhook_url w) as [url|].
  - destruct (mail_first w);
      (split; [|split; intros e]);
      rewrite !elem_of_cons, elem_of_app, elem_of_email_settles, elem_of_webhook_settles;
      naive_solver.
  - (split; [|split; intros e]);
      rewrite !elem_of_cons, elem_of_email_settles; naive_solver.
Qed.

Lemma hour_minute_window L h :
  (Date.HourFromTime L =? h) && (Date.MinFromTime L =? 0) = true <->
  0 <= h < 24 /\
  h * Date.msPerHour <= Date.TimeWithinDay L < h * Date.msPerHour + Date.msPerMinute.
Proof.
  rewrite andb_true_iff, !Z.eqb_eq.
  unfold Date.HourFromTime, Date.MinFromTime, Date.TimeWithinDay,
    Date.msPerHour, Date.msPerMinute, Date.msPerDay.
  Z.to_euclidean_division_equations. lia.
Qed.

Lemma cleanup_due_window zone h now :
  DatabaseManager.cleanup_due zone (Some h) now = true <-> in_first_minute zone h now.
Proof.
  unfold DatabaseManager.cleanup_due, DatabaseManager.strict_equal, in_first_minute,
    time_of_day, Date.getHours, Date.getMinutes.
  apply hour_minute_window.
Qed.

Lemma LocalTime_fixed zone t :
  fixed_offset zone -> Date.LocalTime zone t = t + zone 0 true.
Proof. intros Hz. unfold Date.LocalTime. by rewrite (Hz t 0 true true). Qed.

Lemma one_minute_in_1440 L h :
  0 <= h < 24 ->
  exists k, 0 <= k < 1440 /\
    forall j, 0 <= j < 1440 ->
      (h * Date.msPerHour <= Date.TimeWithinDay (L + j * Date.msPerMinute)
         < h * Date.msPerHour + Date.msPerMinute) <-> j = k.
Proof.
  intros Hh.
  exists ((60 * h - (L mod 86400000) / 60000) mod 1440).
  split; [apply Z.mod_pos_bound; lia|].
  intros j Hj.
  unfold Date.TimeWithinDay, Date.msPerHour, Date.msPerMinute, Date.msPerDay.
  Z.to_euclidean_division_equations. lia.
Qed.

Lemma one_minute_in_10080 L h :
  0 <= h < 24 ->
  exists k, 0 <= k < 10080 /\
    forall j, 0 <= j < 10080 ->
      (Date.WeekDay (L + j * Date.msPerMinute) = 0 /\
       h * Date.msPerHour <= Date.TimeWithinDay (L + j * Date.msPerMinute)
         < h * Date.msPerHour + Date.msPerMinute) <-> j = k.
Proof.
  intros Hh.
  exists ((60 * h - ((L + 345600000) mod 604800000) / 60000) mod 10080).
  split; [apply Z.mod_pos_bound; lia|].
  intros j Hj.
  unfold Date.WeekDay, Date.Day, Date.TimeWithinDay, Date.msPerHour, Date.msPerMinute,
    Date.msPerDay.
  Z.to_euclidean_division_equations. lia.
Qed.

Lemma archive_due_window zone h now :
  DatabaseManager.archive_due zone (Some h) now = true <->
  Date.getDay zone now = 0 /\ in_first_minute zone h now.
Proof.
  unfold DatabaseManager.archive_due, DatabaseManager.strict_equal, in_first_minute,
    time_of_day, Date.getHours, Date.getMinutes.
  rewrite <- andb_assoc, andb_true_iff, Z.eqb_eq, hour_minute_window. tauto.
Qed.

(** What a timer makes of the outcome of its job: the value is dropped,
    an error goes on to whoever awaits the callback. *)
Lemma timer_due {A} (job : M A) w :
  (now <- new_Date ;; zone <- DatabaseManager.local_zone ;;
   if true then job ;;; ret tt else ret tt) w =
    match job (tick w) with
    | (Normal _, w') => (Normal tt, w')
    | (Throw e, w') => (Throw e, w')
    end.
Proof.
  erewrite bind_normal by apply new_Date_eq.
  erewrite bind_normal by reflexivity.
  unfold bind. by destruct (job (tick w)) as [[a|e] w'].
Qed.

(** X9.  The cleanup timer of [scheduleMaintenanceTasks] runs
    [cleanupOldReservations] exactly when the clock reading falls in the
    first minute of the configured hour of the local day, and then ends
    as the cleanup does: normally when it returns, with its error when it
    rejects.  At any other reading, and always when the configured hour
    is [NaN], it only reads the clock. *)
Theorem cleanup_timer_runs_in_its_minute h w :
  (in_first_minute (LocalTZA w) h (clock w) ->
   DatabaseManager.cleanup_timer (Some h) w =
     match DatabaseManager.cleanupOldReservations (tick w) with
     | (Normal _, w') => (Normal tt, w')
     | (Throw e, w') => (Throw e, w')
     end) /\
  (~ in_first_minute (LocalTZA w) h (clock w) ->
   DatabaseManager.cleanup_timer (Some h) w = (Normal tt, tick w)) /\
  DatabaseManager.cleanup_timer None w = (Normal tt, tick w).
Proof.
  split; [|split].
  - intros Hdue. apply cleanup_due_window in Hdue.
    rewrite <- timer_due. unfold DatabaseManager.cleanup_timer.
    erewrite !bind_normal by first [apply new_Date_eq|reflexivity].
    change (LocalTZA (tick w)) with (LocalTZA w). by rewrite Hdue.
  - intros Hnot. unfold DatabaseManager.cleanup_timer.
    erewrite bind_normal by apply new_Date_eq.
    erewrite bind_normal by reflexivity.
    change (LocalTZA (tick w)) with (LocalTZA w).
    destruct (DatabaseManager.cleanup_due _ _ _) eqn:Hdue; [|reflexivity].
    by apply cleanup_due_window in Hdue.
  - unfold DatabaseManager.cleanup_timer.
    erewrite bind_normal by apply new_Date_eq.
    erewrite bind_normal by reflexivity.
    unfold DatabaseManager.cleanup_due, DatabaseManager.strict_equal. reflexivity.
Qed.

Lemma cleanup_timer_runs_in_its_minute_witness :
  let w := set_clock (noon - 9 * hour) [] scenario in
  DatabaseManager.cleanup_timer (Some 3) w =
    match DatabaseManager.cleanupOldReservations (tick w) with
    | (Normal _, w') => (Normal tt, w')
    | (Throw e, w') => (Throw e, w')
    end.
Proof.
  intros w. apply (proj1 (cleanup_timer_runs_in_its_minute 3 w)).
  unfold in_first_minute. by vm_compute.
Defined.

(** X10.  The archive timer of [scheduleMaintenanceTasks] runs
    [archiveReservations] exactly when the clock reading falls on a local
    Sunday in the first minute of the configured hour, and then ends as
    the archival does: normally when it returns, with its error when it
    rejects.  At any other reading, and always when the configured hour
    is [NaN], it only reads the clock. *)
Theorem archive_timer_runs_on_sundays h w :
  (Date.getDay (LocalTZA w) (clock w) = 0 /\ in_first_minute (LocalTZA w) h (clock w) ->
   DatabaseManager.archive_timer (Some h) w =
     match DatabaseManager.archiveReservations (tick w) with
     | (Normal _, w') => (Normal tt, w')
     | (Throw e, w') => (Throw e, w')
     end) /\
  (~ (Date.getDay (LocalTZA w) (clock w) = 0 /\ in_first_minute (LocalTZA w) h (clock w)) ->
   DatabaseManager.archive_timer (Some h) w = (Normal tt, tick w)) /\
  DatabaseManager.archive_timer None w = (Normal tt, tick w).
Proof.
  split; [|split].
  - intros Hdue. apply archive_due_window in Hdue.
    rewrite <- timer_due. unfold DatabaseManager.archive_timer.
    erewrite !bind_normal by first [apply new_Date_eq|reflexivity].
    change (LocalTZA (tick w)) with (LocalTZA w). by rewrite Hdue.
  - intros Hnot. unfold DatabaseManager.archive_timer.
    erewrite bind_normal by apply new_Date_eq.
    erewrite bind_normal by reflexivity.
    change (LocalTZA (tick w)) with (LocalTZA w).
    destruct (DatabaseManager.archive_due _ _ _) eqn:Hdue; [|reflexivity].
    by apply archive_due_window in Hdue.
  - unfold DatabaseManager.archive_timer.
    erewrite bind_normal by apply new_Date_eq.
    erewrite bind_normal by reflexivity.
    unfold DatabaseManager.archive_due, DatabaseManager.strict_equal.
    by rewrite andb_false_r.
Qed.

Lemma archive_timer_runs_on_sundays_witness :
  let w := set_clock (noon - 8 * hour) [] (aged []) in
  DatabaseManager.archive_timer (Some 4) w =
    match DatabaseManager.archiveReservations (tick w) with
    | (Normal _, w') => (Normal tt, w')
    | (Throw e, w') => (Throw e, w')
    end.
Proof.
  intros w. apply (proj1 (archive_timer_runs_on_sundays 4 w)).
  unfold in_first_minute. by vm_compute.
Defined.

(** X11.  In a zone with a fixed offset, for an hour between 0 and 23 and
    clock readings exactly one minute apart, the cleanup is due at exactly
    one of any 1440 consecutive readings and the archival at exactly one
    of any 10080 consecutive readings: once a day and once a week. *)
Theorem timers_fire_once_per_period zone t0 h :
  fixed_offset zone -> 0 <= h < 24 ->
  (exists k, 0 <= k < 1440 /\
     forall j, 0 <= j < 1440 ->
       DatabaseManager.cleanup_due zone (Some h) (t0 + j * 60000) = true <-> j = k) /\
  (exists k, 0 <= k < 10080 /\
     forall j, 0 <= j < 10080 ->
       DatabaseManager.archive_due zone (Some h) (t0 + j * 60000) = true <-> j = k).
Proof.
  intros Hz Hh. split.
  - destruct (one_minute_in_1440 (t0 + zone 0 true) h Hh) as (k & Hk & Huniq).
    exists k. split; [exact Hk|]. intros j Hj.
    rewrite cleanup_due_window. unfold in_first_minute, time_of_day.
    rewrite LocalTime_fixed by done. rewrite <- (Huniq j Hj).
    replace (t0 + j * 60000 + zone 0 true)
      with (t0 + zone 0 true + j * Date.msPerMinute) by (unfold Date.msPerMinute; lia).
    tauto.
  - destruct (one_minute_in_10080 (t0 + zone 0 true) h Hh) as (k & Hk & Huniq).
    exists k. split; [exact Hk|]. intros j Hj.
    rewrite archive_due_window. unfold in_first_minute, time_of_day, Date.getDay.
    rewrite LocalTime_fixed by done. rewrite <- (Huniq j Hj).
    replace (t0 + j * 60000 + zone 0 true)
      with (t0 + zone 0 true + j * Date.msPerMinute) by (unfold Date.msPerMinute; lia).
    tauto.
Qed.

Lemma timers_fire_once_per_period_witness :
  (exists k, 0 <= k < 1440 /\
     forall j, 0 <= j < 1440 ->
       DatabaseManager.cleanup_due (fun _ _ => 7200000) (Some 3) (noon + j * 60000) = true
       <-> j = k) /\
  (exists k, 0 <= k < 10080 /\
     forall j, 0 <= j < 10080 ->
       DatabaseManager.archive_due (fun _ _ => 7200000) (Some 3) (noon + j * 60000) = true
       <-> j = k).
Proof.
  apply (timers_fire_once_per_period (fun _ _ => 7200000) noon 3).
  - intros ????. reflexivity.
  - lia.
Defined.











Lemma elem_of_flat_map {A B} (f : A -> list B) (l : list A) (y : B) :
  y ∈ flat_map f l <-> exists x, x ∈ l /\ y ∈ f x.
Proof.
  rewrite list_elem_of_In, in_flat_map. setoid_rewrite list_elem_of_In. reflexivity.
Qed.

Lemma residues_Char c s rest :
  rest ∈ RegExp.residues (RegExp.Char c) s <-> s = c :: rest.
Proof.
  simpl. destruct s as [|c' s'].
  { rewrite elem_of_nil. split; [done|discriminate]. }
  destruct (Ascii.eqb c c') eqn:E.
  - apply Ascii.eqb_eq in E as ->. rewrite list_elem_of_singleton.
    split; [by intros ->|by intros [= ->]].
  - apply Ascii.eqb_neq in E. rewrite elem_of_nil.
    split; [done|]. intros [= Hc _]. by destruct E.
Qed.

Lemma residues_Digit s rest :
  rest ∈ RegExp.residues RegExp.Digit s <->
  exists c, s = c :: rest /\ Number.is_digit c = true.
Proof.
  simpl. destruct s as [|c' s'].
  { rewrite elem_of_nil. split; [done|]. by intros (c & Hc & _). }
  destruct (Number.is_digit c') eqn:E.
  - rewrite list_elem_of_singleton. split.
    + intros ->. by exists c'.
    + by intros (c & [= -> ->] & _).
  - rewrite elem_of_nil. split; [done|].
    intros (c & [= -> ->] & Hc). congruence.
Qed.

Lemma residues_Seq r1 r2 s rest :
  rest ∈ RegExp.residues (RegExp.Seq r1 r2) s <->
  exists mid, mid ∈ RegExp.residues r1 s /\ rest ∈ RegExp.residues r2 mid.
Proof. simpl. apply elem_of_flat_map. Qed.

Lemma residues_Repeat_S r mn mx s :
  RegExp.residues (RegExp.Repeat r mn (S mx)) s =
  match mn with O => [s] | S _ => [] end ++
  flat_map (RegExp.residues (RegExp.Repeat r (pred mn) mx)) (RegExp.residues r s).
Proof. reflexivity. Qed.

Lemma residues_Repeat_0 r mn s :
  RegExp.residues (RegExp.Repeat r mn 0) s = match mn with O => [s] | S _ => [] end.
Proof. simpl. by rewrite app_nil_r. Qed.

Lemma residues_Repeat_Digit mx : forall mn s rest,
  rest ∈ RegExp.residues (RegExp.Repeat RegExp.Digit mn mx) s <->
  exists d, s = d ++ rest /\ Forall (fun c => Number.is_digit c = true) d /\
            (mn <= length d <= mx)%nat.
Proof.
  induction mx as [|mx IH]; intros mn s rest.
  - rewrite residues_Repeat_0. split.
    + destruct mn; [|by rewrite elem_of_nil].
      rewrite list_elem_of_singleton. intros ->. exists []. by repeat split.
    + intros (d & -> & Hd & Hlen). destruct d; [|simpl in Hlen; lia].
      destruct mn; [|simpl in Hlen; lia]. simpl. apply list_elem_of_here.
  - rewrite residues_Repeat_S, elem_of_app, elem_of_flat_map. split.
    + intros [H|(mid & Hmid & H)].
      * destruct mn; [|by apply elem_of_nil in H].
        apply list_elem_of_singleton in H as ->. exists []. split; [done|]. split; [done|]. simpl. lia.
      * apply residues_Digit in Hmid as (c & -> & Hc).
        apply IH in H as (d & -> & Hd & Hlen).
        exists (c :: d). split; [done|]. split; [by constructor|]. simpl. lia.
    + intros (d & -> & Hd & Hlen). destruct d as [|c d].
      * left. destruct mn; [|simpl in Hlen; lia]. apply list_elem_of_here.
      * right. inversion Hd as [|? ? Hc Hd']; subst. exists (d ++ rest). split.
        -- apply residues_Digit. by exists c.
        -- apply IH. exists d. split; [done|]. split; [done|]. simpl in Hlen. lia.
Qed.

Lemma test_anchored_true r s :
  RegExp.test_anchored r s = true <->
  [] ∈ RegExp.residues r (String.list_ascii_of_string s).
Proof.
  unfold RegExp.test_anchored. rewrite existsb_exists. split.
  - intros (rest & Hin & Hnil). destruct rest; [|done]. by apply list_elem_of_In.
  - intros Hin. exists []. split; [by apply list_elem_of_In|done].
Qed.

Lemma string_length_chars s : String.length s = length (String.list_ascii_of_string s).
Proof. induction s as [|c s IH]; simpl; congruence. Qed.

(** X13.  The [validator] of the field [phone] accepts exactly the strings
    made of 961 followed by seven or eight decimal digits. *)
Theorem phone_validator_accepts v :
  reservationSchema.phone_validator v = true <->
  exists d, v = "961" +:+ d /\ all_digits d /\
            (String.length d = 7 \/ String.length d = 8)%nat.
Proof.
  unfold reservationSchema.phone_validator, reservationSchema.phone_pattern.
  rewrite test_anchored_true. split.
  - intros H.
    apply residues_Seq in H as (m1 & H1 & H).
    apply residues_Seq in H as (m2 & H2 & H).
    apply residues_Seq in H as (m3 & H3 & H).
    apply residues_Char in H1, H2, H3.
    apply residues_Repeat_Digit in H as (d & -> & Hd & Hlen).
    rewrite app_nil_r in H3. subst m2 m1.
    exists (String.string_of_list_ascii d). split.
    + rewrite <- (String.string_of_list_ascii_of_string v), H1. reflexivity.
    + unfold all_digits. rewrite string_length_chars.
      rewrite String.list_ascii_of_string_of_list_ascii. split; [done|lia].
  - intros (d & -> & Hd & Hlen).
    apply residues_Seq. eexists. split; [by apply residues_Char|].
    apply residues_Seq. eexists. split; [by apply residues_Char|].
    apply residues_Seq. eexists. split; [by apply residues_Char|].
    apply residues_Repeat_Digit. exists (String.list_ascii_of_string d).
    split; [by rewrite app_nil_r|]. split; [exact Hd|].
    rewrite <- string_length_chars. lia.
Qed.

Lemma Pbind_normal {A B} (m : P A) (f : A -> P B) p a p' :
  m p = (Normal a, p') -> (m ≫= f) p = f a p'.
Proof. unfold mbind, P_bind. by intros ->. Qed.

Lemma Pbind_throw {A B} (m : P A) (f : A -> P B) p e p' :
  m p = (Throw e, p') -> (m ≫= f) p = (Throw e, p').
Proof. unfold mbind, P_bind. by intros ->. Qed.

Lemma Ptry_normal {A} (m : P A) h p a p' :
  m p = (Normal a, p') -> Server.try_catch m h p = (Normal a, p').
Proof. unfold Server.try_catch. by intros ->. Qed.

Lemma Ptry_throw {A} (m : P A) h p e p' :
  m p = (Throw e, p') -> Server.try_catch m h p = h e p'.
Proof. unfold Server.try_catch. by intros ->. Qed.

Lemma lift_run {A} (m : M A) p c w' :
  m (world p) = (c, w') -> Server.lift m p = (c, set_world w' p).
Proof. unfold Server.lift. by intros ->. Qed.

Lemma connect_cached p c :
  cachedConnection p = Some c -> db.connectToDatabase p = (Normal c, p).
Proof. unfold db.connectToDatabase. by intros ->. Qed.

Lemma mongoose_connect_ok p :
  (forall msg rest, uplink p <> Some msg :: rest) ->
  Server.mongoose_connect p = (Normal mongoose_connection, set_uplink (tail (uplink p)) p).
Proof.
  intros Hup. unfold Server.mongoose_connect, set_uplink.
  destruct p as [w c u s t b]. cbn [uplink world cachedConnection settings timers background] in *.
  destruct u as [|[msg|] rest]; [reflexivity| |reflexivity].
  by destruct (Hup msg rest).
Qed.

Lemma connect_fresh p :
  cachedConnection p = None ->
  (forall msg rest, uplink p <> Some msg :: rest) ->
  exists w',
    db.connectToDatabase p =
      (Normal mongoose_connection,
       set_cachedConnection (Some mongoose_connection)
         (set_uplink (tail (uplink p)) (set_world w' p))) /\
    happened (world p) w'
      [ConsoleLog "Connecting to MongoDB..."; ConsoleLog "Connected to MongoDB"] /\
    same_store (world p) w' /\ LocalTZA w' = LocalTZA (world p) /\
    clock w' = clock (world p) /\ ticks w' = ticks (world p) /\
    env w' = env (world p) /\ inflight w' = inflight (world p).
Proof.
  intros Hc Hup. unfold db.connectToDatabase. rewrite Hc.
  eexists. split.
  - apply Ptry_normal.
    erewrite Pbind_normal by (by apply lift_run).
    erewrite (Pbind_normal Server.mongoose_connect) by (by apply mongoose_connect_ok).
    erewrite Pbind_normal by (by apply lift_run).
    erewrite Pbind_normal by reflexivity.
    reflexivity.
  - by repeat split.
Qed.

Lemma connect_refused p msg rest :
  cachedConnection p = None -> uplink p = Some msg :: rest ->
  exists w',
    db.connectToDatabase p =
      (Throw {| message := msg |}, set_uplink rest (set_world w' p)) /\
    happened (world p) w'
      [ConsoleLog "Connecting to MongoDB...";
       ConsoleError "MongoDB connection error:" {| message := msg |}] /\
    same_store (world p) w'.
Proof.
  intros Hc Hup. unfold db.connectToDatabase. rewrite Hc.
  eexists. split.
  - erewrite Ptry_throw.
    2:{ erewrite Pbind_normal by (by apply lift_run).
        erewrite (Pbind_throw Server.mongoose_connect); [reflexivity|].
        unfold Server.mongoose_connect. cbn [uplink set_world]. by rewrite Hup. }
    erewrite Pbind_normal by (by apply lift_run).
    unfold Server.throw, set_uplink, set_world. cbn [world cachedConnection uplink].
    rewrite Hc. reflexivity.
  - by repeat split.
Qed.

(** X14.  [connectToDatabase] of [utils/db.js] never touches the store.
    With a cached connection it returns it and changes nothing; when it
    returns a connection, that connection is cached and the next call
    returns it without connecting again; and it throws only when nothing
    was cached and [mongoose.connect] rejected, with that error, and then
    nothing is cached. *)
Theorem connection_is_made_once p :
  exists r p',
    db.connectToDatabase p = (r, p') /\
    same_store (world p) (world p') /\
    (forall c, cachedConnection p = Some c -> r = Normal c /\ p' = p) /\
    (forall c, r = Normal c ->
       cachedConnection p' = Some c /\ db.connectToDatabase p' = (Normal c, p')) /\
    (forall e, r = Throw e ->
       cachedConnection p = None /\ cachedConnection p' = None /\
       uplink p = Some (message e) :: uplink p').
Proof.
  destruct (cachedConnection p) as [c|] eqn:Hc.
  - exists (Normal c), p. split; [by apply connect_cached|].
    split; [by repeat split|]. split; [by intros ? [= ->]|].
    split; [|done]. intros c' [= ->]. split; [done|by apply connect_cached].
  - destruct (uplink p) as [|[msg|] rest] eqn:Hup.
    + destruct (connect_fresh p Hc) as (w' & Hrun & _ & Hst & _).
      { intros ??. by rewrite Hup. }
      eexists _, _. split; [exact Hrun|]. split; [exact Hst|].
      split; [done|]. split; [|done]. intros c [= <-]. split; [done|].
      by apply connect_cached.
    + destruct (connect_refused p msg rest Hc Hup) as (w' & Hrun & _ & Hst).
      eexists _, _. split; [exact Hrun|]. split; [exact Hst|].
      split; [done|]. split; [done|]. intros e [= <-]. by repeat split.
    + destruct (connect_fresh p Hc) as (w' & Hrun & _ & Hst & _).
      { intros ??. by rewrite Hup. }
      eexists _, _. split; [exact Hrun|]. split; [exact Hst|].
      split; [done|]. split; [|done]. intros c [= <-]. split; [done|].
      by apply connect_cached.
Qed.

Lemma connect_reachable p :
  reachable p ->
  exists c p1,
    db.connectToDatabase p = (Normal c, p1) /\
    same_store (world p) (world p1) /\ LocalTZA (world p1) = LocalTZA (world p) /\
    clock (world p1) = clock (world p) /\ ticks (world p1) = ticks (world p).
Proof.
  intros Hr. destruct (cachedConnection p) as [c|] eqn:Hc.
  - exists c, p. split; [by apply connect_cached|]. by repeat split.
  - destruct Hr as [Hr|Hr]; [done|].
    destruct (connect_fresh p Hc Hr) as (w' & Hrun & _ & Hst & Htz & Hck & Htk & _).
    eexists _, _. split; [exact Hrun|]. cbn [world]. split; [exact Hst|]. by repeat split.
Qed.

(** X15.  When the database can be reached and the store answers, in a
    zone with a fixed offset, the route DELETE /api/reservations/old
    answers 200 with the number of confirmed and cancelled reservations
    created more than 30 days before the request, deletes exactly those,
    which is the first rule of the cleanup, leaves the archive alone, and
    keeps every pending reservation, whatever its age. *)
Theorem purge_route_applies_the_30_day_rule p :
  reachable p -> quiet 1 (world p) -> fixed_offset (LocalTZA (world p)) ->
  let w := world p in
  exists p',
    api.delete_old_reservations p =
      (Normal {| api.code := 200;
                 api.payload :=
                   api.Counted "Old reservations deleted successfully"
                     (count (expired (clock w)) (reservations w)) |}, p') /\
    reservations (world p') = without (expired (clock w)) (reservations w) /\
    archives (world p') = archives w /\
    (forall id r, reservations w !! id = Some r -> status r = "pending" ->
                  reservations (world p') !! id = Some r).
Proof.
  intros Hr Hq Hz w.
  destruct (connect_reachable p Hr)
    as (c & p1 & Hconn & (Hres & Harc & _ & _ & Hfl) & Htz & Hck & Htk).
  set (w1 := world p1) in *.
  assert (Hq1 : quiet 1 (tick w1)).
  { apply (quiet_same_faults 1 (world p)); [|exact Hq]. world_simpl. exact Hfl. }
  assert (Hrun : api.delete_old_reservations p =
    (Normal {| api.code := 200;
               api.payload :=
                 api.Counted "Old reservations deleted successfully"
                   (size (mongoose.selected (old_filter (clock w - 30 * Date.msPerDay))
                            (reservations w))) |},
     set_world
       (remeasure
          (set_reservations
             (mongoose.rejected (old_filter (clock w - 30 * Date.msPerDay)) (reservations w))
             (answered (tick w1)))) p1)).
  { unfold api.delete_old_reservations. apply Ptry_normal.
    erewrite Pbind_normal by exact Hconn.
    erewrite Pbind_normal by (apply lift_run; apply new_Date_eq).
    erewrite Pbind_normal by (by apply lift_run).
    erewrite Pbind_normal.
    2:{ apply lift_run. by apply deleteMany_quiet. }
    cbn [world set_world fst snd]. fold w1. world_simpl.
    rewrite Htz, Hck, setDate_getDate_fixed by done.
    fold w. unfold old_filter. rewrite Hres. reflexivity. }
  eexists. split; [|split; [|split]].
  - rewrite Hrun.
    by rewrite (size_selected _ (expired (clock w)) _ (matches_old_filter (clock w))).
  - cbn [world set_world]. world_norm. apply rejected_old_filter.
  - cbn [world set_world]. world_norm. exact Harc.
  - intros id r Hr0 Hst. cbn [world set_world]. world_norm.
    rewrite lookup_rejected, Hr0, matches_old_filter.
    unfold expired. rewrite Hst. reflexivity.
Qed.

Lemma purge_route_applies_the_30_day_rule_witness :
  let p := warm scenario in
  let w := world p in
  exists p',
    api.delete_old_reservations p =
      (Normal {| api.code := 200;
                 api.payload :=
                   api.Counted "Old reservations deleted successfully"
                     (count (expired (clock w)) (reservations w)) |}, p') /\
    reservations (world p') = without (expired (clock w)) (reservations w) /\
    archives (world p') = archives w /\
    (forall id r, reservations w !! id = Some r -> status r = "pending" ->
                  reservations (world p') !! id = Some r).
Proof.
  intros p w. apply (purge_route_applies_the_30_day_rule p).
  - by left.
  - unfold quiet. simpl. constructor.
  - intros ????. reflexivity.
Defined.

Lemma purge_after_connect p c p1 :
  db.connectToDatabase p = (Normal c, p1) ->
  exists reply p',
    api.delete_old_reservations p = (Normal reply, p') /\
    (api.code reply = 200 \/ api.code reply = 500).
Proof.
  intros Hconn. unfold api.delete_old_reservations.
  destruct (mongoose.deleteMany
              [mongoose.createdAt_lt
                 (Date.setDate (LocalTZA (tick (world p1))) (clock (world p1))
                    (Date.getDate (LocalTZA (tick (world p1))) (clock (world p1)) - 30));
               mongoose.status_in ["confirmed"; "cancelled"]]
              (tick (world p1))) as [[n|e] w2] eqn:Hdel.
  - eexists _, _. split.
    { apply Ptry_normal.
      erewrite Pbind_normal by exact Hconn.
      erewrite Pbind_normal by (apply lift_run; apply new_Date_eq).
      erewrite Pbind_normal by (by apply lift_run).
      erewrite Pbind_normal by (apply lift_run; exact Hdel).
      reflexivity. }
    by left.
  - eexists _, _. split.
    { erewrite Ptry_throw.
      2:{ erewrite Pbind_normal by exact Hconn.
          erewrite Pbind_normal by (apply lift_run; apply new_Date_eq).
          erewrite Pbind_normal by (by apply lift_run).
          erewrite Pbind_throw by (apply lift_run; exact Hdel). reflexivity. }
      reflexivity. }
    by right.
Qed.

(** X16.  The route DELETE /api/reservations/old always answers, with 200
    or 500.  When the connection fails it answers 500 with the error's
    message and the store is not touched; when the store refuses the
    deletion it answers 500 with that message and no reservation is
    deleted. *)
Theorem purge_route_reports_failures p :
  (exists reply p',
     api.delete_old_reservations p = (Normal reply, p') /\
     (api.code reply = 200 \/ api.code reply = 500)) /\
  (forall msg rest,
     cachedConnection p = None -> uplink p = Some msg :: rest ->
     exists p',
       api.delete_old_reservations p =
         (Normal {| api.code := 500; api.payload := api.Message msg |}, p') /\
       same_store (world p) (world p') /\ cachedConnection p' = None) /\
  (forall msg rest,
     reachable p -> faults (world p) = Some msg :: rest ->
     exists p',
       api.delete_old_reservations p =
         (Normal {| api.code := 500; api.payload := api.Message msg |}, p') /\
       reservations (world p') = reservations (world p) /\
       archives (world p') = archives (world p)).
Proof.
  split; [|split].
  - destruct (db.connectToDatabase p) as [[c|e] p1] eqn:Hconn.
    + by eapply purge_after_connect.
    + eexists _, _. split.
      { unfold api.delete_old_reservations.
        erewrite Ptry_throw by (by erewrite Pbind_throw by exact Hconn).
        reflexivity. }
      by right.
  - intros msg rest Hc Hup.
    destruct (connect_refused p msg rest Hc Hup) as (w' & Hconn & _ & Hst).
    eexists. split.
    { unfold api.delete_old_reservations.
      erewrite Ptry_throw by (by erewrite Pbind_throw by exact Hconn).
      reflexivity. }
    split; [exact Hst|exact Hc].
  - intros msg rest Hr Hf.
    destruct (connect_reachable p Hr)
      as (c & p1 & Hconn & (Hres & Harc & _ & _ & Hfl) & _).
    eexists. split.
    + unfold api.delete_old_reservations. erewrite Ptry_throw.
      2:{ erewrite Pbind_normal by exact Hconn.
          erewrite Pbind_normal by (apply lift_run; apply new_Date_eq).
          erewrite Pbind_normal by (by apply lift_run).
          erewrite Pbind_throw; [reflexivity|]. apply lift_run.
          unfold mongoose.deleteMany. apply (store_call_fault _ _ msg rest).
          change (faults (world p1) = Some msg :: rest). by rewrite Hfl. }
      reflexivity.
    + unfold mret, P_ret. cbn [world set_world snd]. world_simpl. by split.
Qed.

Lemma schedule_run p :
  DatabaseManager.scheduleMaintenanceTasks p =
    (Normal tt,
     set_world
       (set_trace (ConsoleLog "Database maintenance tasks scheduled" :: trace (world p))
          (world p))
       (set_background (background p ++ [DatabaseManager.health_timer])
          (set_timers (timers p ++ maintenance_timers (settings p)) p))).
Proof.
  unfold DatabaseManager.scheduleMaintenanceTasks.
  erewrite Pbind_normal by reflexivity.
  erewrite Pbind_normal by reflexivity.
  erewrite Pbind_normal by reflexivity.
  erewrite Pbind_normal by reflexivity.
  erewrite Pbind_normal by reflexivity.
  erewrite Pbind_normal by reflexivity.
  unfold Server.lift, console_log, emit, set_world, set_background, set_timers,
    maintenance_timers.
  cbn [world cachedConnection uplink settings timers background].
  rewrite <- !app_assoc. reflexivity.
Qed.


Lemma server_connect_monitored p :
  cachedConnection p = None ->
  (forall msg rest, uplink p <> Some msg :: rest) ->
  ENABLE_DB_MONITORING (settings p) = Some "true" ->
  exists p',
    server.connectToDatabase p = (Throw (Server.TypeError_undefined "catch"), p') /\
    cachedConnection p' = Some mongoose_connection /\
    timers p' = timers p ++ maintenance_timers (settings p) /\
    background p' = background p ++ [DatabaseManager.health_timer] /\
    same_store (world p) (world p') /\
    clock (world p') = clock (world p) /\
    server.connectToDatabase p' = (Normal mongoose_connection, p').
Proof.
  intros Hc Hup Hflag. eexists. split.
  { unfold server.connectToDatabase. rewrite Hc.
    erewrite Ptry_throw.
    2:{ erewrite Pbind_normal by (by apply lift_run).
        erewrite (Pbind_normal Server.mongoose_connect) by (by apply mongoose_connect_ok).
        erewrite Pbind_normal by (by apply lift_run).
        erewrite Pbind_normal by reflexivity.
        erewrite Pbind_normal by reflexivity.
        cbn [settings set_cachedConnection set_uplink set_world].
        rewrite Hflag. cbn [Server.equals String.eqb Ascii.eqb Bool.eqb].
        erewrite Pbind_throw; [reflexivity|].
        erewrite Pbind_normal by (by apply lift_run).
        erewrite Pbind_normal by apply schedule_run.
        reflexivity. }
    erewrite Pbind_normal by (by apply lift_run). reflexivity. }
  cbn. by repeat split.
Qed.

Lemma server_connect_plain p :
  cachedConnection p = None ->
  (forall msg rest, uplink p <> Some msg :: rest) ->
  ENABLE_DB_MONITORING (settings p) <> Some "true" ->
  exists p',
    server.connectToDatabase p = (Normal mongoose_connection, p') /\
    cachedConnection p' = Some mongoose_connection /\
    timers p' = timers p /\ background p' = background p /\
    same_store (world p) (world p').
Proof.
  intros Hc Hup Hflag. eexists. split.
  { unfold server.connectToDatabase. rewrite Hc.
    apply Ptry_normal.
    erewrite Pbind_normal by (by apply lift_run).
    erewrite (Pbind_normal Server.mongoose_connect) by (by apply mongoose_connect_ok).
    erewrite Pbind_normal by (by apply lift_run).
    erewrite Pbind_normal by reflexivity.
    erewrite Pbind_normal by reflexivity.
    cbn [settings set_cachedConnection set_uplink set_world].
    assert (Hne : Server.equals (ENABLE_DB_MONITORING (settings p)) "true" = false).
    { unfold Server.equals. destruct (ENABLE_DB_MONITORING (settings p)) as [s|]; [|done].
      destruct (String.eqb s "true") eqn:E; [|done].
      apply String.eqb_eq in E. by subst. }
    rewrite Hne.
    erewrite Pbind_normal by reflexivity. reflexivity. }
  cbn. by repeat split.
Qed.

(** X17.  With [ENABLE_DB_MONITORING] set to 'true', the first call of the
    server's [connectToDatabase] that connects throws a [TypeError]:
    [scheduleMaintenanceTasks()] is [undefined], and reading [catch] from
    it throws inside the [try].  By then the connection is cached, the
    three timers are registered and the initial health check is started,
    so the next call returns the connection.  With any other setting the
    call returns the connection and schedules nothing. *)
Theorem monitoring_fails_the_first_connection p :
  cachedConnection p = None ->
  (forall msg rest, uplink p <> Some msg :: rest) ->
  (ENABLE_DB_MONITORING (settings p) = Some "true" ->
   exists p',
     server.connectToDatabase p = (Throw (Server.TypeError_undefined "catch"), p') /\
     cachedConnection p' = Some mongoose_connection /\
     timers p' = timers p ++ maintenance_timers (settings p) /\
     background p' = background p ++ [DatabaseManager.health_timer] /\
     same_store (world p) (world p') /\
     server.connectToDatabase p' = (Normal mongoose_connection, p')) /\
  (ENABLE_DB_MONITORING (settings p) <> Some "true" ->
   exists p',
     server.connectToDatabase p = (Normal mongoose_connection, p') /\
     cachedConnection p' = Some mongoose_connection /\
     timers p' = timers p /\ background p' = background p /\
     same_store (world p) (world p')).
Proof.
  intros Hc Hup. split.
  - intros Hflag.
    destruct (server_connect_monitored p Hc Hup Hflag)
      as (p' & H1 & H2 & H3 & H4 & H5 & _ & H6).
    by exists p'.
  - by apply server_connect_plain.
Qed.

Lemma monitoring_fails_the_first_connection_witness :
  let p := booted monitored scenario in
  exists p',
    server.connectToDatabase p = (Throw (Server.TypeError_undefined "catch"), p') /\
    cachedConnection p' = Some mongoose_connection /\
    timers p' = timers p ++ maintenance_timers (settings p) /\
    background p' = background p ++ [DatabaseManager.health_timer] /\
    same_store (world p) (world p') /\
    server.connectToDatabase p' = (Normal mongoose_connection, p').
Proof.
  intros p.
  apply (proj1 (monitoring_fails_the_first_connection p eq_refl
                  ltac:(intros msg rest H; discriminate H)) eq_refl).
Defined.



Lemma Dbind_normal {A B} (m : dbConnect.D A) (f : A -> dbConnect.D B) s a s' :
  m s = (Normal a, s') -> (m ≫= f) s = f a s'.
Proof. unfold mbind, dbConnect.D_bind. by intros ->. Qed.

Lemma Dbind_throw {A B} (m : dbConnect.D A) (f : A -> dbConnect.D B) s e s' :
  m s = (Throw e, s') -> (m ≫= f) s = (Throw e, s').
Proof. unfold mbind, dbConnect.D_bind. by intros ->. Qed.

Lemma Dtry_normal {A} (m : dbConnect.D A) h s a s' :
  m s = (Normal a, s') -> dbConnect.try_catch m h s = (Normal a, s').
Proof. unfold dbConnect.try_catch. by intros ->. Qed.

Lemma Dtry_throw {A} (m : dbConnect.D A) h s e s' :
  m s = (Throw e, s') -> dbConnect.try_catch m h s = h e s'.
Proof. unfold dbConnect.try_catch. by intros ->. Qed.

Lemma connect_when_cached s :
  dbConnect.clientInstance s = true ->
  dbConnect.connectToDatabase s = (Normal tt, s).
Proof.
  intros Hc. unfold dbConnect.connectToDatabase. apply Dtry_normal.
  erewrite Dbind_normal by reflexivity. by rewrite Hc.
Qed.

Lemma close_when_not_cached s :
  dbConnect.clientInstance s = false ->
  dbConnect.closeConnection s = (Normal tt, s).
Proof.
  intros Hc. unfold dbConnect.closeConnection. apply Dtry_normal.
  erewrite Dbind_normal by reflexivity. by rewrite Hc.
Qed.

Lemma close_refused s msg rest :
  dbConnect.clientInstance s = true -> dbConnect.driver s = Some msg :: rest ->
  dbConnect.closeConnection s =
    (Throw {| message := msg |},
     {| dbConnect.clientInstance := true; dbConnect.opened := dbConnect.opened s;
        dbConnect.driver := rest;
        dbConnect.console :=
          ConsoleError "Error closing MongoDB connection:" {| message := msg |}
            :: dbConnect.console s;
        dbConnect.exited := dbConnect.exited s |}).
Proof.
  intros Hc Hd. unfold dbConnect.closeConnection.
  erewrite Dtry_throw.
  2:{ erewrite Dbind_normal by reflexivity. rewrite Hc.
      erewrite Dbind_throw; [reflexivity|].
      unfold dbConnect.client_close, dbConnect.driver_call. rewrite Hd. reflexivity. }
  erewrite Dbind_normal by reflexivity.
  unfold dbConnect.throw. cbn. by rewrite Hc.
Qed.

Lemma close_accepted s :
  dbConnect.clientInstance s = true ->
  (forall msg rest, dbConnect.driver s <> Some msg :: rest) ->
  dbConnect.closeConnection s =
    (Normal tt,
     {| dbConnect.clientInstance := false; dbConnect.opened := false;
        dbConnect.driver := tail (dbConnect.driver s);
        dbConnect.console := ConsoleLog "MongoDB connection closed." :: dbConnect.console s;
        dbConnect.exited := dbConnect.exited s |}).
Proof.
  intros Hc Hd. unfold dbConnect.closeConnection. apply Dtry_normal.
  erewrite Dbind_normal by reflexivity. rewrite Hc.
  assert (Hclose : dbConnect.client_close s =
    (Normal tt,
     {| dbConnect.clientInstance := dbConnect.clientInstance s; dbConnect.opened := false;
        dbConnect.driver := tail (dbConnect.driver s);
        dbConnect.console := dbConnect.console s;
        dbConnect.exited := dbConnect.exited s |})).
  { unfold dbConnect.client_close, dbConnect.driver_call.
    destruct (dbConnect.driver s) as [|[msg|] rest] eqn:E; [reflexivity| |reflexivity].
    by destruct (Hd msg rest). }
  erewrite Dbind_normal by exact Hclose.
  erewrite Dbind_normal by reflexivity. reflexivity.
Qed.

(** X21.  When [client.connect()] succeeds and the ping that follows is
    refused, [connectToDatabase] of [utils/dbConnect.js] throws the ping's
    error with [clientInstance] still [null] and the client's connection
    open; [closeConnection] then does nothing, so the connection opened by
    the failed attempt is never closed, and the signal listener exits with
    code 0 leaving it open. *)
Theorem failed_ping_leaves_the_connection_open s msg rest :
  dbConnect.clientInstance s = false ->
  dbConnect.driver s = None :: Some msg :: rest ->
  exists s1 s2,
    dbConnect.connectToDatabase s = (Throw {| message := msg |}, s1) /\
    dbConnect.clientInstance s1 = false /\ dbConnect.opened s1 = true /\
    dbConnect.closeConnection s1 = (Normal tt, s1) /\
    dbConnect.on_signal s1 = (Normal tt, s2) /\
    dbConnect.exited s2 = Some 0 /\ dbConnect.opened s2 = true.
Proof.
  intros Hc Hd. eexists _, _. split.
  { unfold dbConnect.connectToDatabase. erewrite Dtry_throw.
    2:{ erewrite Dbind_normal by reflexivity. rewrite Hc.
        erewrite Dbind_normal.
        2:{ unfold dbConnect.client_connect, dbConnect.driver_call. rewrite Hd.
            reflexivity. }
        erewrite Dbind_throw; [reflexivity|].
        unfold dbConnect.ping, dbConnect.driver_call. cbn. reflexivity. }
    erewrite Dbind_normal by reflexivity. reflexivity. }
  cbn. split; [exact Hc|]. split; [reflexivity|].
  split; [apply close_when_not_cached; exact Hc|].
  split.
  { unfold dbConnect.on_signal.
    erewrite Dbind_normal by (apply close_when_not_cached; exact Hc). reflexivity. }
  by split.
Qed.

Lemma failed_ping_leaves_the_connection_open_witness :
  let s := fresh_client [None; Some "ping timed out"] in
  exists s1 s2,
    dbConnect.connectToDatabase s = (Throw {| message := "ping timed out" |}, s1) /\
    dbConnect.clientInstance s1 = false /\ dbConnect.opened s1 = true /\
    dbConnect.closeConnection s1 = (Normal tt, s1) /\
    dbConnect.on_signal s1 = (Normal tt, s2) /\
    dbConnect.exited s2 = Some 0 /\ dbConnect.opened s2 = true.
Proof.
  intros s.
  apply (failed_ping_leaves_the_connection_open s "ping timed out" [] eq_refl eq_refl).
Defined.

(** X22.  The life cycle of the driver's connection.  With
    [clientInstance] set, [connectToDatabase] returns at once and calls
    nothing; with [clientInstance] [null], [closeConnection] does nothing.
    A [close] that succeeds resets [clientInstance], after which a second
    [closeConnection] does nothing; a [close] that is refused is logged and
    thrown again, [clientInstance] stays set, and the signal listener
    rejects without calling [process.exit]. *)
Theorem driver_connection_lifecycle s :
  (dbConnect.clientInstance s = true ->
   dbConnect.connectToDatabase s = (Normal tt, s)) /\
  (dbConnect.clientInstance s = false ->
   dbConnect.closeConnection s = (Normal tt, s)) /\
  (dbConnect.clientInstance s = true ->
   (forall msg rest, dbConnect.driver s <> Some msg :: rest) ->
   exists s1,
     dbConnect.closeConnection s = (Normal tt, s1) /\
     dbConnect.clientInstance s1 = false /\ dbConnect.opened s1 = false /\
     dbConnect.closeConnection s1 = (Normal tt, s1)) /\
  (dbConnect.clientInstance s = true ->
   forall msg rest,
     dbConnect.driver s = Some msg :: rest ->
     exists s1,
       dbConnect.closeConnection s = (Throw {| message := msg |}, s1) /\
       dbConnect.clientInstance s1 = true /\
       dbConnect.on_signal s = (Throw {| message := msg |}, s1) /\
       dbConnect.exited s1 = dbConnect.exited s).
Proof.
  split; [apply connect_when_cached|]. split; [apply close_when_not_cached|].
  split.
  - intros Hc Hd. eexists. split; [by apply close_accepted|].
    split; [done|]. split; [done|]. by apply close_when_not_cached.
  - intros Hc msg rest Hd. eexists. split; [by apply close_refused|].
    split; [done|]. split; [|done].
    unfold dbConnect.on_signal.
    by erewrite Dbind_throw by (by apply close_refused).
Qed.

